(** * Strava challenge tracker: the data-collection pipeline of [collect-data.js]

    A shallow embedding of [src/collect-data.js] (token refresh, paginated
    activity fetch, distance breakdown, aggregation, persistence) and of
    [initializeFiles] and the routes of [src/server.js] that read or write
    the two files, with the properties of the natural-language
    specification stated and settled against it. *)

From Stdlib Require Import ZArith List Floats QArith Qcanon Permutation Sorted Lia.
From stdpp Require Import base gmap strings list fin_maps.

Local Open Scope string_scope.
Local Open Scope list_scope.
Local Open Scope nat_scope.
#[local] Set Warnings "-inexact-float".

(** ** JavaScript numbers

    Every distance in the program is a JavaScript number.  The program only
    uses the operations below, so the embedding is written once over this
    interface and run on two models: [binary64], the IEEE-754 doubles Node
    computes with, and [exact], the rationals the specification's algebraic
    sentences reason in. *)

Class JSNumber := {
  num : Type;
  zero : num;                      (* the literal 0 *)
  thousand : num;                  (* the literal 1000 *)
  kmToMiles : num;                 (* the literal 0.621371 *)
  add : num -> num -> num;         (* a + b *)
  sub : num -> num -> num;         (* a - b *)
  mul : num -> num -> num;         (* a * b *)
  div : num -> num -> num;         (* a / b *)
  truthy : num -> bool;            (* ToBoolean: false on 0, -0 and NaN *)
  positive : num -> bool;          (* 0 < v, false on NaN *)
  ltb : num -> num -> bool         (* a < b, false when either is NaN *)
}.

Definition binary64 : JSNumber := {|
  num := float;
  zero := 0%float;
  thousand := 1000%float;
  kmToMiles := 0.621371%float;
  add := PrimFloat.add;
  sub := PrimFloat.sub;
  mul := PrimFloat.mul;
  div := PrimFloat.div;
  truthy := fun v => negb (PrimFloat.eqb v 0%float || PrimFloat.is_nan v);
  positive := fun v => PrimFloat.ltb 0%float v;
  ltb := PrimFloat.ltb
|}.

Definition Qc_ltb (a b : Qc) : bool :=
  match (a ?= b)%Qc with Lt => true | _ => false end.

Definition exact : JSNumber := {|
  num := Qc;
  zero := Q2Qc 0;
  thousand := Q2Qc 1000;
  kmToMiles := Q2Qc (621371 # 1000000);
  add := Qcplus;
  sub := Qcminus;
  mul := Qcmult;
  div := Qcdiv;
  truthy := fun v => negb (Qc_eq_bool v (Q2Qc 0));
  positive := fun v => Qc_ltb (Q2Qc 0) v;
  ltb := Qc_ltb
|}.

(** The laws of exact arithmetic that some properties rest on.  [exact]
    has them; [binary64] does not (rounded addition is not associative). *)
Class ExactSum (N : JSNumber) : Prop := {
  add_comm : forall a b : num, add a b = add b a;
  add_assoc : forall a b c : num, add (add a b) c = add a (add b c)
}.

(** The comparator [b - a] orders numbers as [<] does, and [<] is a strict
    weak order: what ECMAScript calls a consistent comparator. *)
Class ConsistentOrder (N : JSNumber) : Prop := {
  sub_sign : forall a b : num, positive (sub b a) = ltb a b;
  ltb_asym : forall a b : num, ltb a b = true -> ltb b a = false;
  ltb_negtrans : forall a b c : num,
    ltb a b = false -> ltb b c = false -> ltb a c = false
}.

(** ** Data model *)

Module Activity.
(** One element of the provider's activity array.  [distance] is a number
    of metres and [type] a string; a missing or null property is [None]. *)
Record t {N : JSNumber} := mk { distance : option num; type : option string }.
#[global] Arguments mk {N} distance type.
End Activity.

Module TypeStat.
(** [{ distance, count }], the value stored per activity type.  [count]
    only ever holds a number of activities and is a natural number. *)
Record t {N : JSNumber} := mk { distance : num; count : nat }.
#[global] Arguments mk {N} distance count.
End TypeStat.

Module Breakdown.
(** [{ total, byType }], the result of [calculateDistanceBreakdown].
    [byType] is the object's own properties, keyed by activity type. *)
Record t {N : JSNumber} := mk { total : num; byType : gmap string TypeStat.t }.
#[global] Arguments mk {N} total byType.
End Breakdown.

(** [breakdown.byType] and [activityTypeBreakdown] are plain objects used
    as maps, so reading a property of them also finds what every object
    inherits from [Object.prototype].  These are the names Node defines
    there; each holds a function and ["__proto__"] the prototype itself,
    so the value read is truthy. *)
Definition objectPrototype : list string :=
  ["constructor"; "__defineGetter__"; "__defineSetter__"; "hasOwnProperty";
   "__lookupGetter__"; "__lookupSetter__"; "isPrototypeOf";
   "propertyIsEnumerable"; "toString"; "valueOf"; "__proto__";
   "toLocaleString"].

Definition inherited (name : string) : bool :=
  bool_decide (name ∈ objectPrototype).

Section Aggregation.
Context {N : JSNumber}.

(** [activity.distance || 0] *)
Definition distanceOrZero (activity : Activity.t) : num :=
  match Activity.distance activity with
  | Some d => if truthy d then d else zero
  | None => zero
  end.

(** [(activity.distance || 0) / 1000] *)
Definition distanceKm (activity : Activity.t) : num :=
  div (distanceOrZero activity) thousand.

(** [activity.type || 'Other']: the empty string is falsy. *)
Definition typeOrOther (activity : Activity.t) : string :=
  match Activity.type activity with
  | Some s => if decide (s = "") then "Other" else s
  | None => "Other"
  end.

(** The body of the [forEach] callback in [calculateDistanceBreakdown].
    The guard [!breakdown.byType[type]] creates an entry only when the read
    finds nothing, neither an own entry nor an inherited value.  Under an
    inherited name without an own entry the two [+=] then write to the
    inherited object (its [distance] and [count] become NaN), which is no
    part of the breakdown; NaN being falsy, no later read of the program
    tells the difference. *)
Definition breakdownStep (breakdown : Breakdown.t) (activity : Activity.t)
  : Breakdown.t :=
  let distance := distanceKm activity in
  let type := typeOrOther activity in
  let total := add (Breakdown.total breakdown) distance in
  let byType0 := Breakdown.byType breakdown in
  let byType1 :=
    match byType0 !! type with
    | Some _ => byType0
    | None =>
        if inherited type then byType0
        else <[type := TypeStat.mk zero 0]> byType0
    end in
  let byType2 :=
    alter (fun e => TypeStat.mk (add (TypeStat.distance e) distance)
                                (TypeStat.count e)) type byType1 in
  let byType3 :=
    alter (fun e => TypeStat.mk (TypeStat.distance e)
                                (TypeStat.count e + 1)) type byType2 in
  Breakdown.mk total byType3.

Definition calculateDistanceBreakdown (activities : list Activity.t)
  : Breakdown.t :=
  fold_left breakdownStep activities (Breakdown.mk zero ∅).

(** Legacy function for backwards compatibility. *)
Definition calculateTotalDistance (activities : list Activity.t) : num :=
  Breakdown.total (calculateDistanceBreakdown activities).

End Aggregation.

(** ** Credentials, provider and files *)

Module AthleteData.
(** One value of the [athlete_tokens.json] object. *)
Record t := mk {
  athleteId : Z;
  firstName : string;
  lastName : string;
  accessToken : string;
  refreshToken : string;
  expiresAt : Z;
  connectedAt : string
}.
End AthleteData.

Module TokenResponse.
(** [response.data] of a successful refresh-grant exchange. *)
Record t := mk { access_token : string; refresh_token : string; expires_at : Z }.
End TokenResponse.

Module AthleteStat.
(** One element of [athleteStats]. *)
Record t {N : JSNumber} := mk {
  name : string;
  distance : num;
  activityCount : nat;
  byType : gmap string TypeStat.t
}.
#[global] Arguments mk {N} name distance activityCount byType.
End AthleteStat.

Module Stats.
(** The object serialised into [stats.json].  [collectData] writes every
    property; [initializeFiles] writes only [totalDistance], [athletes]
    and a null [lastUpdated], so the other properties are optional. *)
Record t {N : JSNumber} := mk {
  totalDistance : num;
  totalDistanceMiles : option num;
  athletes : list AthleteStat.t;
  athleteCount : option nat;
  activityTypeBreakdown : option (gmap string TypeStat.t);
  lastUpdated : option Z;
  trackingPeriod : option (string * string)
}.
#[global] Arguments mk {N} totalDistance totalDistanceMiles athletes
  athleteCount activityTypeBreakdown lastUpdated trackingPeriod.
End Stats.

(** What a rejected promise or a [throw] carries. *)
Inductive Error :=
| FileError            (* fs.readFile / fs.access rejects *)
| SyntaxError          (* JSON.parse throws *)
| NetworkError         (* axios: no response *)
| HttpError (status : Z) (* axios: response with a non-2xx status *)
| TypeError.           (* a property read on null *)

(** A file of the project directory: absent (or unreadable), present with
    text [JSON.parse] rejects, present with a well-formed value, or present
    with text that parses to a value [parsed] of another shape. *)
Inductive File (A R : Type) :=
| Absent
| Garbled
| Holds (content : A)
| Misshapen (parsed : R).
Arguments Absent {A R}.
Arguments Garbled {A R}.
Arguments Holds {A R} content.
Arguments Misshapen {A R} parsed.

(** The credential object as [JSON.parse] returns it: the athlete ids in
    enumeration order, each with its record, or with [null] where the file
    has no record under the id.  Nothing in the program validates what was
    parsed. *)
Definition Entries : Type := list (Z * option AthleteData.t).

(** An object all of whose values are records. *)
Definition wellShaped (tokens : list (Z * AthleteData.t)) : Entries :=
  map (fun t => (fst t, Some (snd t))) tokens.

Module Nulled.
(** A credential object with a [null] among its values: the records
    before the first [null], the id the [null] is under, and the rest of
    the object. *)
Record t := mk {
  before : list (Z * AthleteData.t);
  athleteId : Z;
  rest : Entries
}.
End Nulled.

Definition withNull (p : Nulled.t) : Entries :=
  wellShaped (Nulled.before p) ++ (Nulled.athleteId p, None) :: Nulled.rest p.

(** What an object holds: records only, or a [null] somewhere. *)
Fixpoint shape (entries : Entries) : list (Z * AthleteData.t) + Nulled.t :=
  match entries with
  | [] => inl []
  | (athleteId, None) :: others => inr (Nulled.mk [] athleteId others)
  | (athleteId, Some athleteData) :: others =>
      match shape others with
      | inl tokens => inl ((athleteId, athleteData) :: tokens)
      | inr p =>
          inr (Nulled.mk ((athleteId, athleteData) :: Nulled.before p)
                         (Nulled.athleteId p) (Nulled.rest p))
      end
  end.

(** What the provider answers to one request. *)
Inductive Reply (A : Type) :=
| Data (data : A)
| Rejected (error : Error).
Arguments Data {A} data.
Arguments Rejected {A} error.

Inductive Request :=
| PostToken (client_id client_secret refresh_token : string)
| GetActivities (bearer after before : string) (page per_page : nat).

(** Lines written by [console.error]. *)
Inductive Complaint :=
| FailedToRefresh (athleteId : Z) (error : Error)
| ErrorFetchingActivities (error : Error)
| ErrorProcessingAthlete (athleteId : Z) (error : Error)
| ErrorInDataCollection (error : Error).

Module Config.
Record t := mk {
  STRAVA_CLIENT_ID : string;
  STRAVA_CLIENT_SECRET : string;
  START_DATE : string;
  END_DATE : string
}.
End Config.

Module Provider.
(** The third-party platform.  [token rt] is the answer to a refresh
    grant for refresh token [rt].  [activities bearer after before
    per_page] is the sequence of answers to the requests for page 1,
    page 2, ... of that query; an athlete's history is finite, so past
    the end of the sequence every page is the empty array.  The epoch
    conversion of the two dates is kept symbolic: the query carries the
    date strings. *)
Record t {N : JSNumber} := mk {
  token : string -> Reply TokenResponse.t;
  activities : string -> string -> string -> nat -> list (Reply (list Activity.t))
}.
#[global] Arguments mk {N} token activities.
End Provider.

Module World.
(** Everything outside the process that a run reads or changes.  The
    credential file is [Holds tokens] when every value of the object is a
    record and [Misshapen p] when some value is [null]; of the stats file
    no other shape than a snapshot is considered. *)
Record t {N : JSNumber} := mk {
  tokensFile : File (list (Z * AthleteData.t)) Nulled.t;
  statsFile : File Stats.t Empty_set;
  clock : Z;                 (* Math.floor(Date.now() / 1000) *)
  requests : list Request;   (* HTTP requests issued, oldest first *)
  stderr : list Complaint    (* console.error output, oldest first *)
}.
#[global] Arguments mk {N} tokensFile statsFile clock requests stderr.
End World.

(** ** A state-and-exception monad for the asynchronous code

    [await] on a rejected promise and [throw] both become [Throw]; the state
    reached so far is kept, as in JavaScript (nothing is rolled back). *)

Inductive Outcome (A : Type) :=
| Return (a : A)
| Throw (e : Error).
Arguments Return {A} a.
Arguments Throw {A} e.

Definition M (S A : Type) : Type := S -> Outcome A * S.

Definition ret {S A} (a : A) : M S A := fun s => (Return a, s).
Definition throw {S A} (e : Error) : M S A := fun s => (Throw e, s).
Definition bind {S A B} (m : M S A) (k : A -> M S B) : M S B :=
  fun s => match m s with
           | (Return a, s') => k a s'
           | (Throw e, s') => (Throw e, s')
           end.
Definition tryCatch {S A} (m : M S A) (handler : Error -> M S A) : M S A :=
  fun s => match m s with
           | (Return a, s') => (Return a, s')
           | (Throw e, s') => handler e s'
           end.
Definition modify {S} (f : S -> S) : M S unit := fun s => (Return tt, f s).

Notation "x <- m ;; k" := (bind m (fun x => k))
  (at level 100, m at next level, right associativity).
Notation "m ;;; k" := (bind m (fun _ => k))
  (at level 100, right associativity).

(** Run a computation on the world while an athlete record is in scope. *)
Definition onWorld {W O A} (m : M W A) : M (O * W) A :=
  fun s => match m (snd s) with (o, w') => (o, (fst s, w')) end.

(** Run a computation that holds a reference to the object [o]; the
    object, with whatever was assigned to its properties, is handed back
    together with the outcome. *)
Definition withObject {W O A} (o : O) (m : M (O * W) A) : M W (Outcome A * O) :=
  fun w => match m (o, w) with (r, (o', w')) => (Return (r, o'), w') end.


(** ** [Array.prototype.sort]

    ECMAScript fixes the result of [sort] for a consistent comparator: the
    elements in comparator order, ties in their original order.  The model
    is the insertion sort with that result: each element, taken in input
    order, goes in front of the first element the comparator puts after it. *)

Section ArraySort.
Context {N : JSNumber} {A : Type} (compareFn : A -> A -> num).

Fixpoint sortInsert (x : A) (sorted : list A) : list A :=
  match sorted with
  | [] => [x]
  | y :: rest =>
      if positive (compareFn y x) then x :: y :: rest
      else y :: sortInsert x rest
  end.

Definition Array_sort (l : list A) : list A :=
  fold_left (fun sorted x => sortInsert x sorted) l [].
End ArraySort.

(** ** The collection script *)

Module Locals.
(** The three accumulators of [collectData]: [totalDistance],
    [athleteStats] and [activityTypeBreakdown]. *)
Record t {N : JSNumber} := mk {
  totalDistance : num;
  athleteStats : list AthleteStat.t;
  activityTypeBreakdown : gmap string TypeStat.t
}.
#[global] Arguments mk {N} totalDistance athleteStats activityTypeBreakdown.
End Locals.

Section Collect.
Context {N : JSNumber}.

Definition W : Type := World.t.

Definition consoleError (c : Complaint) : M W unit :=
  modify (fun w : W =>
    World.mk (World.tokensFile w) (World.statsFile w) (World.clock w)
             (World.requests w) (World.stderr w ++ [c])%list).

(** Record that a request left the process. *)
Definition send (r : Request) : M W unit :=
  modify (fun w : W =>
    World.mk (World.tokensFile w) (World.statsFile w) (World.clock w)
             (World.requests w ++ [r])%list (World.stderr w)).

(** [Math.floor(Date.now() / 1000)] *)
Definition dateNow : M W Z := fun w => (Return (World.clock w), w).

Definition readTokens : M W Entries :=
  fun w => match World.tokensFile w with
           | Absent => (Throw FileError, w)
           | Garbled => (Throw SyntaxError, w)
           | Holds tokens => (Return (wellShaped tokens), w)
           | Misshapen p => (Return (withNull p), w)
           end.

(** The file that holds the object [tokens]. *)
Definition stored (tokens : Entries)
  : File (list (Z * AthleteData.t)) Nulled.t :=
  match shape tokens with
  | inl tokens => Holds tokens
  | inr p => Misshapen p
  end.

(** Both [fs.writeFile] calls are taken to succeed. *)
Definition saveTokens (tokens : Entries) : M W unit :=
  modify (fun w : W =>
    World.mk (stored tokens) (World.statsFile w) (World.clock w)
             (World.requests w) (World.stderr w)).

Definition writeStats (stats : Stats.t) : M W unit :=
  modify (fun w : W =>
    World.mk (World.tokensFile w) (Holds stats) (World.clock w)
             (World.requests w) (World.stderr w)).

(** [axios.post('https://www.strava.com/oauth/token', ...)] *)
Definition axiosPostToken (provider : Provider.t) (cfg : Config.t)
    (refresh_token : string) : M W TokenResponse.t :=
  send (PostToken (Config.STRAVA_CLIENT_ID cfg)
                  (Config.STRAVA_CLIENT_SECRET cfg) refresh_token) ;;;
  match Provider.token provider refresh_token with
  | Data response => ret response
  | Rejected error => throw error
  end.

(** The object [athleteData] refers to, and assignment to its properties. *)
Definition theObject : M (AthleteData.t * W) AthleteData.t :=
  fun s => (Return (fst s), s).
Definition assign (f : AthleteData.t -> AthleteData.t) : M (AthleteData.t * W) unit :=
  modify (fun s => (f (fst s), snd s)).

Definition set_accessToken (v : string) (a : AthleteData.t) : AthleteData.t :=
  AthleteData.mk (AthleteData.athleteId a) (AthleteData.firstName a)
    (AthleteData.lastName a) v (AthleteData.refreshToken a)
    (AthleteData.expiresAt a) (AthleteData.connectedAt a).
Definition set_refreshToken (v : string) (a : AthleteData.t) : AthleteData.t :=
  AthleteData.mk (AthleteData.athleteId a) (AthleteData.firstName a)
    (AthleteData.lastName a) (AthleteData.accessToken a) v
    (AthleteData.expiresAt a) (AthleteData.connectedAt a).
Definition set_expiresAt (v : Z) (a : AthleteData.t) : AthleteData.t :=
  AthleteData.mk (AthleteData.athleteId a) (AthleteData.firstName a)
    (AthleteData.lastName a) (AthleteData.accessToken a)
    (AthleteData.refreshToken a) v (AthleteData.connectedAt a).

(** Refresh access token if expired. *)
Definition refreshAccessToken (provider : Provider.t) (cfg : Config.t)
  : M (AthleteData.t * W) string :=
  now <- onWorld dateNow ;;
  athleteData <- theObject ;;
  if (AthleteData.expiresAt athleteData >? now)%Z
  then ret (AthleteData.accessToken athleteData)
  else
    tryCatch
      (response <- onWorld (axiosPostToken provider cfg
                              (AthleteData.refreshToken athleteData)) ;;
       assign (set_accessToken (TokenResponse.access_token response)) ;;;
       assign (set_refreshToken (TokenResponse.refresh_token response)) ;;;
       assign (set_expiresAt (TokenResponse.expires_at response)) ;;;
       athleteData <- theObject ;;
       ret (AthleteData.accessToken athleteData))
      (fun error =>
         onWorld (consoleError
           (FailedToRefresh (AthleteData.athleteId athleteData) error)) ;;;
         throw error).

Definition perPage : nat := 200.

(** The [while (true)] loop of [fetchActivities].  [answers] holds what
    the provider will answer from the current page on; the request for
    [page] is answered by its head, and by the empty array once the
    sequence is exhausted. *)
Fixpoint fetchPages (bearer after before : string)
    (answers : list (Reply (list Activity.t))) (page : nat)
    (allActivities : list Activity.t) : M W (list Activity.t) :=
  send (GetActivities bearer after before page perPage) ;;;
  match answers with
  | [] => ret allActivities
  | Rejected error :: _ => throw error
  | Data data :: later =>
      if (length data =? 0)%nat then ret allActivities
      else
        let allActivities := (allActivities ++ data)%list in
        if (length data <? perPage)%nat then ret allActivities
        else fetchPages bearer after before later (page + 1) allActivities
  end.

(** Fetch activities for an athlete within the date range. *)
Definition fetchActivities (provider : Provider.t)
    (accessToken startDate endDate : string) : M W (list Activity.t) :=
  tryCatch
    (fetchPages accessToken startDate endDate
       (Provider.activities provider accessToken startDate endDate perPage)
       1 [])
    (fun error =>
       consoleError (ErrorFetchingActivities error) ;;;
       ret []).

(** The body of [Object.keys(breakdown.byType).forEach] in [collectData];
    the guard [!activityTypeBreakdown[type]] reads like the one of
    [calculateDistanceBreakdown]. *)
Definition aggregateType (byType : gmap string TypeStat.t) (type : string)
    (activityTypeBreakdown : gmap string TypeStat.t) : gmap string TypeStat.t :=
  match byType !! type with
  | None => activityTypeBreakdown
  | Some entry =>
      let b1 :=
        match activityTypeBreakdown !! type with
        | Some _ => activityTypeBreakdown
        | None =>
            if inherited type then activityTypeBreakdown
            else <[type := TypeStat.mk zero 0]> activityTypeBreakdown
        end in
      let b2 :=
        alter (fun e => TypeStat.mk (add (TypeStat.distance e) (TypeStat.distance entry))
                                    (TypeStat.count e)) type b1 in
      alter (fun e => TypeStat.mk (TypeStat.distance e)
                                  (TypeStat.count e + TypeStat.count entry)) type b2
  end.

Definition aggregateTypes (byType activityTypeBreakdown : gmap string TypeStat.t)
  : gmap string TypeStat.t :=
  fold_left (fun acc type => aggregateType byType type acc)
    (map_to_list byType).*1 activityTypeBreakdown.

(** Lines 165-184 of [collectData]: fold one athlete's breakdown into
    the three accumulators. *)
Definition combine (acc : Locals.t) (name : string) (activityCount : nat)
    (breakdown : Breakdown.t) : Locals.t :=
  Locals.mk
    (add (Locals.totalDistance acc) (Breakdown.total breakdown))
    (Locals.athleteStats acc ++
       [AthleteStat.mk name (Breakdown.total breakdown) activityCount
                       (Breakdown.byType breakdown)])%list
    (aggregateTypes (Breakdown.byType breakdown) (Locals.activityTypeBreakdown acc)).

Definition displayName (a : AthleteData.t) : string :=
  (AthleteData.firstName a ++ " " ++ AthleteData.lastName a)%string.

(** One iteration of the [for ... of athleteIds] loop, with its [try]
    and [catch]. *)
Definition processAthlete (provider : Provider.t) (cfg : Config.t)
    (athleteId : Z) (acc : Locals.t) : M (AthleteData.t * W) Locals.t :=
  tryCatch
    (accessToken <- refreshAccessToken provider cfg ;;
     activities <- onWorld (fetchActivities provider accessToken
                              (Config.START_DATE cfg) (Config.END_DATE cfg)) ;;
     let breakdown := calculateDistanceBreakdown activities in
     athleteData <- theObject ;;
     ret (combine acc (displayName athleteData) (length activities) breakdown))
    (fun error =>
       onWorld (consoleError (ErrorProcessingAthlete athleteId error)) ;;;
       ret acc).

(** The loop over [athleteIds].  [tokens] is the parsed object in
    [Object.keys] order; each record is mutated in place, so the loop
    hands back the object as it is when the loop ends.  Where
    [tokens[athleteId]] is [null], reading [athleteData.firstName] for the
    progress line throws, before the [try] of the iteration. *)
Fixpoint processAthletes (provider : Provider.t) (cfg : Config.t)
    (tokens : Entries) (acc : Locals.t) : M W (Entries * Locals.t) :=
  match tokens with
  | [] => ret ([], acc)
  | (athleteId, None) :: _ => throw TypeError
  | (athleteId, Some athleteData) :: others =>
      r <- withObject athleteData (processAthlete provider cfg athleteId acc) ;;
      match r with
      | (Return acc, athleteData) =>
          r <- processAthletes provider cfg others acc ;;
          ret ((athleteId, Some athleteData) :: fst r, snd r)
      | (Throw error, _) => throw error
      end
  end.

(** [(a, b) => b.distance - a.distance] *)
Definition byDistance (a b : AthleteStat.t) : num :=
  sub (AthleteStat.distance b) (AthleteStat.distance a).

(** Main collection function. *)
Definition collectData (provider : Provider.t) (cfg : Config.t) : M W unit :=
  tryCatch
    (tokens <- readTokens ;;
     let athleteIds := map fst tokens in
     if (length athleteIds =? 0)%nat then ret tt
     else
       r <- processAthletes provider cfg tokens (Locals.mk zero [] ∅) ;;
       let tokens := fst r in
       let totalDistance := Locals.totalDistance (snd r) in
       let activityTypeBreakdown := Locals.activityTypeBreakdown (snd r) in
       saveTokens tokens ;;;
       let athleteStats := Array_sort byDistance (Locals.athleteStats (snd r)) in
       now <- dateNow ;;
       writeStats
         (Stats.mk totalDistance
                   (Some (mul totalDistance kmToMiles))
                   athleteStats
                   (Some (length athleteStats))
                   (Some activityTypeBreakdown)
                   (Some now)
                   (Some (Config.START_DATE cfg, Config.END_DATE cfg))))
    (fun error => consoleError (ErrorInDataCollection error)).

(** [initializeFiles] of [server.js]: create either file when
    [fs.access] rejects. *)
Definition initializeFiles : M W unit :=
  modify (fun w : W =>
    World.mk
      (match World.tokensFile w with
       | Absent => Holds []
       | f => f
       end)
      (match World.statsFile w with
       | Absent => Holds (Stats.mk zero None [] None None None None)
       | f => f
       end)
      (World.clock w) (World.requests w) (World.stderr w)).

End Collect.

(** ** Specification-side notions *)

Section Notions.
Context {N : JSNumber}.

(** The specification's reading of one activity: its distance in metres,
    a record without a distance (or whose distance is 0 or not a number)
    counting as 0 metres, and that distance divided by 1000. *)
Definition metres (activity : Activity.t) : num :=
  match Activity.distance activity with
  | Some d => if truthy d then d else zero
  | None => zero
  end.

Definition kilometres (activity : Activity.t) : num :=
  div (metres activity) thousand.

(** The sum of the activities' distances in kilometres, taken in list
    order from 0: the specification's "sum of each activity's distance
    converted to kilometers". *)
Definition sumKm (activities : list Activity.t) : num :=
  fold_left add (map kilometres activities) zero.

(** The activities grouped under [type]. *)
Definition ofType (type : string) (activities : list Activity.t)
  : list Activity.t :=
  filter (fun a => typeOrOther a = type) activities.

(** The entry a group of activities yields: nothing for an empty group. *)
Definition groupStat (group : list Activity.t) : option TypeStat.t :=
  match group with
  | [] => None
  | _ => Some (TypeStat.mk (sumKm group) (length group))
  end.

(** One more activity on an entry that may not exist yet. *)
Definition bump (entry : option TypeStat.t) (a : Activity.t) : option TypeStat.t :=
  let e := default (TypeStat.mk zero 0) entry in
  Some (TypeStat.mk (add (TypeStat.distance e) (distanceKm a))
                    (TypeStat.count e + 1)).

(** One more activity of [type] on what the breakdown holds under that
    name: an inherited name without an own entry gets none. *)
Definition bumpUnder (type : string) (entry : option TypeStat.t)
    (a : Activity.t) : option TypeStat.t :=
  match entry with
  | Some _ => bump entry a
  | None => if inherited type then None else bump None a
  end.

(** The activities that get an entry of their own. *)
Definition grouped (activities : list Activity.t) : list Activity.t :=
  filter (fun a => inherited (typeOrOther a) = false) activities.
End Notions.

(** ** Order of the persisted athlete list *)

Section SortNotions.
Context {N : JSNumber}.

(** [a] may stand before [b] in a descending list: [a]'s distance is not
    below [b]'s. *)
Definition notBelow (a b : AthleteStat.t) : Prop :=
  ltb (AthleteStat.distance a) (AthleteStat.distance b) = false.

(** Sorted by distance, descending: every athlete's distance is not below
    that of any athlete later in the list. *)
Definition descending (l : list AthleteStat.t) : Prop :=
  StronglySorted notBelow l.

(** A group of athletes that all have the same distance. *)
Definition tied (group : AthleteStat.t -> bool) : Prop :=
  forall a b, group a = true -> group b = true ->
              AthleteStat.distance a = AthleteStat.distance b.

(** The comparator is consistent on the athletes of [l]: the sign of
    [b.distance - a.distance] tells whether [a.distance < b.distance], and
    [<] is a strict weak order on their distances.  ECMAScript leaves the
    result of [sort] to the implementation otherwise (a NaN distance). *)
Definition consistentOn (l : list AthleteStat.t) : Prop :=
  forall a b c, In a l -> In b l -> In c l ->
    positive (byDistance a b)
    = ltb (AthleteStat.distance a) (AthleteStat.distance b)
    /\ (ltb (AthleteStat.distance a) (AthleteStat.distance b) = true ->
        ltb (AthleteStat.distance b) (AthleteStat.distance a) = false)
    /\ (ltb (AthleteStat.distance a) (AthleteStat.distance b) = false ->
        ltb (AthleteStat.distance b) (AthleteStat.distance c) = false ->
        ltb (AthleteStat.distance a) (AthleteStat.distance c) = false).
End SortNotions.

(** ** Combining per-user breakdowns *)

Section CombineNotions.
Context {N : JSNumber}.

(** What one processed athlete hands to the accumulators: display name,
    number of activities and breakdown. *)
Definition PerUser : Type := string * nat * Breakdown.t.

(** The accumulators after the given athletes, processed in list order. *)
Definition combineAll (users : list PerUser) (acc : Locals.t) : Locals.t :=
  fold_left (fun acc u => combine acc (fst (fst u)) (snd (fst u)) (snd u))
            users acc.

(** The global entry of a type after one more athlete's entry [e]. *)
Definition mergeEntry (global : option TypeStat.t) (e : TypeStat.t) : TypeStat.t :=
  let g := default (TypeStat.mk zero 0) global in
  TypeStat.mk (add (TypeStat.distance g) (TypeStat.distance e))
              (TypeStat.count g + TypeStat.count e).

(** What the global breakdown holds under [type] after one more athlete's
    entry [e] of that type: nothing, when it held nothing and the name is
    inherited. *)
Definition merged (global : option TypeStat.t) (type : string) (e : TypeStat.t)
  : option TypeStat.t :=
  match global with
  | Some _ => Some (mergeEntry global e)
  | None => if inherited type then None else Some (mergeEntry None e)
  end.

(** Accumulators with the same per-type activity counts. *)
Definition sameCounts (acc acc' : Locals.t) : Prop :=
  TypeStat.count <$> Locals.activityTypeBreakdown acc
  = TypeStat.count <$> Locals.activityTypeBreakdown acc'.

(** Accumulators with the same global total and the same global breakdown. *)
Definition sameSums (acc acc' : Locals.t) : Prop :=
  Locals.totalDistance acc = Locals.totalDistance acc'
  /\ Locals.activityTypeBreakdown acc = Locals.activityTypeBreakdown acc'.
End CombineNotions.

(** Three athletes with one run each, of 100 m, 200 m and 300 m. *)
Definition oneRun (name : string) (metres : float) : @PerUser binary64 :=
  (name, 1,
   calculateDistanceBreakdown
     [Activity.mk (N:=binary64) (Some metres) (Some "Run")]).

Definition threeRunners : list (@PerUser binary64) :=
  [oneRun "A" 100%float; oneRun "B" 200%float; oneRun "C" 300%float].

Definition threeRunnersReversed : list (@PerUser binary64) :=
  [oneRun "C" 300%float; oneRun "B" 200%float; oneRun "A" 100%float].

(** ** What a run leaves in the world *)

Section WorldNotions.
Context {N : JSNumber}.

(** The world after the requests [rs] have been issued. *)
Definition sent (w : W) (rs : list Request) : W :=
  World.mk (World.tokensFile w) (World.statsFile w) (World.clock w)
           (World.requests w ++ rs)%list (World.stderr w).

(** The world after the lines [cs] have gone to [console.error]. *)
Definition complained (w : W) (cs : list Complaint) : W :=
  World.mk (World.tokensFile w) (World.statsFile w) (World.clock w)
           (World.requests w) (World.stderr w ++ cs)%list.

(** Neither file was written and the clock reads the same. *)
Definition sameDisk (w w' : W) : Prop :=
  World.tokensFile w' = World.tokensFile w
  /\ World.statsFile w' = World.statsFile w
  /\ World.clock w' = World.clock w.
End WorldNotions.

(** ** Pagination, as the specification describes it *)

Section FetchNotions.
Context {N : JSNumber}.

(** The rejection pagination runs into, if it meets one before a page
    that ends it. *)
Fixpoint firstFailure (answers : list (Reply (list Activity.t))) : option Error :=
  match answers with
  | [] => None
  | Rejected e :: _ => Some e
  | Data d :: later =>
      if (length d <? perPage)%nat then None else firstFailure later
  end.

(** How many pages are asked for: up to and including the first page
    that is rejected, empty or shorter than the page size. *)
Fixpoint requestCount (answers : list (Reply (list Activity.t))) : nat :=
  match answers with
  | [] => 1
  | Rejected _ :: _ => 1
  | Data d :: later =>
      if (length d <? perPage)%nat then 1 else S (requestCount later)
  end.

(** The records of the pages asked for, in page order. *)
Fixpoint collected (answers : list (Reply (list Activity.t))) : list Activity.t :=
  match answers with
  | [] => []
  | Rejected _ :: _ => []
  | Data d :: later =>
      if (length d <? perPage)%nat then d else (d ++ collected later)%list
  end.

(** The requests for [n] consecutive pages from page [first] on. *)
Definition pageRequests (bearer after before : string) (first n : nat)
  : list Request :=
  map (fun page => GetActivities bearer after before page perPage) (seq first n).

(** The array in answer to the request for page [page] (1-based). *)
Definition pageData (answers : list (Reply (list Activity.t))) (page : nat)
  : Reply (list Activity.t) :=
  match answers !! (page - 1) with
  | Some reply => reply
  | None => Data []
  end.

(** The page ends pagination: it is rejected or has fewer records than
    the page size (an empty page included). *)
Definition endsPagination (reply : Reply (list Activity.t)) : Prop :=
  match reply with
  | Rejected _ => True
  | Data d => length d < perPage
  end.

(** The page is full: pagination goes on to the next one. *)
Definition fullPage (reply : Reply (list Activity.t)) : Prop :=
  match reply with
  | Rejected _ => False
  | Data d => perPage <= length d
  end.
End FetchNotions.

(** ** One run, athlete by athlete *)

Section RunNotions.
Context {N : JSNumber}.

(** The record with the three properties a refresh response overwrites. *)
Definition assignTokens (r : TokenResponse.t) (a : AthleteData.t) : AthleteData.t :=
  set_expiresAt (TokenResponse.expires_at r)
    (set_refreshToken (TokenResponse.refresh_token r)
       (set_accessToken (TokenResponse.access_token r) a)).

Definition refreshRequest (cfg : Config.t) (a : AthleteData.t) : Request :=
  PostToken (Config.STRAVA_CLIENT_ID cfg) (Config.STRAVA_CLIENT_SECRET cfg)
            (AthleteData.refreshToken a).

(** The token is still valid at time [now]. *)
Definition validAt (now : Z) (a : AthleteData.t) : bool :=
  (AthleteData.expiresAt a >? now)%Z.

(** What ensuring a valid token comes to at time [now]: the record to go
    on with, or the rejection of the refresh grant. *)
Definition refreshed (provider : Provider.t) (now : Z) (a : AthleteData.t)
  : Reply AthleteData.t :=
  if validAt now a then Data a
  else match Provider.token provider (AthleteData.refreshToken a) with
       | Data r => Data (assignTokens r a)
       | Rejected e => Rejected e
       end.

(** The activities the fetch hands to the caller. *)
Definition fetched (provider : Provider.t) (cfg : Config.t) (accessToken : string)
  : list Activity.t :=
  let answers :=
    Provider.activities provider accessToken
      (Config.START_DATE cfg) (Config.END_DATE cfg) perPage in
  match firstFailure answers with
  | Some _ => []
  | None => collected answers
  end.

(** What an athlete contributes to the run, if anything. *)
Definition contribution (provider : Provider.t) (cfg : Config.t) (now : Z)
    (a : AthleteData.t) : option PerUser :=
  match refreshed provider now a with
  | Rejected _ => None
  | Data a' =>
      let activities := fetched provider cfg (AthleteData.accessToken a') in
      Some (displayName a', length activities,
            calculateDistanceBreakdown activities)
  end.

Definition contributions (provider : Provider.t) (cfg : Config.t) (now : Z)
    (tokens : list (Z * AthleteData.t)) : list PerUser :=
  omap (fun t => contribution provider cfg now (snd t)) tokens.

(** The record as the run leaves it. *)
Definition recordAfter (provider : Provider.t) (now : Z) (a : AthleteData.t)
  : AthleteData.t :=
  match refreshed provider now a with
  | Data a' => a'
  | Rejected _ => a
  end.

Definition tokensAfter (provider : Provider.t) (now : Z)
    (tokens : list (Z * AthleteData.t)) : list (Z * AthleteData.t) :=
  map (fun t => (fst t, recordAfter provider now (snd t))) tokens.

(** The element of [athleteStats] pushed for a contribution. *)
Definition statOf (u : PerUser) : AthleteStat.t :=
  AthleteStat.mk (fst (fst u)) (Breakdown.total (snd u)) (snd (fst u))
                 (Breakdown.byType (snd u)).

(** The statistics pushed by the loop, in iteration order. *)
Definition pushed (provider : Provider.t) (cfg : Config.t) (now : Z)
    (tokens : list (Z * AthleteData.t)) : list AthleteStat.t :=
  map statOf (contributions provider cfg now tokens).

(** The snapshot a run over [tokens] writes at time [now]. *)
Definition snapshot (provider : Provider.t) (cfg : Config.t) (now : Z)
    (tokens : list (Z * AthleteData.t)) : Stats.t :=
  let acc := combineAll (contributions provider cfg now tokens)
                        (Locals.mk zero [] ∅) in
  let athleteStats := Array_sort byDistance (Locals.athleteStats acc) in
  Stats.mk (Locals.totalDistance acc)
           (Some (mul (Locals.totalDistance acc) kmToMiles))
           athleteStats
           (Some (length athleteStats))
           (Some (Locals.activityTypeBreakdown acc))
           (Some now)
           (Some (Config.START_DATE cfg, Config.END_DATE cfg)).

(** Two calls of [refreshAccessToken] in immediate succession. *)
Definition refreshTwice (provider : Provider.t) (cfg : Config.t)
  : M (AthleteData.t * W) (string * string) :=
  first <- refreshAccessToken provider cfg ;;
  second <- refreshAccessToken provider cfg ;;
  ret (first, second).
End RunNotions.

(** ** A small challenge, for concrete runs

    Alice's token is still valid and her second page is rejected after a
    full first page; Bob's token has expired and is refreshed, and he has
    a run and a ride of one kilometre each; Carol's token has expired and
    her refresh grant is rejected; Dave's token is valid and his history
    is exactly one full page. *)

Section Demo.
Context {N : JSNumber}.

Definition run1km : Activity.t := Activity.mk (Some thousand) (Some "Run").
Definition ride1km : Activity.t := Activity.mk (Some thousand) (Some "Ride").

Definition alice : AthleteData.t :=
  AthleteData.mk 1 "Alice" "A" "tokA" "refA" 100 "2026-01-02T10:00:00.000Z".
Definition bob : AthleteData.t :=
  AthleteData.mk 2 "Bob" "B" "tokB" "refB" 5 "2026-01-03T10:00:00.000Z".
Definition carol : AthleteData.t :=
  AthleteData.mk 3 "Carol" "C" "tokC" "refC" 5 "2026-01-04T10:00:00.000Z".
Definition dave : AthleteData.t :=
  AthleteData.mk 4 "Dave" "D" "tokD" "refD" 100 "2026-01-05T10:00:00.000Z".

Definition demoProvider : Provider.t :=
  Provider.mk
    (fun refresh_token =>
       if decide (refresh_token = "refB")
       then Data (TokenResponse.mk "tokB2" "refB2" 1000)
       else Rejected NetworkError)
    (fun bearer _ _ _ =>
       if decide (bearer = "tokA")
       then [Data (repeat run1km 200); Rejected (HttpError 500)]
       else if decide (bearer = "tokB2") then [Data [run1km; ride1km]]
       else if decide (bearer = "tokD") then [Data (repeat run1km 200)]
       else []).

Definition demoConfig : Config.t :=
  Config.mk "CLIENT_ID" "CLIENT_SECRET" "2026-01-01" "2026-12-31".

Definition demoTokens : list (Z * AthleteData.t) :=
  [(1%Z, alice); (2%Z, bob); (3%Z, carol); (4%Z, dave)].

(** Before the first run: credentials stored, no snapshot yet. *)
Definition demoWorld : W :=
  World.mk (Holds demoTokens) Absent 50 [] [].

(** A server with no athlete connected and no snapshot yet. *)
Definition emptyStore : W :=
  World.mk (Holds []) Absent 50 [] [].

(** A credential file that does not parse. *)
Definition garbledStore : W :=
  World.mk Garbled Absent 50 [] [].

(** A credential file that parses, with Alice's record under 1 and
    [null] under 2. *)
Definition nulledStore : W :=
  World.mk (Misshapen (Nulled.mk [(1%Z, alice)] 2 [])) Absent 50 [] [].
End Demo.

(** A run of 5000 m and an activity of 3000 m whose type is the name of a
    property every object inherits. *)
Definition runAndConstructor : list (@Activity.t binary64) :=
  [Activity.mk (N:=binary64) (Some 5000%float) (Some "Run");
   Activity.mk (N:=binary64) (Some 3000%float) (Some "constructor")].

(** The specification's two-athlete scenario: A with two runs of 5 km,
    B with one ride of 5 km. *)
Definition run5km : @Activity.t exact :=
  Activity.mk (N:=exact) (Some (Q2Qc 5000)) (Some "Run").
Definition ride5km : @Activity.t exact :=
  Activity.mk (N:=exact) (Some (Q2Qc 5000)) (Some "Ride").
Definition twoAthletes : list (@PerUser exact) :=
  [("A", 2, calculateDistanceBreakdown [run5km; run5km]);
   ("B", 1, calculateDistanceBreakdown [ride5km])].
Definition twoAthletesSwapped : list (@PerUser exact) :=
  [("B", 1, calculateDistanceBreakdown [ride5km]);
   ("A", 2, calculateDistanceBreakdown [run5km; run5km])].

(** ** Sums over a breakdown, paging providers and request traces *)

Section MoreNotions.
Context {N : JSNumber}.

(** A quantity of the entries summed over all types. *)
Definition sumOver {B : Type} (op : B -> B -> B) (unit : B)
    (measure : TypeStat.t -> B) (byType : gmap string TypeStat.t) : B :=
  map_fold (fun _ e acc => op (measure e) acc) unit byType.

(** The number of activities a breakdown accounts for, over all types. *)
Definition totalCount (byType : gmap string TypeStat.t) : nat :=
  sumOver Nat.add 0 TypeStat.count byType.

(** A breakdown none of whose entries is under an inherited name, as
    [calculateDistanceBreakdown] builds them. *)
Definition ownKeys (byType : gmap string TypeStat.t) : Prop :=
  forall type e, byType !! type = Some e -> inherited type = false.

(** The number of activities of [type] in a breakdown, 0 without an entry. *)
Definition typeCountOf (type : string) (byType : gmap string TypeStat.t) : nat :=
  default 0 (TypeStat.count <$> byType !! type).

(** A provider that serves an athlete's history in pages of [perPage]
    records: page k holds records (k-1)*perPage to k*perPage-1. *)
Fixpoint pagesOf (fuel : nat) (history : list Activity.t)
  : list (Reply (list Activity.t)) :=
  match fuel with
  | 0 => []
  | S fuel =>
      match history with
      | [] => []
      | _ => Data (take perPage history) :: pagesOf fuel (drop perPage history)
      end
  end.

Definition servedInPages (history : list Activity.t)
  : list (Reply (list Activity.t)) :=
  pagesOf (length history) history.

(** The requests one athlete costs a run at time [now]: the refresh
    exchange when the token has expired, then the page requests with the
    access token in force. *)
Definition athleteRequests (provider : Provider.t) (cfg : Config.t) (now : Z)
    (a : AthleteData.t) : list Request :=
  (if validAt now a then [] else [refreshRequest cfg a])
  ++ match refreshed provider now a with
     | Data a' =>
         pageRequests (AthleteData.accessToken a')
           (Config.START_DATE cfg) (Config.END_DATE cfg) 1
           (requestCount
              (Provider.activities provider (AthleteData.accessToken a')
                 (Config.START_DATE cfg) (Config.END_DATE cfg) perPage))
     | Rejected _ => []
     end.

(** Two records of the same athlete: everything but the tokens agrees. *)
Definition sameIdentity (a b : AthleteData.t) : Prop :=
  AthleteData.athleteId a = AthleteData.athleteId b
  /\ AthleteData.firstName a = AthleteData.firstName b
  /\ AthleteData.lastName a = AthleteData.lastName b
  /\ AthleteData.connectedAt a = AthleteData.connectedAt b.
End MoreNotions.

(** ** The authentication server

    The routes of the server that read or write the two files: the OAuth
    callback, the public read-only endpoints, the manual trigger, the admin
    session and the two admin routes.  Requests are handled one at a time;
    the server's console output and the expiry of session cookies are not
    part of the model. *)

Module AuthResponse.
(** [tokenResponse.data] of an authorization-code exchange. *)
Record t := mk {
  access_token : string;
  refresh_token : string;
  expires_at : Z;
  athlete_id : Z;
  athlete_firstname : string;
  athlete_lastname : string
}.
End AuthResponse.

Module ServerEnv.
(** What the server takes from its environment: the admin password,
    [parseFloat(process.env.MILE_TARGET)] ([None] when it is not a number),
    the provider's answer to an authorization code, and the text
    [new Date().toISOString()] gives at a clock reading. *)
Record t {N : JSNumber} := mk {
  ADMIN_PASSWORD : string;
  MILE_TARGET : option num;
  exchange : option string -> Reply AuthResponse.t;
  toISOString : Z -> string
}.
#[global] Arguments mk {N} ADMIN_PASSWORD MILE_TARGET exchange toISOString.
End ServerEnv.

Module Server.
(** The server's state: the world, the session ids whose session has
    [isAdmin] set, and the authorization codes sent to the provider. *)
Record t {N : JSNumber} := mk {
  world : W;
  admins : gset string;
  exchanges : list (option string)
}.
#[global] Arguments mk {N} world admins exchanges.
End Server.

(** What a route sends back. *)
Inductive Body {N : JSNumber} :=
| AuthorizationFailedPage
| ConnectedPage (firstname : string)
| ConnectErrorPage
| StatsJson (stats : Stats.t) (mileTarget : num)
| AthletesJson (count : nat) (athletes : list (string * string))
| AthleteListJson (athletes : list (Z * string * string))
| CollectedJson
| SuccessJson
| RemovedJson (message : string) (athleteId : Z)
| AuthenticatedJson (authenticated : bool)
| ErrorJson (error : string).

(** The requests of the routes above.  [sid] is the session the request's
    cookie names; the path parameter of a removal is the decimal numeral of
    [athleteId], other path parameters are not part of the model. *)
Inductive HttpRequest :=
| GetAuthCallback (code error : option string)
| GetStats
| GetAthletes
| GetTriggerCollect
| PostAdminLogin (sid : string) (password : option string)
| PostAdminLogout (sid : string)
| GetAdminCheck (sid : string)
| GetAthletesList (sid : string)
| DeleteAthlete (sid : string) (athleteId : Z).

Section ServerModel.
Context {N : JSNumber}.

Definition Response : Type := nat * Body.

(** [tokens[athleteId]] on the parsed credential object; [V] is what the
    object holds under an id. *)
Fixpoint getProperty {V : Type} (athleteId : Z) (tokens : list (Z * V))
  : option V :=
  match tokens with
  | [] => None
  | (k, v) :: rest =>
      if (k =? athleteId)%Z then Some v else getProperty athleteId rest
  end.

(** [delete tokens[athleteId]]: the other properties keep their order. *)
Fixpoint deleteProperty {V : Type} (athleteId : Z) (tokens : list (Z * V))
  : list (Z * V) :=
  match tokens with
  | [] => []
  | (k, v) :: rest =>
      if (k =? athleteId)%Z then deleteProperty athleteId rest
      else (k, v) :: deleteProperty athleteId rest
  end.

(** A new integer key takes its place in ascending order, the order in
    which an object enumerates such keys: athlete ids are non-negative
    integers below 2^32 - 1, so the keys of the credential object are
    array indices, which [Object.keys], [Object.values] and
    [JSON.stringify] visit in ascending order. *)
Fixpoint insertProperty {V : Type} (athleteId : Z) (record : V)
    (tokens : list (Z * V)) : list (Z * V) :=
  match tokens with
  | [] => [(athleteId, record)]
  | (k, v) :: rest =>
      if (athleteId <? k)%Z then (athleteId, record) :: (k, v) :: rest
      else (k, v) :: insertProperty athleteId record rest
  end.

(** [tokens[athleteId] = record]: an existing property keeps its place. *)
Definition setProperty {V : Type} (athleteId : Z) (record : V)
    (tokens : list (Z * V)) : list (Z * V) :=
  match getProperty athleteId tokens with
  | Some _ =>
      map (fun t => if (fst t =? athleteId)%Z then (athleteId, record) else t)
          tokens
  | None => insertProperty athleteId record tokens
  end.

(** The results of a callback that reads properties of each record of
    the object, in enumeration order: nothing when a value is [null]. *)
Fixpoint eachRecord {A : Type} (f : Z -> AthleteData.t -> A) (tokens : Entries)
  : option (list A) :=
  match tokens with
  | [] => Some []
  | (athleteId, Some t) :: others =>
      option_map (cons (f athleteId t)) (eachRecord f others)
  | (_, None) :: _ => None
  end.

(** What reading properties of the values yields; on [null] the read
    throws. *)
Definition reading {S A : Type} (result : option A) : M S A :=
  match result with
  | Some a => ret a
  | None => throw TypeError
  end.

(** Run a computation on the world inside the server. *)
Definition inWorld {A} (m : M W A) : M Server.t A :=
  fun s => match m (Server.world s) with
           | (o, w') => (o, Server.mk w' (Server.admins s) (Server.exchanges s))
           end.

(** [axios.post(..., { code, grant_type: 'authorization_code' })] *)
Definition axiosPostCode (env : ServerEnv.t) (code : option string)
  : M Server.t AuthResponse.t :=
  modify (fun s => Server.mk (Server.world s) (Server.admins s)
                             (Server.exchanges s ++ [code])) ;;;
  match ServerEnv.exchange env code with
  | Data response => ret response
  | Rejected error => throw error
  end.

(** A query parameter is truthy when present and not empty. *)
Definition given (parameter : option string) : bool :=
  match parameter with
  | Some s => negb (String.eqb s "")
  | None => false
  end.

(** The record the callback stores for a newly authorized athlete. *)
Definition connectedRecord (env : ServerEnv.t) (r : AuthResponse.t) (now : Z)
  : AthleteData.t :=
  AthleteData.mk (AuthResponse.athlete_id r)
                 (AuthResponse.athlete_firstname r)
                 (AuthResponse.athlete_lastname r)
                 (AuthResponse.access_token r)
                 (AuthResponse.refresh_token r)
                 (AuthResponse.expires_at r)
                 (ServerEnv.toISOString env now).

(** [app.get('/auth/callback', ...)] *)
Definition authCallback (env : ServerEnv.t) (code error : option string)
  : M Server.t Response :=
  if given error then ret (200, AuthorizationFailedPage)
  else
    tryCatch
      (tokenResponse <- axiosPostCode env code ;;
       tokens <- inWorld readTokens ;;
       now <- inWorld dateNow ;;
       let tokens :=
         setProperty (AuthResponse.athlete_id tokenResponse)
                     (Some (connectedRecord env tokenResponse now)) tokens in
       inWorld (saveTokens tokens) ;;;
       ret (200, ConnectedPage (AuthResponse.athlete_firstname tokenResponse)))
      (fun err => ret (500, ConnectErrorPage)).

(** [fs.readFile(STATS_FILE)] followed by [JSON.parse]. *)
Definition readStats : M W Stats.t :=
  fun w => match World.statsFile w with
           | Absent => (Throw FileError, w)
           | Garbled => (Throw SyntaxError, w)
           | Holds stats => (Return stats, w)
           | Misshapen parsed => match parsed with end
           end.

(** [parseFloat(process.env.MILE_TARGET) || 0] *)
Definition mileTarget (env : ServerEnv.t) : num :=
  match ServerEnv.MILE_TARGET env with
  | Some v => if truthy v then v else zero
  | None => zero
  end.

(** [app.get('/api/stats', ...)] *)
Definition apiStats (env : ServerEnv.t) : M Server.t Response :=
  tryCatch
    (stats <- inWorld readStats ;;
     ret (200, StatsJson stats (mileTarget env)))
    (fun _ => ret (500, ErrorJson "Failed to read stats")).

(** [app.get('/api/athletes', ...)] *)
Definition apiAthletes : M Server.t Response :=
  tryCatch
    (tokens <- inWorld readTokens ;;
     athletes <- reading
                   (eachRecord
                      (fun _ t => (displayName t, AthleteData.connectedAt t))
                      tokens) ;;
     ret (200, AthletesJson (length athletes) athletes))
    (fun _ => ret (500, ErrorJson "Failed to read athletes")).

(** [app.get('/api/trigger-collect', ...)]: the collection script is run
    as a child process, which exits normally whatever the run meets.  The
    server is started in its own directory with [DATA_DIR = __dirname], so
    the script it runs is the one modelled above and works on the server's
    own two files. *)
Definition apiTriggerCollect (provider : Provider.t) (cfg : Config.t)
  : M Server.t Response :=
  inWorld (collectData provider cfg) ;;;
  ret (200, CollectedJson).

(** Admin authentication middleware. *)
Definition requireAdminSession (sid : string) (next : M Server.t Response)
  : M Server.t Response :=
  fun s => if decide (sid ∈ Server.admins s) then next s
           else (Return (401, ErrorJson "Not authenticated"), s).

(** [app.post('/api/admin/login', ...)] *)
Definition adminLogin (env : ServerEnv.t) (sid : string)
    (password : option string) : M Server.t Response :=
  if decide (password = Some (ServerEnv.ADMIN_PASSWORD env))
  then
    modify (fun s => Server.mk (Server.world s) ({[sid]} ∪ Server.admins s)
                               (Server.exchanges s)) ;;;
    ret (200, SuccessJson)
  else ret (401, ErrorJson "Invalid password").

(** [app.post('/api/admin/logout', ...)] *)
Definition adminLogout (sid : string) : M Server.t Response :=
  modify (fun s => Server.mk (Server.world s) (Server.admins s ∖ {[sid]})
                             (Server.exchanges s)) ;;;
  ret (200, SuccessJson).

(** [app.get('/api/admin/check', ...)] *)
Definition adminCheck (sid : string) : M Server.t Response :=
  fun s => (Return (200, AuthenticatedJson (bool_decide (sid ∈ Server.admins s))), s).

(** [app.get('/api/athletes/list', requireAdminSession, ...)] *)
Definition athletesList (sid : string) : M Server.t Response :=
  requireAdminSession sid
    (tryCatch
       (tokens <- inWorld readTokens ;;
        athletes <- reading
                      (eachRecord
                         (fun athleteId t =>
                            (athleteId, displayName t, AthleteData.connectedAt t))
                         tokens) ;;
        ret (200, AthleteListJson athletes))
       (fun _ => ret (500, ErrorJson "Failed to list athletes"))).

(** [app.delete('/api/athletes/:athleteId', requireAdminSession, ...)] *)
Definition deleteAthlete (sid : string) (athleteId : Z) : M Server.t Response :=
  requireAdminSession sid
    (tryCatch
       (tokens <- inWorld readTokens ;;
        match getProperty athleteId tokens with
        | Some (Some athleteData) =>
            let athleteName := displayName athleteData in
            inWorld (saveTokens (deleteProperty athleteId tokens)) ;;;
            ret (200, RemovedJson ("Removed athlete: " ++ athleteName)%string
                                  athleteId)
        | _ => ret (404, ErrorJson "Athlete not found")
        end)
       (fun _ => ret (500, ErrorJson "Failed to remove athlete"))).

(** The router. *)
Definition handle (env : ServerEnv.t) (provider : Provider.t) (cfg : Config.t)
    (request : HttpRequest) : M Server.t Response :=
  match request with
  | GetAuthCallback code error => authCallback env code error
  | GetStats => apiStats env
  | GetAthletes => apiAthletes
  | GetTriggerCollect => apiTriggerCollect provider cfg
  | PostAdminLogin sid password => adminLogin env sid password
  | PostAdminLogout sid => adminLogout sid
  | GetAdminCheck sid => adminCheck sid
  | GetAthletesList sid => athletesList sid
  | DeleteAthlete sid athleteId => deleteAthlete sid athleteId
  end.

(** The server's state after a sequence of requests. *)
Definition serve (env : ServerEnv.t) (provider : Provider.t) (cfg : Config.t)
    (requests : list HttpRequest) (s : Server.t) : Server.t :=
  fold_left (fun s request => snd (handle env provider cfg request s))
            requests s.

(** The world at another clock reading, the files as they are. *)
Definition atTime (now : Z) (w : W) : W :=
  World.mk (World.tokensFile w) (World.statsFile w) now
           (World.requests w) (World.stderr w).

(** The ids under which an object holds a record. *)
Definition recordIds (tokens : Entries) : list Z :=
  omap (fun t => match snd t with Some _ => Some (fst t) | None => None end)
       tokens.

(** The athlete ids the credential file holds a record for. *)
Definition storedIds (w : W) : list Z :=
  match World.tokensFile w with
  | Holds tokens => map fst tokens
  | Misshapen p => recordIds (withNull p)
  | _ => []
  end.
End ServerModel.

(** ** A small server, for concrete runs

    Erin authorizes with the code "code5", every other code is rejected;
    one admin session is open. *)

Section DemoServer.
Context {N : JSNumber}.

Definition erinGrant : AuthResponse.t :=
  AuthResponse.mk "tokE" "refE" 2000 5 "Erin" "E".

Definition demoEnv : ServerEnv.t :=
  ServerEnv.mk "s3cret" None
    (fun code =>
       if decide (code = Some "code5") then Data erinGrant
       else Rejected (HttpError 400))
    (fun _ => "2026-02-01T00:00:00.000Z").

Definition demoServer : Server.t := Server.mk demoWorld {["sid1"]} [].

(** The same server on a credential file that does not parse. *)
Definition garbledServer : Server.t := Server.mk garbledStore {["sid1"]} [].

(** A store whose only token has expired and is not refreshed. *)
Definition lapsedStore : W :=
  World.mk (Holds [(3%Z, carol)]) Absent 50 [] [].

(** A provider that grants no refresh and serves [history] in pages. *)
Definition pagingProvider (history : list Activity.t) : Provider.t :=
  Provider.mk (fun _ => Rejected NetworkError)
              (fun _ _ _ _ => servedInPages history).

(** A morning at the server: a second admin logs in, a session that never
    logged in tries to remove Bob, a collection is triggered and Erin
    connects. *)
Definition demoRequests : list HttpRequest :=
  [PostAdminLogin "sid2" (Some "s3cret");
   DeleteAthlete "sid3" 2;
   GetTriggerCollect;
   GetAuthCallback (Some "code5") None].
End DemoServer.

(** * Properties *)

(** ** Distance breakdown *)

Section BreakdownFacts.
Context {N : JSNumber}.

Lemma breakdownStep_total (b : Breakdown.t) (a : Activity.t) :
  Breakdown.total (breakdownStep b a) = add (Breakdown.total b) (distanceKm a).
Proof. reflexivity. Qed.

Lemma breakdownStep_lookup (b : Breakdown.t) (a : Activity.t) (type : string) :
  Breakdown.byType (breakdownStep b a) !! type =
    if decide (typeOrOther a = type)
    then bumpUnder type (Breakdown.byType b !! type) a
    else Breakdown.byType b !! type.
Proof.
  unfold breakdownStep, bumpUnder, bump; cbn [Breakdown.byType].
  destruct (decide (typeOrOther a = type)) as [<-|Hne].
  - rewrite !lookup_alter_eq.
    destruct (Breakdown.byType b !! typeOrOther a) as [e|] eqn:E.
    + rewrite E. reflexivity.
    + destruct (inherited (typeOrOther a)).
      * rewrite E. reflexivity.
      * rewrite lookup_insert_eq. reflexivity.
  - rewrite !lookup_alter_ne by done.
    destruct (Breakdown.byType b !! typeOrOther a); [reflexivity|].
    destruct (inherited (typeOrOther a)); [reflexivity|].
    by rewrite lookup_insert_ne.
Qed.

Lemma fold_breakdownStep_total (l : list Activity.t) (b : Breakdown.t) :
  Breakdown.total (fold_left breakdownStep l b)
  = fold_left add (map distanceKm l) (Breakdown.total b).
Proof.
  revert b. induction l as [|a l IH]; intros b; cbn; [reflexivity|].
  rewrite IH. reflexivity.
Qed.

Lemma fold_breakdownStep_lookup (l : list Activity.t) (b : Breakdown.t)
    (type : string) :
  Breakdown.byType (fold_left breakdownStep l b) !! type
  = fold_left (bumpUnder type) (ofType type l) (Breakdown.byType b !! type).
Proof.
  revert b. induction l as [|a l IH]; intros b; [reflexivity|].
  change (fold_left breakdownStep (a :: l) b)
    with (fold_left breakdownStep l (breakdownStep b a)).
  rewrite IH, breakdownStep_lookup. unfold ofType.
  rewrite filter_cons. destruct (decide (typeOrOther a = type)); reflexivity.
Qed.

Lemma fold_bump_Some (group : list Activity.t) (e : TypeStat.t) :
  fold_left bump group (Some e)
  = Some (TypeStat.mk
            (fold_left add (map distanceKm group) (TypeStat.distance e))
            (TypeStat.count e + length group)).
Proof.
  revert e. induction group as [|a group IH]; intros e; cbn.
  - rewrite Nat.add_0_r. by destruct e.
  - unfold bump at 2; cbn. rewrite IH; cbn. do 2 f_equal. lia.
Qed.

Lemma fold_bump_None (group : list Activity.t) :
  fold_left bump group None = groupStat group.
Proof.
  destruct group as [|a group]; [reflexivity|].
  cbn. unfold bump at 2; cbn. rewrite fold_bump_Some. reflexivity.
Qed.

Lemma fold_bumpUnder_own (type : string) (group : list Activity.t)
    (entry : option TypeStat.t) :
  inherited type = false ->
  fold_left (bumpUnder type) group entry = fold_left bump group entry.
Proof.
  intros Hown. revert entry.
  induction group as [|a group IH]; intros entry; [reflexivity|].
  cbn [fold_left]. rewrite IH. f_equal.
  unfold bumpUnder. rewrite Hown. by destruct entry.
Qed.

Lemma fold_bumpUnder_inherited (type : string) (group : list Activity.t) :
  inherited type = true ->
  fold_left (bumpUnder type) group None = None.
Proof.
  intros Hinh. induction group as [|a group IH]; [reflexivity|].
  cbn [fold_left]. unfold bumpUnder at 2. by rewrite Hinh.
Qed.

(** What [calculateDistanceBreakdown] holds under a name. *)
Lemma calculateDistanceBreakdown_lookup (activities : list Activity.t)
    (type : string) :
  Breakdown.byType (calculateDistanceBreakdown activities) !! type
  = if inherited type then None else groupStat (ofType type activities).
Proof.
  unfold calculateDistanceBreakdown.
  rewrite fold_breakdownStep_lookup; cbn. rewrite lookup_empty.
  destruct (inherited type) eqn:E.
  - by apply fold_bumpUnder_inherited.
  - rewrite fold_bumpUnder_own by done. apply fold_bump_None.
Qed.

(** X23. What [calculateDistanceBreakdown] computes, for every list of
    activity records: the [total] is the sum over the list, in order from
    0, of each activity's distance divided by 1000, a missing distance
    counting as 0; under a name that objects do not inherit the breakdown
    holds the kilometre sum and the number of the activities of that type
    (nothing when there is none), an unset or empty type being normalized
    to "Other"; under an inherited name ("constructor", "toString", ...)
    it holds nothing, although such activities count toward the total. *)
Theorem breakdown_total_and_grouping (activities : list Activity.t) :
  Breakdown.total (calculateDistanceBreakdown activities) = sumKm activities
  /\ (forall type : string,
        Breakdown.byType (calculateDistanceBreakdown activities) !! type
        = if inherited type then None
          else groupStat (ofType type activities))
  /\ (forall a : Activity.t,
        match Activity.type a with
        | None => typeOrOther a = "Other"
        | Some s => typeOrOther a = if decide (s = "") then "Other" else s
        end).
Proof.
  split; [|split].
  - unfold calculateDistanceBreakdown, sumKm.
    by rewrite fold_breakdownStep_total.
  - apply calculateDistanceBreakdown_lookup.
  - intros a. unfold typeOrOther. by destruct (Activity.type a).
Qed.

(** C10. The legacy [calculateTotalDistance] returns exactly the [total]
    of [calculateDistanceBreakdown] on every list of activity records;
    both are the kilometre sum of the list. *)
Theorem legacy_total_is_breakdown_total (activities : list Activity.t) :
  calculateTotalDistance activities
  = Breakdown.total (calculateDistanceBreakdown activities)
  /\ calculateTotalDistance activities = sumKm activities.
Proof.
  split; [reflexivity|].
  unfold calculateTotalDistance, calculateDistanceBreakdown, sumKm.
  by rewrite fold_breakdownStep_total.
Qed.

End BreakdownFacts.

(** ** [Array.prototype.sort] with the distance comparator *)

Section SortFacts.
Context {N : JSNumber}.

Lemma sortInsert_Permutation (x : AthleteStat.t) (l : list AthleteStat.t) :
  Permutation (sortInsert byDistance x l) (x :: l).
Proof.
  induction l as [|y l IH]; cbn; [reflexivity|].
  destruct (positive (byDistance y x)); [reflexivity|].
  rewrite IH. apply perm_swap.
Qed.

Lemma Array_sort_Permutation_acc (l acc : list AthleteStat.t) :
  Permutation (fold_left (fun sorted x => sortInsert byDistance x sorted) l acc)
              (acc ++ l).
Proof.
  revert acc. induction l as [|x l IH]; intros acc; cbn.
  - by rewrite app_nil_r.
  - rewrite IH, sortInsert_Permutation.
    change (x :: acc ++ l) with ((x :: acc) ++ l).
    rewrite (Permutation_middle acc l x). reflexivity.
Qed.

Lemma Array_sort_Permutation (l : list AthleteStat.t) :
  Permutation (Array_sort byDistance l) l.
Proof. apply (Array_sort_Permutation_acc l []). Qed.

Lemma ConsistentOrder_consistentOn `{!ConsistentOrder N}
    (l : list AthleteStat.t) : consistentOn l.
Proof.
  intros a b c _ _ _. split; [apply sub_sign|split].
  - apply ltb_asym.
  - apply ltb_negtrans.
Qed.

Lemma filter_none {A} (group : A -> bool) (l : list A) :
  (forall z, In z l -> group z = false) -> List.filter group l = [].
Proof.
  induction l as [|z l IH]; intros H; cbn; [reflexivity|].
  rewrite (H z) by (by left). apply IH. intros; apply H; by right.
Qed.

Section Consistent.
Variable universe : list AthleteStat.t.
Hypothesis consistent : consistentOn universe.

Lemma positive_byDistance (y x : AthleteStat.t) :
  In y universe -> In x universe ->
  positive (byDistance y x)
  = ltb (AthleteStat.distance y) (AthleteStat.distance x).
Proof. intros Hy Hx. apply (consistent y x x Hy Hx Hx). Qed.

Lemma ltb_irrefl_on (x : AthleteStat.t) :
  In x universe ->
  ltb (AthleteStat.distance x) (AthleteStat.distance x) = false.
Proof.
  intros Hx.
  destruct (ltb (AthleteStat.distance x) (AthleteStat.distance x)) eqn:E;
    [|reflexivity].
  pose proof (proj1 (proj2 (consistent x x x Hx Hx Hx)) E). congruence.
Qed.

Lemma sortInsert_incl (x : AthleteStat.t) (l : list AthleteStat.t) :
  In x universe -> incl l universe ->
  incl (sortInsert byDistance x l) universe.
Proof.
  intros Hx Hl z Hz.
  apply (Permutation_in _ (sortInsert_Permutation x l)) in Hz.
  destruct Hz as [<-|Hz]; [exact Hx|by apply Hl].
Qed.

Lemma sortInsert_descending (x : AthleteStat.t) (l : list AthleteStat.t) :
  In x universe -> incl l universe ->
  descending l -> descending (sortInsert byDistance x l).
Proof.
  unfold descending. intros Hx Hincl Hsorted.
  induction Hsorted as [|y l Hl IH Hy]; cbn [sortInsert].
  - repeat constructor.
  - assert (Hyu : In y universe) by (apply Hincl; by left).
    assert (Hlu : incl l universe) by (intros z Hz; apply Hincl; by right).
    rewrite positive_byDistance by done.
    destruct (ltb (AthleteStat.distance y) (AthleteStat.distance x)) eqn:E.
    + constructor; [by constructor|].
      assert (Hxy : notBelow x y)
        by apply (proj1 (proj2 (consistent y x x Hyu Hx Hx)) E).
      constructor; [exact Hxy|].
      apply Forall_forall. intros z Hz.
      assert (Hzu : In z universe) by (apply Hlu; by apply list_elem_of_In).
      rewrite Forall_forall in Hy.
      apply (proj2 (proj2 (consistent x y z Hx Hyu Hzu)) Hxy (Hy z Hz)).
    + constructor; [by apply IH|].
      rewrite (sortInsert_Permutation x l). by constructor.
Qed.

Lemma Array_sort_descending_acc (l acc : list AthleteStat.t) :
  incl l universe -> incl acc universe -> descending acc ->
  incl (fold_left (fun sorted x => sortInsert byDistance x sorted) l acc) universe
  /\ descending (fold_left (fun sorted x => sortInsert byDistance x sorted) l acc).
Proof.
  revert acc. induction l as [|x l IH]; intros acc Hl Hacc Hsorted; cbn.
  - by split.
  - assert (Hx : In x universe) by (apply Hl; by left).
    apply IH.
    + intros z Hz. apply Hl. by right.
    + by apply sortInsert_incl.
    + by apply sortInsert_descending.
Qed.

(** A later element never overtakes an earlier one it is tied with. *)
Lemma sortInsert_filter (group : AthleteStat.t -> bool) (x : AthleteStat.t)
    (l : list AthleteStat.t) :
  tied group -> In x universe -> incl l universe -> descending l ->
  List.filter group (sortInsert byDistance x l)
  = List.filter group l ++ List.filter group [x].
Proof.
  intros Htied Hx Hincl Hsorted. unfold descending in Hsorted.
  induction Hsorted as [|y l Hl IH Hy]; [reflexivity|].
  assert (Hyu : In y universe) by (apply Hincl; by left).
  assert (Hlu : incl l universe) by (intros z Hz; apply Hincl; by right).
  cbn [sortInsert]. rewrite positive_byDistance by done.
  destruct (ltb (AthleteStat.distance y) (AthleteStat.distance x)) eqn:E.
  - change (List.filter group (x :: y :: l))
      with (if group x then x :: List.filter group (y :: l)
            else List.filter group (y :: l)).
    destruct (group x) eqn:Gx.
    + assert (Hnone : List.filter group (y :: l) = []).
      { apply filter_none. intros z Hz.
        destruct (group z) eqn:Gz; [exfalso|reflexivity].
        rewrite <- (Htied z x Gz Gx) in E.
        destruct Hz as [<-|Hz].
        - rewrite ltb_irrefl_on in E by done. discriminate.
        - rewrite Forall_forall in Hy. apply list_elem_of_In, Hy in Hz.
          unfold notBelow in Hz. congruence. }
      rewrite Hnone. cbn. by rewrite Gx.
    + cbn [List.filter]. rewrite Gx. by rewrite app_nil_r.
  - cbn [List.filter]. rewrite IH by done.
    destruct (group y); reflexivity.
Qed.

Lemma Array_sort_filter_acc (group : AthleteStat.t -> bool)
    (l acc : list AthleteStat.t) :
  tied group -> incl l universe -> incl acc universe -> descending acc ->
  List.filter group (fold_left (fun sorted x => sortInsert byDistance x sorted) l acc)
  = List.filter group acc ++ List.filter group l.
Proof.
  intros Htied. revert acc.
  induction l as [|x l IH]; intros acc Hl Hacc Hsorted; cbn [fold_left].
  - by rewrite app_nil_r.
  - assert (Hx : In x universe) by (apply Hl; by left).
    rewrite IH.
    + rewrite sortInsert_filter by done.
      rewrite <- app_assoc. cbn [List.filter].
      destruct (group x); reflexivity.
    + intros z Hz. apply Hl. by right.
    + by apply sortInsert_incl.
    + by apply sortInsert_descending.
Qed.

End Consistent.

(** The sort of [collectData]: a rearrangement of the pushed statistics
    that is descending by distance and keeps tied athletes in push order. *)
Lemma Array_sort_byDistance (pushed : list AthleteStat.t) :
  consistentOn pushed ->
  Permutation (Array_sort byDistance pushed) pushed
  /\ descending (Array_sort byDistance pushed)
  /\ (forall group, tied group ->
        List.filter group (Array_sort byDistance pushed)
        = List.filter group pushed).
Proof.
  intros Hcons. split; [apply Array_sort_Permutation|split].
  - apply (Array_sort_descending_acc pushed Hcons pushed []).
    + by intros z.
    + intros z [].
    + constructor.
  - intros group Htied. unfold Array_sort.
    rewrite (Array_sort_filter_acc pushed Hcons group pushed []);
      [reflexivity|exact Htied|by intros z|intros z []|constructor].
Qed.

End SortFacts.

(** ** The two number models *)

Lemma Qc_ltb_lt (a b : Qc) : Qc_ltb a b = true <-> (a < b)%Qc.
Proof.
  unfold Qc_ltb. rewrite Qclt_alt.
  destruct (a ?= b)%Qc; split; congruence.
Qed.

Lemma Qc_ltb_ge (a b : Qc) : Qc_ltb a b = false <-> (b <= a)%Qc.
Proof.
  split.
  - intros H. apply Qcnot_lt_le. intros Hlt%Qc_ltb_lt. congruence.
  - intros H. destruct (Qc_ltb a b) eqn:E; [|reflexivity].
    apply Qc_ltb_lt in E. by apply Qcle_not_lt in H.
Qed.

#[global] Instance exact_ExactSum : ExactSum exact.
Proof.
  split; cbn; intros.
  - apply Qcplus_comm.
  - symmetry. apply Qcplus_assoc.
Qed.

#[global] Instance exact_ConsistentOrder : ConsistentOrder exact.
Proof.
  split; cbn.
  - intros a b. unfold Qcminus.
    destruct (Qc_ltb a b) eqn:E.
    + apply Qc_ltb_lt. apply Qc_ltb_lt in E.
      apply -> Qclt_minus_iff. exact E.
    + apply Qc_ltb_ge. apply Qc_ltb_ge in E.
      apply <- Qcle_minus_iff.
      replace (Q2Qc 0 + - (b + - a))%Qc with (a + - b)%Qc by ring.
      apply -> Qcle_minus_iff. exact E.
  - intros a b H%Qc_ltb_lt. apply Qc_ltb_ge. by apply Qclt_le_weak.
  - intros a b c H1%Qc_ltb_ge H2%Qc_ltb_ge. apply Qc_ltb_ge.
    by apply Qcle_trans with b.
Qed.

(** ** Aggregation across athletes *)

Section CombineFacts.
Context {N : JSNumber}.

Lemma aggregateType_lookup (byType g : gmap string TypeStat.t) (type t : string) :
  aggregateType byType type g !! t =
    if decide (type = t)
    then match byType !! t with
         | Some e => merged (g !! t) t e
         | None => g !! t
         end
    else g !! t.
Proof.
  unfold aggregateType, merged, mergeEntry.
  destruct (decide (type = t)) as [<-|Hne].
  - destruct (byType !! type) as [e|]; [|reflexivity].
    rewrite !lookup_alter_eq.
    destruct (g !! type) as [e0|] eqn:E.
    + rewrite E. reflexivity.
    + destruct (inherited type).
      * rewrite E. reflexivity.
      * rewrite lookup_insert_eq. reflexivity.
  - destruct (byType !! type) as [e|]; [|reflexivity].
    rewrite !lookup_alter_ne by done.
    destruct (g !! type); [reflexivity|].
    destruct (inherited type); [reflexivity|]. by rewrite lookup_insert_ne.
Qed.

Lemma fold_aggregateType_lookup (byType : gmap string TypeStat.t)
    (keys : list string) (g : gmap string TypeStat.t) (t : string) :
  NoDup keys ->
  fold_left (fun acc type => aggregateType byType type acc) keys g !! t =
    if decide (t ∈ keys)
    then match byType !! t with
         | Some e => merged (g !! t) t e
         | None => g !! t
         end
    else g !! t.
Proof.
  intros Hnd. revert g.
  induction Hnd as [|k keys Hk Hnd IH]; intros g; cbn [fold_left].
  - destruct (decide (t ∈ [])) as [H|]; [|reflexivity]. by apply not_elem_of_nil in H.
  - rewrite IH, aggregateType_lookup.
    destruct (decide (k = t)) as [->|Hne].
    + rewrite decide_False by done.
      rewrite decide_True by (by left). reflexivity.
    + destruct (decide (t ∈ keys)) as [Hin|Hnin].
      * rewrite decide_True by (by right). reflexivity.
      * rewrite decide_False; [reflexivity|].
        intros [?|?]%elem_of_cons; congruence.
Qed.

Lemma aggregateTypes_lookup (byType g : gmap string TypeStat.t) (t : string) :
  aggregateTypes byType g !! t =
    match byType !! t with
    | Some e => merged (g !! t) t e
    | None => g !! t
    end.
Proof.
  unfold aggregateTypes.
  rewrite fold_aggregateType_lookup by apply NoDup_fst_map_to_list.
  destruct (byType !! t) as [e|] eqn:E.
  - rewrite decide_True; [reflexivity|].
    apply list_elem_of_fmap. exists (t, e). split; [reflexivity|].
    by apply elem_of_map_to_list.
  - by destruct (decide _).
Qed.

Lemma aggregateTypes_counts_lookup (byType g : gmap string TypeStat.t) (t : string) :
  (TypeStat.count <$> aggregateTypes byType g) !! t =
    match byType !! t with
    | Some e =>
        match (TypeStat.count <$> g) !! t with
        | Some c => Some (c + TypeStat.count e)
        | None => if inherited t then None else Some (0 + TypeStat.count e)
        end
    | None => (TypeStat.count <$> g) !! t
    end.
Proof.
  rewrite !lookup_fmap, aggregateTypes_lookup.
  destruct (byType !! t) as [e|]; [|reflexivity].
  unfold merged. destruct (g !! t); [reflexivity|].
  by destruct (inherited t).
Qed.

Lemma sameCounts_combine (acc acc' : Locals.t) (u : PerUser) :
  sameCounts acc acc' ->
  sameCounts (combine acc (fst (fst u)) (snd (fst u)) (snd u))
             (combine acc' (fst (fst u)) (snd (fst u)) (snd u)).
Proof.
  unfold sameCounts; cbn. intros H. apply map_eq; intros t.
  rewrite !aggregateTypes_counts_lookup, H. reflexivity.
Qed.

Lemma sameCounts_swap (acc : Locals.t) (u v : PerUser) :
  sameCounts
    (combine (combine acc (fst (fst u)) (snd (fst u)) (snd u))
             (fst (fst v)) (snd (fst v)) (snd v))
    (combine (combine acc (fst (fst v)) (snd (fst v)) (snd v))
             (fst (fst u)) (snd (fst u)) (snd u)).
Proof.
  unfold sameCounts; cbn. apply map_eq; intros t.
  rewrite !aggregateTypes_counts_lookup.
  destruct (Breakdown.byType (snd u) !! t), (Breakdown.byType (snd v) !! t);
    cbn; try reflexivity;
    destruct ((TypeStat.count <$> Locals.activityTypeBreakdown acc) !! t);
    cbn; try reflexivity;
    destruct (inherited t); cbn; try reflexivity;
    f_equal; lia.
Qed.

Lemma sameSums_swap `{!ExactSum N} (acc : Locals.t) (u v : PerUser) :
  sameSums
    (combine (combine acc (fst (fst u)) (snd (fst u)) (snd u))
             (fst (fst v)) (snd (fst v)) (snd v))
    (combine (combine acc (fst (fst v)) (snd (fst v)) (snd v))
             (fst (fst u)) (snd (fst u)) (snd u)).
Proof.
  unfold sameSums; cbn. split.
  - rewrite !add_assoc. f_equal. apply add_comm.
  - apply map_eq; intros t. rewrite !aggregateTypes_lookup.
    destruct (Breakdown.byType (snd u) !! t) as [e1|],
             (Breakdown.byType (snd v) !! t) as [e2|]; try reflexivity.
    unfold merged.
    destruct (Locals.activityTypeBreakdown acc !! t) as [e0|];
      [|destruct (inherited t); [reflexivity|]];
      unfold mergeEntry; cbn; f_equal; f_equal;
      try lia; rewrite !add_assoc; f_equal; apply add_comm.
Qed.

Lemma sameSums_combine (acc acc' : Locals.t) (u : PerUser) :
  sameSums acc acc' ->
  sameSums (combine acc (fst (fst u)) (snd (fst u)) (snd u))
           (combine acc' (fst (fst u)) (snd (fst u)) (snd u)).
Proof. unfold sameSums; cbn. intros [-> ->]. by split. Qed.

(** Order independence, once for every relation on accumulators that one
    step preserves and that does not see the order of two steps. *)
Lemma combineAll_Permutation (R : Locals.t -> Locals.t -> Prop) :
  Equivalence R ->
  (forall acc acc' u, R acc acc' ->
     R (combine acc (fst (fst u)) (snd (fst u)) (snd u))
       (combine acc' (fst (fst u)) (snd (fst u)) (snd u))) ->
  (forall acc u v,
     R (combine (combine acc (fst (fst u)) (snd (fst u)) (snd u))
                (fst (fst v)) (snd (fst v)) (snd v))
       (combine (combine acc (fst (fst v)) (snd (fst v)) (snd v))
                (fst (fst u)) (snd (fst u)) (snd u))) ->
  forall users users', Permutation users users' ->
  forall acc acc', R acc acc' ->
    R (combineAll users acc) (combineAll users' acc').
Proof.
  intros HR Hstep Hswap users users' Hperm.
  induction Hperm as [|u l l' _ IH|u v l|l l' l'' _ IH1 _ IH2];
    intros acc acc' Hacc; cbn.
  - exact Hacc.
  - apply IH, Hstep, Hacc.
  - assert (Hl : forall a a', R a a' -> R (combineAll l a) (combineAll l a')).
    { induction l as [|w l IHl]; intros a a' Ha; cbn; [exact Ha|].
      apply IHl, Hstep, Ha. }
    apply Hl. etransitivity; [apply Hswap|]. apply Hstep, Hstep, Hacc.
  - etransitivity; [apply IH1; reflexivity|]. apply IH2, Hacc.
Qed.

#[local] Instance sameCounts_equiv : Equivalence sameCounts.
Proof.
  unfold sameCounts. split; [intros ?|intros ? ?|intros ? ? ?]; congruence.
Qed.

#[local] Instance sameSums_equiv : Equivalence sameSums.
Proof.
  unfold sameSums. split.
  - by intros ?.
  - by intros ? ? [-> ->].
  - by intros ? ? ? [-> ->] [-> ->].
Qed.

(** C6, as the code has it.  Processing the athletes in any order yields
    the same per-type activity counts; where number addition is
    associative and commutative (exact arithmetic) it also yields the same
    global distance total and the same per-type distance sums. *)
Theorem combine_any_order (users users' : list PerUser) (acc : Locals.t) :
  Permutation users users' ->
  sameCounts (combineAll users acc) (combineAll users' acc)
  /\ (ExactSum N -> sameSums (combineAll users acc) (combineAll users' acc)).
Proof.
  intros Hperm. split.
  - apply (combineAll_Permutation sameCounts _ sameCounts_combine
             sameCounts_swap users users' Hperm). reflexivity.
  - intros HE.
    apply (combineAll_Permutation sameSums _ sameSums_combine
             sameSums_swap users users' Hperm). reflexivity.
Qed.

End CombineFacts.

(** ** Paginated fetch *)

Section FetchFacts.
Context {N : JSNumber}.

Lemma sent_sent (w : W) (rs rs' : list Request) :
  sent (sent w rs) rs' = sent w (rs ++ rs').
Proof. unfold sent; cbn. by rewrite app_assoc. Qed.

Lemma fetchPages_run (bearer after before : string)
    (answers : list (Reply (list Activity.t))) (page : nat)
    (allActivities : list Activity.t) (w : W) :
  fetchPages bearer after before answers page allActivities w =
    (match firstFailure answers with
     | Some e => Throw e
     | None => Return (allActivities ++ collected answers)
     end,
     sent w (pageRequests bearer after before page (requestCount answers))).
Proof.
  revert page allActivities w.
  induction answers as [|[d|e] later IH]; intros page allActivities w.
  - cbn. by rewrite app_nil_r.
  - cbn [fetchPages firstFailure requestCount collected].
    unfold bind at 1. cbn [send modify].
    destruct (length d <? perPage)%nat eqn:Hshort.
    + destruct (length d =? 0)%nat eqn:Hzero; [|reflexivity].
      apply Nat.eqb_eq, nil_length_inv in Hzero. subst d.
      by rewrite app_nil_r.
    + assert ((length d =? 0) = false) as ->.
      { apply Nat.eqb_neq. apply Nat.ltb_ge in Hshort. unfold perPage in Hshort. lia. }
      rewrite IH. fold (sent w [GetActivities bearer after before page perPage]).
      rewrite sent_sent, <- app_assoc.
      replace (page + 1) with (S page) by lia. reflexivity.
  - reflexivity.
Qed.

Lemma fetchActivities_run (provider : Provider.t)
    (accessToken startDate endDate : string) (w : W) :
  let answers :=
    Provider.activities provider accessToken startDate endDate perPage in
  let w' :=
    sent w (pageRequests accessToken startDate endDate 1 (requestCount answers)) in
  fetchActivities provider accessToken startDate endDate w =
    match firstFailure answers with
    | Some e => (Return [], complained w' [ErrorFetchingActivities e])
    | None => (Return (collected answers), w')
    end.
Proof.
  cbn zeta. unfold fetchActivities, tryCatch. rewrite fetchPages_run.
  destruct (firstFailure _); reflexivity.
Qed.

(** Pagination asks for pages 1, 2, ... and stops at the first one that
    is not full. *)
Lemma requestCount_first_short (answers : list (Reply (list Activity.t))) :
  1 <= requestCount answers
  /\ (forall page, 1 <= page < requestCount answers ->
        fullPage (pageData answers page))
  /\ endsPagination (pageData answers (requestCount answers)).
Proof.
  induction answers as [|[d|e] later (IH1 & IH2 & IH3)];
    cbn [requestCount].
  - split; [lia|split]; [intros page; lia|].
    unfold pageData, endsPagination, perPage; cbn. lia.
  - destruct (length d <? perPage)%nat eqn:Hshort.
    + split; [lia|split]; [intros page; lia|].
      unfold pageData; cbn. by apply Nat.ltb_lt.
    + apply Nat.ltb_ge in Hshort. split; [lia|]. split.
      * intros page Hpage. unfold pageData.
        destruct page as [|[|page]]; [lia|exact Hshort|].
        specialize (IH2 (S page) ltac:(lia)). unfold pageData in IH2.
        cbn in *. by rewrite Nat.sub_0_r in IH2.
      * unfold pageData in *. cbn.
        destruct (requestCount later) as [|n]; [lia|].
        cbn in IH3. rewrite Nat.sub_0_r in IH3. exact IH3.
  - split; [lia|split]; [intros page; lia|]. exact I.
Qed.

(** The activities returned are those of the pages asked for. *)
Lemma collected_pages (answers : list (Reply (list Activity.t))) :
  firstFailure answers = None ->
  collected answers
  = concat (map (fun page => match pageData answers page with
                             | Data d => d
                             | Rejected _ => []
                             end)
                (seq 1 (requestCount answers))).
Proof.
  induction answers as [|[d|e] later IH];
    cbn [firstFailure requestCount collected]; intros Hok.
  - reflexivity.
  - destruct (length d <? perPage)%nat.
    + cbn. by rewrite app_nil_r.
    + cbn [seq map concat]. rewrite IH by exact Hok.
      rewrite <- (seq_shift (requestCount later) 1), map_map.
      unfold pageData at 1; cbn [Nat.sub lookup list_lookup].
      f_equal. f_equal. apply map_ext_in. intros page Hpage%in_seq.
      unfold pageData. destruct page as [|k]; [lia|].
      cbn. by rewrite Nat.sub_0_r.
  - discriminate.
Qed.

(** C4. When the provider answers page 1 with exactly [perPage] records
    and page 2 with none, the fetcher issues exactly the requests for
    pages 1 and 2 and returns the records of page 1.  In general the
    requests are for pages 1, 2, ..., n in this order, every page before
    page n is full, page n is the first that is rejected, empty or shorter
    than the page size, and, no page being rejected, the result is the
    records of pages 1 to n. *)
Theorem pagination_stops_at_first_short_page (provider : Provider.t)
    (accessToken startDate endDate : string) (w : W) :
  let answers :=
    Provider.activities provider accessToken startDate endDate perPage in
  (forall page1,
      pageData answers 1 = Data page1 -> length page1 = perPage ->
      pageData answers 2 = Data [] ->
      fetchActivities provider accessToken startDate endDate w
      = (Return page1,
         sent w [GetActivities accessToken startDate endDate 1 perPage;
                 GetActivities accessToken startDate endDate 2 perPage]))
  /\ (exists result,
        fetchActivities provider accessToken startDate endDate w
        = (Return result,
           complained
             (sent w (pageRequests accessToken startDate endDate 1
                                   (requestCount answers)))
             (match firstFailure answers with
              | Some e => [ErrorFetchingActivities e]
              | None => []
              end))
        /\ (firstFailure answers = None ->
            result = concat (map (fun page => match pageData answers page with
                                              | Data d => d
                                              | Rejected _ => []
                                              end)
                                 (seq 1 (requestCount answers))))
        /\ 1 <= requestCount answers
        /\ (forall page, 1 <= page < requestCount answers ->
              fullPage (pageData answers page))
        /\ endsPagination (pageData answers (requestCount answers))).
Proof.
  cbn zeta. split.
  - intros page1 H1 Hlen H2. rewrite fetchActivities_run.
    unfold pageData in H1, H2; cbn in H1, H2.
    destruct (Provider.activities provider accessToken startDate endDate perPage)
      as [|r1 later]; [inversion H1; subst; discriminate|].
    cbn in H1. subst r1.
    cbn [firstFailure requestCount collected].
    assert ((length page1 <? perPage) = false) as ->
      by (apply Nat.ltb_ge; lia).
    destruct later as [|r2 later']; [cbn; by rewrite app_nil_r|].
    cbn in H2. subst r2. cbn. by rewrite app_nil_r.
  - rewrite fetchActivities_run.
    pose proof (requestCount_first_short
      (Provider.activities provider accessToken startDate endDate perPage))
      as (H1 & H2 & H3).
    destruct (firstFailure _) eqn:Hfail.
    + eexists; split; [reflexivity|]. split; [discriminate|]. by repeat split.
    + eexists; split.
      { unfold complained; cbn. rewrite app_nil_r. reflexivity. }
      split; [intros _; by apply collected_pages|]. by repeat split.
Qed.

End FetchFacts.

(** ** Token refresh *)

Section RefreshFacts.
Context {N : JSNumber}.

Lemma refreshAccessToken_run (provider : Provider.t) (cfg : Config.t)
    (a : AthleteData.t) (w : W) :
  refreshAccessToken provider cfg (a, w) =
    match refreshed provider (World.clock w) a with
    | Data a' =>
        (Return (AthleteData.accessToken a'),
         (a', if validAt (World.clock w) a then w
              else sent w [refreshRequest cfg a]))
    | Rejected e =>
        (Throw e,
         (a, complained (sent w [refreshRequest cfg a])
                        [FailedToRefresh (AthleteData.athleteId a) e]))
    end.
Proof.
  unfold refreshAccessToken, refreshed, validAt, bind at 1 2; cbn.
  destruct (AthleteData.expiresAt a >? World.clock w)%Z; [reflexivity|].
  unfold tryCatch, bind, onWorld, axiosPostToken, bind; cbn.
  destruct (Provider.token provider (AthleteData.refreshToken a)); reflexivity.
Qed.

Lemma refreshed_valid (provider : Provider.t) (now : Z) (a : AthleteData.t) :
  (now < AthleteData.expiresAt a)%Z -> refreshed provider now a = Data a.
Proof.
  intros H. unfold refreshed, validAt.
  by rewrite (proj2 (Z.gtb_gt _ _)) by lia.
Qed.

Lemma validAt_true (now : Z) (a : AthleteData.t) :
  (now < AthleteData.expiresAt a)%Z -> validAt now a = true.
Proof. intros H. unfold validAt. apply Z.gtb_gt. lia. Qed.

Lemma validAt_false (now : Z) (a : AthleteData.t) :
  (AthleteData.expiresAt a <= now)%Z -> validAt now a = false.
Proof.
  intros H. unfold validAt.
  destruct (AthleteData.expiresAt a >? now)%Z eqn:E; [|reflexivity].
  apply Z.gtb_gt in E. lia.
Qed.

(** C5. For every credential record whose [expiresAt] is strictly greater
    than the current time, [refreshAccessToken] returns the record's
    [accessToken] and changes neither the record nor the world, so no
    request is issued; two calls in immediate succession return that same
    access token both times and issue no request at all, which is at most
    one. *)
Theorem valid_token_returned_without_request (provider : Provider.t)
    (cfg : Config.t) (a : AthleteData.t) (w : W) :
  (World.clock w < AthleteData.expiresAt a)%Z ->
  refreshAccessToken provider cfg (a, w)
  = (Return (AthleteData.accessToken a), (a, w))
  /\ refreshTwice provider cfg (a, w)
     = (Return (AthleteData.accessToken a, AthleteData.accessToken a), (a, w))
  /\ length (World.requests (snd (snd (refreshTwice provider cfg (a, w)))))
     <= length (World.requests w) + 1.
Proof.
  intros Hvalid.
  assert (H1 : refreshAccessToken provider cfg (a, w)
               = (Return (AthleteData.accessToken a), (a, w))).
  { rewrite refreshAccessToken_run, refreshed_valid, validAt_true by done.
    reflexivity. }
  assert (H2 : refreshTwice provider cfg (a, w)
               = (Return (AthleteData.accessToken a, AthleteData.accessToken a),
                  (a, w))).
  { unfold refreshTwice, bind. rewrite H1, H1. reflexivity. }
  split; [exact H1|split; [exact H2|]].
  rewrite H2; cbn. lia.
Qed.

(** The same holds after an expiry: the first call refreshes, the second
    finds the new token valid, and one request is issued in all. *)
Lemma expired_token_refreshed_once (provider : Provider.t) (cfg : Config.t)
    (a : AthleteData.t) (w : W) (r : TokenResponse.t) :
  (AthleteData.expiresAt a <= World.clock w)%Z ->
  Provider.token provider (AthleteData.refreshToken a) = Data r ->
  (World.clock w < TokenResponse.expires_at r)%Z ->
  refreshTwice provider cfg (a, w)
  = (Return (TokenResponse.access_token r, TokenResponse.access_token r),
     (assignTokens r a, sent w [refreshRequest cfg a])).
Proof.
  intros Hexp Hr Hnew. unfold refreshTwice, bind.
  rewrite refreshAccessToken_run. unfold refreshed.
  rewrite validAt_false, Hr by done.
  rewrite refreshAccessToken_run, refreshed_valid, validAt_true by (cbn; done).
  reflexivity.
Qed.

End RefreshFacts.

(** ** The loop over the athletes and the whole run *)

Section RunFacts.
Context {N : JSNumber}.

Lemma sameDisk_refl (w : W) : sameDisk w w.
Proof. by repeat split. Qed.

Lemma sameDisk_trans (w1 w2 w3 : W) :
  sameDisk w1 w2 -> sameDisk w2 w3 -> sameDisk w1 w3.
Proof.
  unfold sameDisk. intros (A1 & A2 & A3) (B1 & B2 & B3).
  repeat split; congruence.
Qed.

Lemma sameDisk_sent (w : W) (rs : list Request) : sameDisk w (sent w rs).
Proof. by repeat split. Qed.

Lemma sameDisk_complained (w : W) (cs : list Complaint) :
  sameDisk w (complained w cs).
Proof. by repeat split. Qed.

Lemma fetchActivities_fetched (provider : Provider.t) (cfg : Config.t)
    (accessToken : string) (w : W) :
  exists w',
    fetchActivities provider accessToken
      (Config.START_DATE cfg) (Config.END_DATE cfg) w
    = (Return (fetched provider cfg accessToken), w')
    /\ sameDisk w w'.
Proof.
  rewrite fetchActivities_run. unfold fetched.
  destruct (firstFailure _); eexists; (split; [reflexivity|]).
  - eapply sameDisk_trans; [apply sameDisk_sent|apply sameDisk_complained].
  - apply sameDisk_sent.
Qed.

(** One iteration never throws: the athlete either contributes or is
    skipped, and the record is left as the refresh left it. *)
Lemma processAthlete_run (provider : Provider.t) (cfg : Config.t)
    (athleteId : Z) (acc : Locals.t) (a : AthleteData.t) (w : W) :
  exists w',
    processAthlete provider cfg athleteId acc (a, w)
    = (Return (match contribution provider cfg (World.clock w) a with
               | Some u => combine acc (fst (fst u)) (snd (fst u)) (snd u)
               | None => acc
               end),
       (recordAfter provider (World.clock w) a, w'))
    /\ sameDisk w w'.
Proof.
  unfold processAthlete, tryCatch, bind at 1.
  rewrite refreshAccessToken_run. unfold contribution, recordAfter.
  destruct (refreshed provider (World.clock w) a) as [a'|e].
  - unfold bind, onWorld; cbn [fst snd].
    match goal with
    | |- context [fetchActivities ?p ?t ?s ?e ?w0] =>
        destruct (fetchActivities_fetched provider cfg t w0) as (w1 & -> & Hw1)
    end.
    eexists; split; [reflexivity|].
    eapply sameDisk_trans; [|exact Hw1].
    destruct (validAt _ _); [apply sameDisk_refl|apply sameDisk_sent].
  - eexists; split; [reflexivity|]. cbn.
    by repeat split.
Qed.

Lemma processAthlete_requests (provider : Provider.t) (cfg : Config.t)
    (athleteId : Z) (acc : Locals.t) (a : AthleteData.t) (w : W) :
  World.requests (snd (snd (processAthlete provider cfg athleteId acc (a, w))))
  = World.requests w ++ athleteRequests provider cfg (World.clock w) a.
Proof.
  unfold processAthlete, tryCatch, bind at 1.
  rewrite refreshAccessToken_run. unfold athleteRequests.
  destruct (refreshed provider (World.clock w) a) as [a'|e] eqn:E.
  - unfold bind, onWorld; cbn [fst snd].
    rewrite fetchActivities_run.
    destruct (validAt (World.clock w) a), (firstFailure _); cbn;
      by rewrite ?app_nil_r, <- ?app_assoc.
  - unfold refreshed in E.
    destruct (validAt (World.clock w) a); [discriminate|].
    reflexivity.
Qed.

Lemma shape_wellShaped (tokens : list (Z * AthleteData.t)) :
  shape (wellShaped tokens) = inl tokens.
Proof.
  induction tokens as [|[athleteId a] others IH]; [reflexivity|].
  cbn. fold (wellShaped others). by rewrite IH.
Qed.

Lemma shape_withNull (p : Nulled.t) : shape (withNull p) = inr p.
Proof.
  destruct p as [before athleteId rest]. unfold withNull, wellShaped; cbn.
  induction before as [|[k a] others IH]; [reflexivity|].
  cbn. by rewrite IH.
Qed.

Lemma shape_inv (entries : Entries) :
  match shape entries with
  | inl tokens => entries = wellShaped tokens
  | inr p => entries = withNull p
  end.
Proof.
  induction entries as [|[k [a|]] others IH]; [reflexivity| |reflexivity].
  cbn. destruct (shape others) as [tokens|p]; by rewrite IH.
Qed.

Lemma stored_wellShaped (tokens : list (Z * AthleteData.t)) :
  stored (wellShaped tokens) = Holds tokens.
Proof. unfold stored. by rewrite shape_wellShaped. Qed.

Lemma stored_withNull (p : Nulled.t) : stored (withNull p) = Misshapen p.
Proof. unfold stored. by rewrite shape_withNull. Qed.

(** The loop over a stretch of records: each athlete either contributes
    or is skipped, the records are left as the refreshes left them, and
    the loop goes on with what follows the stretch. *)
Lemma processAthletes_through (provider : Provider.t) (cfg : Config.t)
    (tokens : list (Z * AthleteData.t)) (rest : Entries) (acc : Locals.t)
    (w : W) :
  exists w',
    processAthletes provider cfg (wellShaped tokens ++ rest) acc w
    = (r <- processAthletes provider cfg rest
              (combineAll (contributions provider cfg (World.clock w) tokens)
                          acc) ;;
       ret (wellShaped (tokensAfter provider (World.clock w) tokens) ++ fst r,
            snd r)) w'
    /\ sameDisk w w'
    /\ World.requests w'
       = World.requests w
         ++ flat_map (fun t => athleteRequests provider cfg (World.clock w) (snd t))
                     tokens.
Proof.
  revert acc w. induction tokens as [|[athleteId a] others IH]; intros acc w.
  - exists w. split; [|split; [apply sameDisk_refl|cbn; by rewrite app_nil_r]].
    cbn. unfold bind.
    by destruct (processAthletes provider cfg rest acc w) as [[[ts acc']|e] w2].
  - cbn [wellShaped map app fst snd processAthletes]. fold (wellShaped others).
    unfold bind at 1, withObject.
    pose proof (processAthlete_requests provider cfg athleteId acc a w) as Hreq.
    destruct (processAthlete_run provider cfg athleteId acc a w)
      as (w1 & Heq & Hw1).
    rewrite Heq in Hreq |- *. cbn [snd] in Hreq.
    assert (Hclock : World.clock w1 = World.clock w) by apply Hw1.
    match goal with
    | |- context [processAthletes provider cfg (wellShaped others ++ rest) ?acc1] =>
        destruct (IH acc1 w1) as (w2 & Hrun & Hw2 & Hreq2)
    end.
    rewrite Hclock in Hrun, Hreq2.
    exists w2. split; [|split; [by eapply sameDisk_trans|]].
    + unfold bind at 1. rewrite Hrun. unfold bind, ret.
      unfold tokensAfter, contributions. simpl.
      destruct (contribution provider cfg (World.clock w) a); simpl;
        by destruct (processAthletes provider cfg rest _ w2)
          as [[[ts acc']|e] w3].
    + rewrite Hreq2, Hreq. cbn [flat_map snd]. by rewrite <- app_assoc.
Qed.

Lemma processAthletes_run (provider : Provider.t) (cfg : Config.t)
    (tokens : list (Z * AthleteData.t)) (acc : Locals.t) (w : W) :
  exists w',
    processAthletes provider cfg (wellShaped tokens) acc w
    = (Return (wellShaped (tokensAfter provider (World.clock w) tokens),
               combineAll (contributions provider cfg (World.clock w) tokens) acc),
       w')
    /\ sameDisk w w'
    /\ World.requests w'
       = World.requests w
         ++ flat_map (fun t => athleteRequests provider cfg (World.clock w) (snd t))
                     tokens.
Proof.
  destruct (processAthletes_through provider cfg tokens [] acc w)
    as (w' & Hrun & Hw').
  exists w'. split; [|exact Hw'].
  rewrite app_nil_r in Hrun. rewrite Hrun. cbn. by rewrite app_nil_r.
Qed.

(** The loop stops at the first [null]: the records before it have been
    processed, nothing is handed back. *)
Lemma processAthletes_null (provider : Provider.t) (cfg : Config.t)
    (tokens : list (Z * AthleteData.t)) (athleteId : Z) (rest : Entries)
    (acc : Locals.t) (w : W) :
  exists w',
    processAthletes provider cfg (wellShaped tokens ++ (athleteId, None) :: rest)
                    acc w
    = (Throw TypeError, w')
    /\ sameDisk w w'
    /\ World.requests w'
       = World.requests w
         ++ flat_map (fun t => athleteRequests provider cfg (World.clock w) (snd t))
                     tokens.
Proof.
  destruct (processAthletes_through provider cfg tokens
              ((athleteId, None) :: rest) acc w) as (w' & Hrun & Hw').
  exists w'. split; [|exact Hw']. by rewrite Hrun.
Qed.

Lemma combineAll_athleteStats (users : list PerUser) (acc : Locals.t) :
  Locals.athleteStats (combineAll users acc)
  = Locals.athleteStats acc ++ map statOf users.
Proof.
  revert acc. induction users as [|u users IH]; intros acc.
  - cbn. by rewrite app_nil_r.
  - change (combineAll (u :: users) acc)
      with (combineAll users (combine acc (fst (fst u)) (snd (fst u)) (snd u))).
    rewrite IH; cbn. by rewrite <- app_assoc.
Qed.

(** A run over a non-empty credential store completes, saves the records
    as the refreshes left them and writes the snapshot. *)
Lemma collectData_run (provider : Provider.t) (cfg : Config.t) (w : W)
    (tokens : list (Z * AthleteData.t)) :
  World.tokensFile w = Holds tokens -> tokens <> [] ->
  exists requests stderr,
    collectData provider cfg w
    = (Return tt,
       World.mk (Holds (tokensAfter provider (World.clock w) tokens))
                (Holds (snapshot provider cfg (World.clock w) tokens))
                (World.clock w) requests stderr).
Proof.
  intros Hfile Hne. unfold collectData, tryCatch, bind at 1, readTokens.
  rewrite Hfile. unfold wellShaped at 1. rewrite !length_map.
  destruct tokens as [|t tokens]; [done|]. cbn [length Nat.eqb].
  unfold bind at 1.
  destruct (processAthletes_run provider cfg (t :: tokens)
              (Locals.mk zero [] ∅) w) as (w' & -> & (H1 & H2 & H3) & _).
  eexists _, _. unfold bind, saveTokens, dateNow, writeStats, modify; cbn.
  rewrite H3.
  match goal with
  | |- context [stored ?x] =>
      change x
        with (wellShaped (tokensAfter provider (World.clock w) (t :: tokens)))
  end.
  rewrite stored_wellShaped. reflexivity.
Qed.

(** A run that meets a [null] has processed the athletes before it and
    writes neither file. *)
Lemma collectData_null (provider : Provider.t) (cfg : Config.t) (w : W)
    (p : Nulled.t) :
  World.tokensFile w = Misshapen p ->
  exists stderr,
    collectData provider cfg w
    = (Return tt,
       World.mk (World.tokensFile w) (World.statsFile w) (World.clock w)
         (World.requests w
          ++ flat_map
               (fun t => athleteRequests provider cfg (World.clock w) (snd t))
               (Nulled.before p))
         (stderr ++ [ErrorInDataCollection TypeError])).
Proof.
  intros Hfile. unfold collectData, tryCatch, bind at 1, readTokens.
  rewrite Hfile. unfold withNull at 1. rewrite length_map, length_app.
  cbn [length].
  replace (length (wellShaped (Nulled.before p)) + S (length (Nulled.rest p)))
    with (S (length (wellShaped (Nulled.before p)) + length (Nulled.rest p)))
    by lia.
  cbn [Nat.eqb]. unfold bind at 1.
  destruct (processAthletes_null provider cfg (Nulled.before p)
              (Nulled.athleteId p) (Nulled.rest p)
              (Locals.mk zero [] ∅) w) as (w' & Hrun & (H1 & H2 & H3) & Hreq).
  unfold withNull. rewrite Hrun.
  exists (World.stderr w'). unfold consoleError, modify.
  rewrite <- Hfile, H1, H2, H3, Hreq. reflexivity.
Qed.

(** No exception escapes [collectData]. *)
Lemma collectData_never_throws (provider : Provider.t) (cfg : Config.t) (w : W) :
  fst (collectData provider cfg w) = Return tt.
Proof.
  destruct (World.tokensFile w) as [| |tokens|entries] eqn:Hfile.
  - unfold collectData, tryCatch, bind at 1, readTokens. by rewrite Hfile.
  - unfold collectData, tryCatch, bind at 1, readTokens. by rewrite Hfile.
  - destruct tokens as [|t tokens].
    + unfold collectData, tryCatch, bind at 1, readTokens. by rewrite Hfile.
    + destruct (collectData_run provider cfg w (t :: tokens) Hfile ltac:(done))
        as (rs & cs & ->). reflexivity.
  - destruct (collectData_null provider cfg w entries Hfile) as (cs & ->).
    reflexivity.
Qed.

End RunFacts.

(** ** Fault isolation, empty and unreadable stores, ordering *)

Section PipelineFacts.
Context {N : JSNumber}.

Lemma contributions_skip (provider : Provider.t) (cfg : Config.t) (now : Z)
    (before after : list (Z * AthleteData.t)) (t : Z * AthleteData.t) :
  contribution provider cfg now (snd t) = None ->
  contributions provider cfg now (before ++ t :: after)
  = contributions provider cfg now (before ++ after).
Proof.
  intros H. unfold contributions. rewrite !omap_app. cbn. by rewrite H.
Qed.

Lemma tokensAfter_app (provider : Provider.t) (now : Z)
    (before after : list (Z * AthleteData.t)) :
  tokensAfter provider now (before ++ after)
  = tokensAfter provider now before ++ tokensAfter provider now after.
Proof. apply map_app. Qed.

Lemma snapshot_contributions (provider : Provider.t) (cfg : Config.t) (now : Z)
    (tokens tokens' : list (Z * AthleteData.t)) :
  contributions provider cfg now tokens = contributions provider cfg now tokens' ->
  snapshot provider cfg now tokens = snapshot provider cfg now tokens'.
Proof. unfold snapshot. by intros ->. Qed.

Lemma snapshot_athletes (provider : Provider.t) (cfg : Config.t) (now : Z)
    (tokens : list (Z * AthleteData.t)) :
  Stats.athletes (snapshot provider cfg now tokens)
  = Array_sort byDistance (pushed provider cfg now tokens).
Proof. unfold snapshot, pushed; cbn. by rewrite combineAll_athleteStats. Qed.

(** C3. For every credential record whose refresh exchange is rejected
    (network error or error response), [refreshAccessToken] throws that
    error and leaves the record as it was; the loop goes on with the
    remaining athletes on unchanged accumulators; a run over a store that
    holds the record saves it unmodified and writes the snapshot of the
    other athletes; and no exception escapes [collectData]. *)
Theorem failed_refresh_is_isolated (provider : Provider.t) (cfg : Config.t)
    (athleteId : Z) (a : AthleteData.t) (e : Error) (w : W) :
  (AthleteData.expiresAt a <= World.clock w)%Z ->
  Provider.token provider (AthleteData.refreshToken a) = Rejected e ->
  let w1 := complained (sent w [refreshRequest cfg a])
                       [FailedToRefresh (AthleteData.athleteId a) e] in
  refreshAccessToken provider cfg (a, w) = (Throw e, (a, w1))
  /\ (forall others acc,
        processAthletes provider cfg ((athleteId, Some a) :: others) acc w
        = (r <- processAthletes provider cfg others acc ;;
           ret ((athleteId, Some a) :: fst r, snd r))
            (complained w1 [ErrorProcessingAthlete athleteId e]))
  /\ (forall before after,
        World.tokensFile w = Holds (before ++ (athleteId, a) :: after) ->
        exists requests stderr,
          collectData provider cfg w
          = (Return tt,
             World.mk
               (Holds (tokensAfter provider (World.clock w) before
                       ++ (athleteId, a)
                       :: tokensAfter provider (World.clock w) after))
               (Holds (snapshot provider cfg (World.clock w) (before ++ after)))
               (World.clock w) requests stderr))
  /\ (forall w0, fst (collectData provider cfg w0) = Return tt).
Proof.
  intros Hexp Hrej w1.
  assert (Hrefreshed : refreshed provider (World.clock w) a = Rejected e).
  { unfold refreshed. by rewrite validAt_false, Hrej. }
  assert (Hrun : refreshAccessToken provider cfg (a, w) = (Throw e, (a, w1))).
  { by rewrite refreshAccessToken_run, Hrefreshed. }
  split; [exact Hrun|]. split; [|split].
  - intros others acc. cbn [processAthletes].
    unfold bind at 1, withObject, processAthlete, tryCatch, bind at 1.
    rewrite Hrun. reflexivity.
  - intros before after Hfile.
    destruct (collectData_run provider cfg w _ Hfile) as (rs & cs & ->).
    { by destruct before. }
    exists rs, cs.
    assert (Hrecord : recordAfter provider (World.clock w) a = a).
    { unfold recordAfter. by rewrite Hrefreshed. }
    rewrite tokensAfter_app.
    change (tokensAfter provider (World.clock w) ((athleteId, a) :: after))
      with ((athleteId, recordAfter provider (World.clock w) a)
            :: tokensAfter provider (World.clock w) after).
    rewrite Hrecord.
    rewrite (snapshot_contributions provider cfg (World.clock w)
               (before ++ (athleteId, a) :: after) (before ++ after));
      [reflexivity|].
    apply (contributions_skip provider cfg _ before after (athleteId, a)).
    unfold contribution. cbn. by rewrite Hrefreshed.
  - apply collectData_never_throws.
Qed.

(** C1, as the code has it.  When a page request of an athlete's fetch
    is rejected, [fetchActivities] does not fail: it reports the error
    and returns the empty list, so every record of the earlier pages is
    dropped; the athlete contributes an empty breakdown and is in the
    run's athlete list with distance 0 and no activity; the run completes
    and writes its snapshot. *)
Theorem failed_fetch_counts_as_no_activity (provider : Provider.t)
    (cfg : Config.t) (tokens : list (Z * AthleteData.t)) (athleteId : Z)
    (a a' : AthleteData.t) (e : Error) (w : W) :
  World.tokensFile w = Holds tokens ->
  In (athleteId, a) tokens ->
  refreshed provider (World.clock w) a = Data a' ->
  firstFailure (Provider.activities provider (AthleteData.accessToken a')
                  (Config.START_DATE cfg) (Config.END_DATE cfg) perPage)
  = Some e ->
  (forall w0, exists w0',
      fetchActivities provider (AthleteData.accessToken a')
        (Config.START_DATE cfg) (Config.END_DATE cfg) w0
      = (Return [], w0')
      /\ World.stderr w0' = World.stderr w0 ++ [ErrorFetchingActivities e])
  /\ contribution provider cfg (World.clock w) a
     = Some (displayName a', 0, calculateDistanceBreakdown [])
  /\ In (AthleteStat.mk (displayName a') zero 0 ∅)
        (Stats.athletes (snapshot provider cfg (World.clock w) tokens))
  /\ exists requests stderr,
       collectData provider cfg w
       = (Return tt,
          World.mk (Holds (tokensAfter provider (World.clock w) tokens))
                   (Holds (snapshot provider cfg (World.clock w) tokens))
                   (World.clock w) requests stderr).
Proof.
  intros Hfile Hin Hrefreshed Hfail.
  assert (Hcontribution :
            contribution provider cfg (World.clock w) a
            = Some (displayName a', 0, calculateDistanceBreakdown [])).
  { unfold contribution, fetched. by rewrite Hrefreshed, Hfail. }
  split; [|split; [exact Hcontribution|split]].
  - intros w0. rewrite fetchActivities_run, Hfail.
    eexists; split; reflexivity.
  - rewrite snapshot_athletes.
    apply (Permutation_in _ (Permutation_sym (Array_sort_Permutation _))).
    unfold pushed, contributions.
    apply (in_map statOf _ (displayName a', 0, calculateDistanceBreakdown [])).
    apply list_elem_of_In, list_elem_of_omap.
    exists (athleteId, a). split; [by apply list_elem_of_In|exact Hcontribution].
  - apply (collectData_run provider cfg w tokens Hfile).
    intros ->. destruct Hin.
Qed.

(** C2, as the code has it.  A run over an empty credential store returns
    at once: no request is issued and neither file is written, so an
    existing snapshot stays as it is.  The snapshot with [totalDistance]
    0 and no athletes is the baseline [initializeFiles] creates when there
    is no stats file, and it carries no [athleteCount]. *)
Theorem empty_store_run_writes_nothing (provider : Provider.t)
    (cfg : Config.t) (w : W) :
  World.tokensFile w = Holds [] ->
  collectData provider cfg w = (Return tt, w)
  /\ (World.statsFile w = Absent ->
      World.statsFile (snd (initializeFiles w))
      = Holds (Stats.mk zero None [] None None None None)).
Proof.
  intros Hfile. split.
  - unfold collectData, tryCatch, bind, readTokens. by rewrite Hfile.
  - intros Hstats. unfold initializeFiles, modify; cbn. by rewrite Hstats.
Qed.

(** C9, as the code has it.  When the credential file is missing or
    unreadable, or its text is not valid JSON, [readTokens] fails and the
    run ends there: the error is reported, no athlete is processed (no
    request is issued) and neither the credential file nor the stats file
    is written.  What the file holds is not validated: when the text
    parses, [readTokens] returns, and with a [null] among the records the
    run processes the athletes before the first [null], issuing their
    requests, and only then ends with the error reported, having written
    neither file. *)
Theorem unreadable_store_aborts_run (provider : Provider.t) (cfg : Config.t)
    (w : W) :
  (World.tokensFile w = Absent \/ World.tokensFile w = Garbled ->
   exists error,
     readTokens w = (Throw error, w)
     /\ collectData provider cfg w
        = (Return tt, complained w [ErrorInDataCollection error])
     /\ World.requests (snd (collectData provider cfg w)) = World.requests w
     /\ World.tokensFile (snd (collectData provider cfg w)) = World.tokensFile w
     /\ World.statsFile (snd (collectData provider cfg w)) = World.statsFile w)
  /\ (forall p : Nulled.t,
        World.tokensFile w = Misshapen p ->
        readTokens w = (Return (withNull p), w)
        /\ exists stderr,
             collectData provider cfg w
             = (Return tt,
                World.mk (World.tokensFile w) (World.statsFile w)
                  (World.clock w)
                  (World.requests w
                   ++ flat_map
                        (fun t => athleteRequests provider cfg (World.clock w)
                                                  (snd t))
                        (Nulled.before p))
                  (stderr ++ [ErrorInDataCollection TypeError]))).
Proof.
  split.
  - intros [H|H].
    + exists FileError.
      assert (Hc : collectData provider cfg w
                   = (Return tt,
                      complained w [ErrorInDataCollection FileError])).
      { unfold collectData, tryCatch, bind, readTokens. by rewrite H. }
      rewrite Hc. unfold readTokens. rewrite H. by repeat split.
    + exists SyntaxError.
      assert (Hc : collectData provider cfg w
                   = (Return tt,
                      complained w [ErrorInDataCollection SyntaxError])).
      { unfold collectData, tryCatch, bind, readTokens. by rewrite H. }
      rewrite Hc. unfold readTokens. rewrite H. by repeat split.
  - intros p Hfile. split.
    + unfold readTokens. by rewrite Hfile.
    + by apply collectData_null.
Qed.

(** C8. For every run that persists a snapshot, the comparator being
    consistent on the distances of the run (no NaN among them), the
    persisted athlete list is a rearrangement of the statistics pushed in
    iteration order that is sorted by distance, descending, and keeps
    every group of athletes with equal distance in its iteration order. *)
Theorem persisted_athletes_sorted_stable
    (provider : Provider.t) (cfg : Config.t) (w : W)
    (tokens : list (Z * AthleteData.t)) :
  World.tokensFile w = Holds tokens -> tokens <> [] ->
  consistentOn (pushed provider cfg (World.clock w) tokens) ->
  exists stats,
    World.statsFile (snd (collectData provider cfg w)) = Holds stats
    /\ Permutation (Stats.athletes stats)
                   (pushed provider cfg (World.clock w) tokens)
    /\ descending (Stats.athletes stats)
    /\ (forall group, tied group ->
          List.filter group (Stats.athletes stats)
          = List.filter group (pushed provider cfg (World.clock w) tokens)).
Proof.
  intros Hfile Hne Hcons.
  destruct (collectData_run provider cfg w tokens Hfile Hne) as (rs & cs & ->).
  eexists; split; [reflexivity|].
  rewrite snapshot_athletes. by apply Array_sort_byDistance.
Qed.

End PipelineFacts.

(** ** Concrete runs *)

(** C7, at an input where the code misses it.  Of a run of 5000 m and an
    activity of 3000 m of type "constructor" the total is 8 km, as the
    claim says, and the run is grouped under "Run" with 5 km; but the
    second activity is grouped under no type: there is an activity of type
    "constructor", the breakdown has no entry under that name, and "Run"
    is its only entry. *)
Lemma inherited_type_is_not_grouped :
  Breakdown.total (calculateDistanceBreakdown runAndConstructor) = 8%float
  /\ Breakdown.byType (calculateDistanceBreakdown runAndConstructor) !! "Run"
     = Some (TypeStat.mk (N:=binary64) 5%float 1)
  /\ ofType "constructor" runAndConstructor
     = [Activity.mk (N:=binary64) (Some 3000%float) (Some "constructor")]
  /\ Breakdown.byType (calculateDistanceBreakdown runAndConstructor)
     !! "constructor"
     = None
  /\ map_to_list (Breakdown.byType (calculateDistanceBreakdown runAndConstructor))
     = [("Run", TypeStat.mk (N:=binary64) 5%float 1)].
Proof. vm_compute. repeat split; reflexivity. Qed.

(** On doubles the order of the athletes shows in the sums: 100 m, 200 m
    and 300 m add up to 0.6000000000000001 km in one order and to 0.6 km
    in the other, for the global total and for the "Run" entry alike. *)
Lemma combine_order_counterexample :
  Permutation threeRunners threeRunnersReversed
  /\ Locals.totalDistance
       (combineAll threeRunners (Locals.mk (N:=binary64) zero [] ∅))
     <> Locals.totalDistance
          (combineAll threeRunnersReversed (Locals.mk (N:=binary64) zero [] ∅))
  /\ Locals.activityTypeBreakdown
       (combineAll threeRunners (Locals.mk (N:=binary64) zero [] ∅)) !! "Run"
     <> Locals.activityTypeBreakdown
          (combineAll threeRunnersReversed (Locals.mk (N:=binary64) zero [] ∅))
        !! "Run".
Proof.
  split; [apply (Permutation_rev threeRunners)|split].
  - intros H.
    apply (f_equal (fun total : float => PrimFloat.ltb 0.6%float total)) in H.
    vm_compute in H. discriminate.
  - intros H.
    apply (f_equal (fun entry : option (@TypeStat.t binary64) =>
                      match entry with
                      | Some e => PrimFloat.ltb 0.6%float (TypeStat.distance e)
                      | None => false
                      end)) in H.
    vm_compute in H. discriminate.
Qed.

Lemma combine_any_order_witness :
  Permutation twoAthletes twoAthletesSwapped
  /\ sameCounts (combineAll twoAthletes (Locals.mk (N:=exact) zero [] ∅))
                (combineAll twoAthletesSwapped (Locals.mk (N:=exact) zero [] ∅))
  /\ sameSums (combineAll twoAthletes (Locals.mk (N:=exact) zero [] ∅))
              (combineAll twoAthletesSwapped (Locals.mk (N:=exact) zero [] ∅)).
Proof.
  assert (Hperm : Permutation twoAthletes twoAthletesSwapped)
    by apply perm_swap.
  split; [exact Hperm|].
  destruct (combine_any_order (N:=exact) twoAthletes twoAthletesSwapped
              (Locals.mk (N:=exact) zero [] ∅) Hperm) as [Hcounts Hsums].
  split; [exact Hcounts|exact (Hsums exact_ExactSum)].
Defined.

(** Alice's second page is rejected after a full first page: her fetch
    returns the empty list instead of failing, and she is in the persisted
    athlete list. *)
Lemma failed_fetch_counterexample :
  firstFailure (Provider.activities (N:=binary64) demoProvider "tokA"
                  "2026-01-01" "2026-12-31" perPage)
  = Some (HttpError 500)
  /\ fst (fetchActivities (N:=binary64) demoProvider "tokA"
            "2026-01-01" "2026-12-31" demoWorld)
     = Return []
  /\ exists stats,
       World.statsFile (snd (collectData (N:=binary64) demoProvider demoConfig
                                         demoWorld))
       = Holds stats
       /\ In "Alice A" (map AthleteStat.name (Stats.athletes stats)).
Proof.
  split; [vm_compute; reflexivity|split; [vm_compute; reflexivity|]].
  eexists. split; [vm_compute; reflexivity|].
  vm_compute. tauto.
Qed.

Lemma failed_fetch_counts_as_no_activity_witness :
  World.tokensFile (N:=binary64) demoWorld = Holds demoTokens
  /\ In (1%Z, alice) demoTokens
  /\ refreshed (N:=binary64) demoProvider (World.clock (N:=binary64) demoWorld)
       alice = Data alice
  /\ firstFailure (Provider.activities (N:=binary64) demoProvider
                     (AthleteData.accessToken alice)
                     (Config.START_DATE demoConfig) (Config.END_DATE demoConfig)
                     perPage)
     = Some (HttpError 500)
  /\ contribution (N:=binary64) demoProvider demoConfig
       (World.clock (N:=binary64) demoWorld) alice
     = Some (displayName alice, 0, calculateDistanceBreakdown [])
  /\ In (AthleteStat.mk (N:=binary64) (displayName alice) zero 0 ∅)
        (Stats.athletes
           (snapshot (N:=binary64) demoProvider demoConfig
                     (World.clock (N:=binary64) demoWorld) demoTokens)).
Proof.
  assert (H1 : World.tokensFile (N:=binary64) demoWorld = Holds demoTokens)
    by reflexivity.
  assert (H2 : In (1%Z, alice) demoTokens) by (left; reflexivity).
  assert (H3 : refreshed (N:=binary64) demoProvider
                 (World.clock (N:=binary64) demoWorld) alice = Data alice)
    by reflexivity.
  assert (H4 : firstFailure
                 (Provider.activities (N:=binary64) demoProvider
                    (AthleteData.accessToken alice)
                    (Config.START_DATE demoConfig) (Config.END_DATE demoConfig)
                    perPage)
               = Some (HttpError 500))
    by (vm_compute; reflexivity).
  destruct (failed_fetch_counts_as_no_activity (N:=binary64) demoProvider
              demoConfig demoTokens 1%Z alice alice (HttpError 500) demoWorld
              H1 H2 H3 H4) as (_ & Hc & Hin & _).
  repeat (split; [assumption|]). exact Hin.
Defined.

(** With no athlete connected the run writes no snapshot at all; after
    the server's [initializeFiles] the stats file holds the baseline, which
    the run leaves as it is, without an [athleteCount]. *)
Lemma empty_store_counterexample :
  World.tokensFile (N:=binary64) emptyStore = Holds []
  /\ (~ exists stats,
         World.statsFile
           (snd (collectData (N:=binary64) demoProvider demoConfig emptyStore))
         = Holds stats)
  /\ exists stats,
       World.statsFile
         (snd (collectData (N:=binary64) demoProvider demoConfig
                 (snd (initializeFiles (N:=binary64) emptyStore))))
       = Holds stats
       /\ Stats.athleteCount stats = None.
Proof.
  split; [reflexivity|split].
  - intros (stats & H). vm_compute in H. discriminate.
  - eexists. split; vm_compute; reflexivity.
Qed.

Lemma empty_store_run_writes_nothing_witness :
  World.tokensFile (N:=binary64) emptyStore = Holds []
  /\ collectData (N:=binary64) demoProvider demoConfig emptyStore
     = (Return tt, emptyStore)
  /\ World.statsFile (snd (initializeFiles (N:=binary64) emptyStore))
     = Holds (Stats.mk zero None [] None None None None).
Proof.
  assert (H : World.tokensFile (N:=binary64) emptyStore = Holds [])
    by reflexivity.
  destruct (empty_store_run_writes_nothing (N:=binary64) demoProvider
              demoConfig emptyStore H) as [Hrun Hinit].
  split; [exact H|split; [exact Hrun|apply Hinit; reflexivity]].
Defined.

Lemma failed_refresh_is_isolated_witness :
  (AthleteData.expiresAt carol <= World.clock (N:=binary64) demoWorld)%Z
  /\ Provider.token (N:=binary64) demoProvider (AthleteData.refreshToken carol)
     = Rejected NetworkError
  /\ refreshAccessToken (N:=binary64) demoProvider demoConfig (carol, demoWorld)
     = (Throw NetworkError,
        (carol,
         complained (sent demoWorld [refreshRequest demoConfig carol])
                    [FailedToRefresh (AthleteData.athleteId carol) NetworkError]))
  /\ exists requests stderr,
       collectData (N:=binary64) demoProvider demoConfig demoWorld
       = (Return tt,
          World.mk
            (Holds (tokensAfter (N:=binary64) demoProvider 50%Z
                                [(1%Z, alice); (2%Z, bob)]
                    ++ (3%Z, carol)
                    :: tokensAfter (N:=binary64) demoProvider 50%Z
                                   [(4%Z, dave)]))
            (Holds (snapshot (N:=binary64) demoProvider demoConfig 50%Z
                             ([(1%Z, alice); (2%Z, bob)] ++ [(4%Z, dave)])))
            50%Z requests stderr).
Proof.
  assert (H1 : (AthleteData.expiresAt carol
                <= World.clock (N:=binary64) demoWorld)%Z)
    by (vm_compute; discriminate).
  assert (H2 : Provider.token (N:=binary64) demoProvider
                 (AthleteData.refreshToken carol) = Rejected NetworkError)
    by reflexivity.
  destruct (failed_refresh_is_isolated (N:=binary64) demoProvider demoConfig
              3%Z carol NetworkError demoWorld H1 H2) as (Hr & _ & Hrun & _).
  split; [exact H1|split; [exact H2|split; [exact Hr|]]].
  apply (Hrun [(1%Z, alice); (2%Z, bob)] [(4%Z, dave)]). reflexivity.
Defined.

Lemma pagination_stops_at_first_short_page_witness :
  pageData (Provider.activities (N:=binary64) demoProvider "tokD"
              "2026-01-01" "2026-12-31" perPage) 1
  = Data (repeat run1km 200)
  /\ length (repeat (run1km (N:=binary64)) 200) = perPage
  /\ pageData (Provider.activities (N:=binary64) demoProvider "tokD"
                 "2026-01-01" "2026-12-31" perPage) 2
     = Data []
  /\ fetchActivities (N:=binary64) demoProvider "tokD"
       "2026-01-01" "2026-12-31" demoWorld
     = (Return (repeat run1km 200),
        sent demoWorld [GetActivities "tokD" "2026-01-01" "2026-12-31" 1 perPage;
                        GetActivities "tokD" "2026-01-01" "2026-12-31" 2 perPage]).
Proof.
  assert (H1 : pageData (Provider.activities (N:=binary64) demoProvider "tokD"
                           "2026-01-01" "2026-12-31" perPage) 1
               = Data (repeat run1km 200)) by reflexivity.
  assert (H2 : length (repeat (run1km (N:=binary64)) 200) = perPage)
    by reflexivity.
  assert (H3 : pageData (Provider.activities (N:=binary64) demoProvider "tokD"
                           "2026-01-01" "2026-12-31" perPage) 2
               = Data []) by reflexivity.
  destruct (pagination_stops_at_first_short_page (N:=binary64) demoProvider
              "tokD" "2026-01-01" "2026-12-31" demoWorld) as [Hscenario _].
  split; [exact H1|split; [exact H2|split; [exact H3|]]].
  exact (Hscenario _ H1 H2 H3).
Defined.

Lemma valid_token_returned_without_request_witness :
  (World.clock (N:=binary64) demoWorld < AthleteData.expiresAt alice)%Z
  /\ refreshAccessToken (N:=binary64) demoProvider demoConfig (alice, demoWorld)
     = (Return (AthleteData.accessToken alice), (alice, demoWorld))
  /\ refreshTwice (N:=binary64) demoProvider demoConfig (alice, demoWorld)
     = (Return (AthleteData.accessToken alice, AthleteData.accessToken alice),
        (alice, demoWorld)).
Proof.
  assert (H : (World.clock (N:=binary64) demoWorld
               < AthleteData.expiresAt alice)%Z) by reflexivity.
  destruct (valid_token_returned_without_request (N:=binary64) demoProvider
              demoConfig alice demoWorld H) as (H1 & H2 & _).
  split; [exact H|split; [exact H1|exact H2]].
Defined.

(** With [null] after Alice's record the store is read without error and
    Alice is processed, two page requests leaving the process, before the
    run ends at the [null]: per-user processing has occurred. *)
Lemma nulled_store_counterexample :
  World.tokensFile (N:=binary64) nulledStore
  = Misshapen (Nulled.mk [(1%Z, alice)] 2 [])
  /\ readTokens (N:=binary64) nulledStore
     = (Return [(1%Z, Some alice); (2%Z, None)], nulledStore)
  /\ World.requests
       (snd (collectData (N:=binary64) demoProvider demoConfig nulledStore))
     = [GetActivities "tokA" "2026-01-01" "2026-12-31" 1 200;
        GetActivities "tokA" "2026-01-01" "2026-12-31" 2 200]
  /\ World.requests
       (snd (collectData (N:=binary64) demoProvider demoConfig nulledStore))
     <> World.requests (N:=binary64) nulledStore.
Proof.
  split; [reflexivity|split; [reflexivity|split]].
  - vm_compute. reflexivity.
  - vm_compute. discriminate.
Qed.

Lemma unreadable_store_aborts_run_witness :
  (World.tokensFile (N:=binary64) garbledStore = Absent
   \/ World.tokensFile (N:=binary64) garbledStore = Garbled)
  /\ (exists error,
        readTokens (N:=binary64) garbledStore = (Throw error, garbledStore)
        /\ collectData (N:=binary64) demoProvider demoConfig garbledStore
           = (Return tt, complained garbledStore [ErrorInDataCollection error]))
  /\ World.tokensFile (N:=binary64) nulledStore
     = Misshapen (Nulled.mk [(1%Z, alice)] 2 [])
  /\ exists stderr,
       collectData (N:=binary64) demoProvider demoConfig nulledStore
       = (Return tt,
          World.mk (Misshapen (Nulled.mk [(1%Z, alice)] 2 [])) Absent 50
            ([] ++ flat_map
                     (fun t => athleteRequests (N:=binary64) demoProvider
                                 demoConfig 50 (snd t))
                     [(1%Z, alice)])
            (stderr ++ [ErrorInDataCollection TypeError])).
Proof.
  assert (H : World.tokensFile (N:=binary64) garbledStore = Absent
              \/ World.tokensFile (N:=binary64) garbledStore = Garbled)
    by (right; reflexivity).
  assert (H' : World.tokensFile (N:=binary64) nulledStore
               = Misshapen (Nulled.mk [(1%Z, alice)] 2 [])) by reflexivity.
  destruct (proj1 (unreadable_store_aborts_run (N:=binary64) demoProvider
                     demoConfig garbledStore) H)
    as (error & Hread & Hrun & _).
  split; [exact H|]. split; [exists error; by split|]. split; [exact H'|].
  exact (proj2 (proj2 (unreadable_store_aborts_run (N:=binary64) demoProvider
                         demoConfig nulledStore) _ H')).
Defined.

Lemma demo_distances_consistent :
  consistentOn (pushed (N:=binary64) demoProvider demoConfig
                       (World.clock (N:=binary64) demoWorld) demoTokens).
Proof.
  intros a b c Ha Hb Hc. vm_compute in Ha, Hb, Hc.
  destruct Ha as [<-|[<-|[<-|[]]]];
    destruct Hb as [<-|[<-|[<-|[]]]];
    destruct Hc as [<-|[<-|[<-|[]]]];
    vm_compute; (split; [reflexivity|split]); intros; congruence.
Qed.

Lemma persisted_athletes_sorted_stable_witness :
  World.tokensFile (N:=binary64) demoWorld = Holds demoTokens
  /\ demoTokens <> []
  /\ consistentOn (pushed (N:=binary64) demoProvider demoConfig
                          (World.clock (N:=binary64) demoWorld) demoTokens)
  /\ exists stats,
       World.statsFile (snd (collectData (N:=binary64) demoProvider demoConfig
                                         demoWorld))
       = Holds stats
       /\ Permutation (Stats.athletes stats)
                      (pushed demoProvider demoConfig
                              (World.clock (N:=binary64) demoWorld) demoTokens)
       /\ descending (Stats.athletes stats)
       /\ (forall group, tied group ->
             List.filter group (Stats.athletes stats)
             = List.filter group
                 (pushed demoProvider demoConfig
                         (World.clock (N:=binary64) demoWorld) demoTokens)).
Proof.
  assert (H1 : World.tokensFile (N:=binary64) demoWorld = Holds demoTokens)
    by reflexivity.
  assert (H2 : demoTokens <> []) by discriminate.
  split; [exact H1|split; [exact H2|split; [exact demo_distances_consistent|]]].
  exact (persisted_athletes_sorted_stable (N:=binary64) demoProvider demoConfig
           demoWorld demoTokens H1 H2 demo_distances_consistent).
Defined.

(** The first run of the small challenge, on doubles: Dave's 200 km, Bob's
    2 km and Alice's empty list are persisted in this order, Carol is left
    out, Bob's record holds the rotated tokens and Carol's is untouched. *)
Example demo_run_on_doubles :
  exists stats requests stderr,
    collectData (N:=binary64) demoProvider demoConfig demoWorld
    = (Return tt,
       World.mk
         (Holds [(1%Z, alice);
                 (2%Z, assignTokens (TokenResponse.mk "tokB2" "refB2" 1000) bob);
                 (3%Z, carol); (4%Z, dave)])
         (Holds stats) 50%Z requests stderr)
    /\ map AthleteStat.name (Stats.athletes stats)
       = ["Dave D"; "Bob B"; "Alice A"]
    /\ map AthleteStat.distance (Stats.athletes stats)
       = [200%float; 2%float; 0%float]
    /\ Stats.totalDistance stats = 202%float
    /\ Stats.athleteCount stats = Some 3
    /\ length requests = 7
    /\ stderr = [ErrorFetchingActivities (HttpError 500);
                 FailedToRefresh 3 NetworkError;
                 ErrorProcessingAthlete 3 NetworkError].
Proof.
  eexists _, _, _. split; [vm_compute; reflexivity|].
  vm_compute. repeat split; reflexivity.
Qed.

(** The specification's scenario in exact arithmetic: 15 km in all, two
    runs and one ride, A before B. *)
Example two_athletes_scenario :
  let acc := combineAll twoAthletes (Locals.mk (N:=exact) zero [] ∅) in
  this (Locals.totalDistance acc : Qc) = 15%Q
  /\ (TypeStat.count <$> Locals.activityTypeBreakdown acc)
     = {[ "Run" := 2; "Ride" := 1 ]}
  /\ ((fun e : @TypeStat.t exact => this (TypeStat.distance e : Qc))
      <$> Locals.activityTypeBreakdown acc)
     = {[ "Run" := 10%Q; "Ride" := 5%Q ]}
  /\ map AthleteStat.name (Array_sort byDistance (Locals.athleteStats acc))
     = ["A"; "B"].
Proof. vm_compute. repeat split; reflexivity. Qed.

(** * Further properties of the collection script *)

(** ** Sums over the entries of a breakdown *)

Section SumFacts.
Context {N : JSNumber} {B : Type} (op : B -> B -> B) (unit : B)
        (measure : TypeStat.t -> B).
Hypothesis op_comm : forall x y, op x y = op y x.
Hypothesis op_assoc : forall x y z, op (op x y) z = op x (op y z).

Lemma sumOver_swap (x y z : B) : op x (op y z) = op y (op x z).
Proof. by rewrite <- !op_assoc, (op_comm x y). Qed.

Lemma sumOver_insert_fresh (m : gmap string TypeStat.t) (k : string)
    (v : TypeStat.t) :
  m !! k = None ->
  sumOver op unit measure (<[k:=v]> m)
  = op (measure v) (sumOver op unit measure m).
Proof.
  intros Hk. unfold sumOver.
  apply (map_fold_insert_L (fun _ e acc => op (measure e) acc)); [|exact Hk].
  intros; apply sumOver_swap.
Qed.

Lemma sumOver_delete (m : gmap string TypeStat.t) (k : string) (e : TypeStat.t) :
  m !! k = Some e ->
  sumOver op unit measure m
  = op (measure e) (sumOver op unit measure (delete k m)).
Proof.
  intros Hk. unfold sumOver.
  apply (map_fold_delete_L (fun _ e acc => op (measure e) acc)); [|exact Hk].
  intros; apply sumOver_swap.
Qed.

Lemma sumOver_insert_over (m : gmap string TypeStat.t) (k : string)
    (v : TypeStat.t) :
  sumOver op unit measure (<[k:=v]> m)
  = op (measure v) (sumOver op unit measure (delete k m)).
Proof.
  rewrite <- (insert_delete_eq m k v).
  apply sumOver_insert_fresh, lookup_delete_eq.
Qed.
End SumFacts.

(** ** Every grouped activity is counted once *)

Section CountFacts.
Context {N : JSNumber}.

Lemma breakdownStep_byType (b : Breakdown.t) (a : Activity.t) :
  Breakdown.byType (breakdownStep b a)
  = match bumpUnder (typeOrOther a) (Breakdown.byType b !! typeOrOther a) a with
    | Some e => <[typeOrOther a := e]> (Breakdown.byType b)
    | None => Breakdown.byType b
    end.
Proof.
  apply map_eq. intros type. rewrite breakdownStep_lookup.
  destruct (decide (typeOrOther a = type)) as [<-|Hne].
  - destruct (bumpUnder _ _ a) as [e|] eqn:E.
    + by rewrite lookup_insert_eq.
    + unfold bumpUnder in E.
      destruct (Breakdown.byType b !! typeOrOther a); [discriminate|done].
  - destruct (bumpUnder _ _ a); [|reflexivity]. by rewrite lookup_insert_ne.
Qed.

Lemma ownKeys_empty : ownKeys ∅.
Proof. intros type e H. by rewrite lookup_empty in H. Qed.

Lemma ownKeys_breakdownStep (b : Breakdown.t) (a : Activity.t) :
  ownKeys (Breakdown.byType b) -> ownKeys (Breakdown.byType (breakdownStep b a)).
Proof.
  intros Hown type e. rewrite breakdownStep_lookup.
  destruct (decide (typeOrOther a = type)) as [<-|Hne]; [|apply Hown].
  unfold bumpUnder.
  destruct (Breakdown.byType b !! typeOrOther a) as [e0|] eqn:E.
  - intros _. by apply (Hown _ e0).
  - by destruct (inherited (typeOrOther a)).
Qed.

Lemma ownKeys_fold (l : list Activity.t) (b : Breakdown.t) :
  ownKeys (Breakdown.byType b) ->
  ownKeys (Breakdown.byType (fold_left breakdownStep l b)).
Proof.
  revert b. induction l as [|a l IH]; intros b Hown; [exact Hown|].
  cbn [fold_left]. by apply IH, ownKeys_breakdownStep.
Qed.

Lemma ownKeys_calculateDistanceBreakdown (activities : list Activity.t) :
  ownKeys (Breakdown.byType (calculateDistanceBreakdown activities)).
Proof. apply ownKeys_fold, ownKeys_empty. Qed.

Lemma totalCount_breakdownStep (b : Breakdown.t) (a : Activity.t) :
  ownKeys (Breakdown.byType b) ->
  totalCount (Breakdown.byType (breakdownStep b a))
  = totalCount (Breakdown.byType b) + length (grouped [a]).
Proof.
  intros Hown. rewrite breakdownStep_byType. unfold totalCount, bumpUnder, grouped.
  rewrite filter_cons, filter_nil.
  destruct (Breakdown.byType b !! typeOrOther a) as [e|] eqn:E.
  - rewrite decide_True by (by apply (Hown _ e)).
    unfold bump.
    rewrite (sumOver_insert_over Nat.add 0 TypeStat.count Nat.add_comm)
      by (intros; symmetry; apply Nat.add_assoc).
    rewrite (sumOver_delete Nat.add 0 TypeStat.count Nat.add_comm
               (fun x y z => eq_sym (Nat.add_assoc x y z)) _ _ e E).
    cbn. lia.
  - destruct (inherited (typeOrOther a)) eqn:Hinh.
    + rewrite decide_False by done. cbn. lia.
    + rewrite decide_True by done. unfold bump.
      rewrite (sumOver_insert_fresh Nat.add 0 TypeStat.count Nat.add_comm)
        by (done || intros; symmetry; apply Nat.add_assoc).
      cbn. lia.
Qed.

Lemma totalCount_fold (l : list Activity.t) (b : Breakdown.t) :
  ownKeys (Breakdown.byType b) ->
  totalCount (Breakdown.byType (fold_left breakdownStep l b))
  = totalCount (Breakdown.byType b) + length (grouped l).
Proof.
  revert b. induction l as [|a l IH]; intros b Hown; cbn [fold_left].
  - cbn. lia.
  - rewrite IH by (by apply ownKeys_breakdownStep).
    rewrite totalCount_breakdownStep by done.
    unfold grouped. rewrite (filter_cons _ a l), filter_cons, filter_nil.
    destruct (decide (inherited (typeOrOther a) = false)); cbn; lia.
Qed.

Lemma totalCount_calculateDistanceBreakdown (activities : list Activity.t) :
  totalCount (Breakdown.byType (calculateDistanceBreakdown activities))
  = length (grouped activities).
Proof.
  unfold calculateDistanceBreakdown.
  rewrite totalCount_fold by apply ownKeys_empty.
  cbn. unfold totalCount, sumOver. by rewrite map_fold_empty.
Qed.

Lemma grouped_length (activities : list Activity.t) :
  length (grouped activities) <= length activities.
Proof. apply length_filter. Qed.

Lemma typeOrOther_nonempty (a : Activity.t) : typeOrOther a <> "".
Proof.
  unfold typeOrOther. destruct (Activity.type a) as [s|]; [|discriminate].
  destruct (decide (s = "")); [discriminate|done].
Qed.

(** X1. The per-type counts of a breakdown add up to the number of
    activities whose type is not a name objects inherit: each of these is
    counted under exactly one type, the others under none.  Every entry
    counts at least one activity, exactly those of its type, and there is
    never an entry under the empty string or under an inherited name. *)
Theorem grouped_activities_counted_once (activities : list Activity.t) :
  totalCount (Breakdown.byType (calculateDistanceBreakdown activities))
  = length (grouped activities)
  /\ length (grouped activities) <= length activities
  /\ (forall type e,
        Breakdown.byType (calculateDistanceBreakdown activities) !! type = Some e ->
        inherited type = false
        /\ 1 <= TypeStat.count e
        /\ TypeStat.count e = length (ofType type activities))
  /\ Breakdown.byType (calculateDistanceBreakdown activities) !! "" = None.
Proof.
  split; [apply totalCount_calculateDistanceBreakdown|].
  split; [apply grouped_length|]. split.
  - intros type e. rewrite calculateDistanceBreakdown_lookup.
    destruct (inherited type); [discriminate|].
    destruct (ofType type activities) as [|a group]; [discriminate|].
    intros [= <-]. cbn. split; [reflexivity|]. split; [lia|reflexivity].
  - rewrite calculateDistanceBreakdown_lookup.
    change (inherited "") with false. cbn iota.
    assert (ofType "" activities = []) as ->; [|reflexivity].
    unfold ofType. induction activities as [|a l IH]; [reflexivity|].
    rewrite filter_cons, IH.
    destruct (decide (typeOrOther a = "")) as [H|]; [|reflexivity].
    by apply typeOrOther_nonempty in H.
Qed.

End CountFacts.

(** ** How many requests a fetch costs, and what a paging provider yields *)

Section PagingFacts.
Context {N : JSNumber}.

Lemma requestCount_records (answers : list (Reply (list Activity.t))) :
  firstFailure answers = None ->
  (requestCount answers - 1) * perPage <= length (collected answers).
Proof.
  induction answers as [|[d|e] later IH];
    cbn [firstFailure requestCount collected]; intros Hok.
  - cbn. lia.
  - destruct (length d <? perPage) eqn:Hshort; [cbn; lia|].
    apply Nat.ltb_ge in Hshort. specialize (IH Hok).
    rewrite length_app.
    pose proof (proj1 (requestCount_first_short later)).
    replace (S (requestCount later) - 1)
      with (1 + (requestCount later - 1)) by lia.
    lia.
  - discriminate.
Qed.

(** X3. A fetch no page of which is rejected issues at most one request
    more than the number of full pages its result holds: with [n] records
    returned, at most n / 200 + 1 requests. *)
Theorem fetch_request_bound (provider : Provider.t)
    (accessToken startDate endDate : string) (w : W) :
  firstFailure
    (Provider.activities provider accessToken startDate endDate perPage)
  = None ->
  exists result w',
    fetchActivities provider accessToken startDate endDate w = (Return result, w')
    /\ length (World.requests w')
       <= length (World.requests w) + length result / perPage + 1.
Proof.
  intros Hok. rewrite fetchActivities_run, Hok.
  eexists _, _. split; [reflexivity|].
  unfold sent; cbn [World.requests].
  rewrite length_app. unfold pageRequests. rewrite length_map, length_seq.
  pose proof (requestCount_records _ Hok) as Hbound.
  pose proof (proj1 (requestCount_first_short
    (Provider.activities provider accessToken startDate endDate perPage))).
  assert (requestCount
            (Provider.activities provider accessToken startDate endDate perPage)
          - 1
          <= length (collected
               (Provider.activities provider accessToken startDate endDate perPage))
             / perPage).
  { apply Nat.div_le_lower_bound; [unfold perPage; lia|]. lia. }
  lia.
Qed.

Lemma pagesOf_fetched (fuel : nat) (history : list Activity.t) :
  length history <= fuel ->
  firstFailure (pagesOf fuel history) = None
  /\ collected (pagesOf fuel history) = history
  /\ requestCount (pagesOf fuel history) = length history / perPage + 1.
Proof.
  revert history. induction fuel as [|fuel IH]; intros history Hlen.
  - destruct history; [|cbn in Hlen; lia]. by repeat split.
  - destruct history as [|a history']; [by repeat split|].
    cbn [pagesOf firstFailure collected requestCount].
    remember (a :: history') as history eqn:Ehistory. clear Ehistory.
    rewrite length_take.
    destruct (Nat.lt_ge_cases (length history) perPage) as [Hshort|Hfull].
    + rewrite Nat.min_r by lia.
      rewrite (proj2 (Nat.ltb_lt _ _) Hshort).
      split; [reflexivity|split].
      * apply take_ge. lia.
      * by rewrite Nat.div_small.
    + rewrite Nat.min_l by lia.
      rewrite (proj2 (Nat.ltb_ge _ _) (Nat.le_refl perPage)).
      destruct (IH (drop perPage history)) as (H1 & H2 & H3).
      { rewrite length_drop. unfold perPage in *. lia. }
      split; [exact H1|split].
      * rewrite H2. apply take_drop.
      * rewrite H3, length_drop.
        replace (length history) with ((length history - perPage) + 1 * perPage)
          at 2 by lia.
        rewrite Nat.div_add by (unfold perPage; lia). lia.
Qed.

(** X4. Against a provider that serves an athlete's history in pages of
    200, the fetch returns the complete history, in order, and issues
    exactly (number of records) / 200 + 1 requests, for pages 1, 2, ... *)
Theorem paged_history_fetched_completely (provider : Provider.t)
    (accessToken startDate endDate : string) (history : list Activity.t)
    (w : W) :
  Provider.activities provider accessToken startDate endDate perPage
  = servedInPages history ->
  fetchActivities provider accessToken startDate endDate w
  = (Return history,
     sent w (pageRequests accessToken startDate endDate 1
                          (length history / perPage + 1))).
Proof.
  intros Hserved. rewrite fetchActivities_run, Hserved.
  destruct (pagesOf_fetched (length history) history (Nat.le_refl _))
    as (H1 & H2 & H3).
  unfold servedInPages. by rewrite H1, H2, H3.
Qed.

End PagingFacts.

(** ** More on token refresh *)

Section RefreshMore.
Context {N : JSNumber}.

Lemma sameIdentity_refl (a : AthleteData.t) : sameIdentity a a.
Proof. by repeat split. Qed.

Lemma sameIdentity_assignTokens (r : TokenResponse.t) (a : AthleteData.t) :
  sameIdentity a (assignTokens r a).
Proof. by repeat split. Qed.

Lemma sameIdentity_recordAfter (provider : Provider.t) (now : Z)
    (a : AthleteData.t) :
  sameIdentity a (recordAfter provider now a).
Proof.
  unfold recordAfter, refreshed.
  destruct (validAt now a); [apply sameIdentity_refl|].
  destruct (Provider.token provider (AthleteData.refreshToken a));
    [apply sameIdentity_assignTokens|apply sameIdentity_refl].
Qed.

(** X5. When the token has expired and the provider grants the refresh,
    [refreshAccessToken] issues exactly one request, carrying the old
    refresh token, returns the new access token and overwrites the
    record's access token, refresh token and expiry with the response's,
    so the old refresh token is gone; nothing else of the record changes
    and nothing is written to [console.error]. *)
Theorem expired_token_is_rotated (provider : Provider.t) (cfg : Config.t)
    (a : AthleteData.t) (w : W) (r : TokenResponse.t) :
  (AthleteData.expiresAt a <= World.clock w)%Z ->
  Provider.token provider (AthleteData.refreshToken a) = Data r ->
  exists a',
    refreshAccessToken provider cfg (a, w)
    = (Return (TokenResponse.access_token r),
       (a', sent w [PostToken (Config.STRAVA_CLIENT_ID cfg)
                              (Config.STRAVA_CLIENT_SECRET cfg)
                              (AthleteData.refreshToken a)]))
    /\ AthleteData.accessToken a' = TokenResponse.access_token r
    /\ AthleteData.refreshToken a' = TokenResponse.refresh_token r
    /\ AthleteData.expiresAt a' = TokenResponse.expires_at r
    /\ sameIdentity a a'.
Proof.
  intros Hexp Hr. exists (assignTokens r a).
  rewrite refreshAccessToken_run. unfold refreshed.
  rewrite validAt_false, Hr by done.
  by repeat split.
Qed.

(** X6. Whatever the provider answers, [refreshAccessToken] writes no
    file, issues at most one request, leaves the athlete's id, names and
    connection date alone, and, when it throws, leaves the whole record
    as it was. *)
Theorem refresh_touches_only_the_tokens (provider : Provider.t)
    (cfg : Config.t) (a : AthleteData.t) (w : W) :
  exists outcome a' w',
    refreshAccessToken provider cfg (a, w) = (outcome, (a', w'))
    /\ sameDisk w w'
    /\ length (World.requests w') <= length (World.requests w) + 1
    /\ sameIdentity a a'
    /\ (forall e, outcome = Throw e -> a' = a).
Proof.
  rewrite refreshAccessToken_run.
  destruct (refreshed provider (World.clock w) a) as [a'|e] eqn:E.
  - eexists _, _, _. split; [reflexivity|].
    assert (Hid : sameIdentity a a').
    { pose proof (sameIdentity_recordAfter provider (World.clock w) a) as H.
      unfold recordAfter in H. by rewrite E in H. }
    destruct (validAt (World.clock w) a).
    + split; [by repeat split|]. split; [lia|]. split; [exact Hid|discriminate].
    + split; [by repeat split|]. split.
      { cbn. rewrite length_app. cbn. lia. }
      split; [exact Hid|discriminate].
  - eexists _, _, _. split; [reflexivity|].
    split; [by repeat split|]. split.
    { cbn. rewrite length_app. cbn. lia. }
    split; [apply sameIdentity_refl|reflexivity].
Qed.

End RefreshMore.

(** ** More on a whole run *)

Section RunMore.
Context {N : JSNumber}.

(** X7. The requests of a run are the athletes' requests one athlete
    after the other in store order: for each athlete the refresh exchange
    if and only if the token has expired, then the page requests, which
    carry the access token in force after the refresh.  A run over an
    empty or missing store, or one whose text does not parse, issues no
    request; over a store that parses but has a [null] among its records,
    the run issues the requests of the athletes before the first [null]. *)
Theorem run_requests_athlete_by_athlete (provider : Provider.t)
    (cfg : Config.t) (w : W) :
  World.requests (snd (collectData provider cfg w))
  = World.requests w
    ++ match World.tokensFile w with
       | Holds tokens =>
           flat_map
             (fun t => athleteRequests provider cfg (World.clock w) (snd t))
             tokens
       | Misshapen p =>
           flat_map
             (fun t => athleteRequests provider cfg (World.clock w) (snd t))
             (Nulled.before p)
       | _ => []
       end.
Proof.
  destruct (World.tokensFile w) as [| |tokens|p] eqn:Hfile.
  - unfold collectData, tryCatch, bind at 1, readTokens. rewrite Hfile.
    cbn. by rewrite app_nil_r.
  - unfold collectData, tryCatch, bind at 1, readTokens. rewrite Hfile.
    cbn. by rewrite app_nil_r.
  - destruct tokens as [|t tokens].
    { unfold collectData, tryCatch, bind at 1, readTokens. rewrite Hfile.
      cbn. by rewrite app_nil_r. }
    unfold collectData, tryCatch, bind at 1, readTokens. rewrite Hfile.
    unfold wellShaped at 1. rewrite !length_map. cbn [length Nat.eqb].
    unfold bind at 1.
    destruct (processAthletes_run provider cfg (t :: tokens)
                (Locals.mk zero [] ∅) w) as (w' & -> & _ & Hreq).
    unfold bind, saveTokens, dateNow, writeStats, modify; cbn.
    exact Hreq.
  - destruct (collectData_null provider cfg w p Hfile) as (cs & ->).
    reflexivity.
Qed.

Lemma combineAll_totalDistance (users : list PerUser) (acc : Locals.t) :
  Locals.totalDistance (combineAll users acc)
  = fold_left add (map (fun u => AthleteStat.distance (statOf u)) users)
              (Locals.totalDistance acc).
Proof.
  revert acc. induction users as [|u users IH]; intros acc; [reflexivity|].
  change (combineAll (u :: users) acc)
    with (combineAll users (combine acc (fst (fst u)) (snd (fst u)) (snd u))).
  rewrite IH. reflexivity.
Qed.

Lemma fold_left_add_Permutation `{!ExactSum N} (l l' : list num) (z : num) :
  Permutation l l' -> fold_left add l z = fold_left add l' z.
Proof.
  intros Hperm. revert z.
  induction Hperm as [|x l l' _ IH|x y l|l l' l'' _ IH1 _ IH2]; intros z; cbn.
  - reflexivity.
  - apply IH.
  - f_equal. rewrite !add_assoc. f_equal. apply add_comm.
  - by rewrite IH1.
Qed.

Lemma contributions_length (provider : Provider.t) (cfg : Config.t) (now : Z)
    (tokens : list (Z * AthleteData.t)) :
  length (contributions provider cfg now tokens) <= length tokens.
Proof.
  unfold contributions. induction tokens as [|t tokens IH]; cbn; [lia|].
  destruct (contribution provider cfg now (snd t)); cbn; lia.
Qed.

(** X8. The snapshot a run persists is consistent with itself: its total
    is the sum, taken in iteration order from 0, of the distances of the
    athletes it lists; [athleteCount] is the length of the athlete list,
    which holds one entry per athlete whose token was valid or could be
    refreshed and so never more than there are stored athletes; and in
    exact arithmetic the total is also the sum over the list as persisted. *)
Theorem snapshot_total_is_sum_of_athletes (provider : Provider.t)
    (cfg : Config.t) (w : W) (tokens : list (Z * AthleteData.t)) :
  World.tokensFile w = Holds tokens -> tokens <> [] ->
  exists stats,
    World.statsFile (snd (collectData provider cfg w)) = Holds stats
    /\ Stats.totalDistance stats
       = fold_left add
           (map AthleteStat.distance (pushed provider cfg (World.clock w) tokens))
           zero
    /\ Stats.athleteCount stats = Some (length (Stats.athletes stats))
    /\ length (Stats.athletes stats)
       = length (contributions provider cfg (World.clock w) tokens)
    /\ length (Stats.athletes stats) <= length tokens
    /\ (ExactSum N ->
        Stats.totalDistance stats
        = fold_left add (map AthleteStat.distance (Stats.athletes stats)) zero).
Proof.
  intros Hfile Hne.
  destruct (collectData_run provider cfg w tokens Hfile Hne) as (rs & cs & ->).
  eexists; split; [reflexivity|].
  assert (Htotal :
    Stats.totalDistance (snapshot provider cfg (World.clock w) tokens)
    = fold_left add
        (map AthleteStat.distance (pushed provider cfg (World.clock w) tokens))
        zero).
  { unfold snapshot, pushed; cbn [Stats.totalDistance].
    rewrite combineAll_totalDistance, map_map. reflexivity. }
  assert (Hlen :
    length (Stats.athletes (snapshot provider cfg (World.clock w) tokens))
    = length (contributions provider cfg (World.clock w) tokens)).
  { rewrite snapshot_athletes.
    rewrite (Permutation_length (Array_sort_Permutation _)).
    unfold pushed. by rewrite length_map. }
  split; [exact Htotal|]. split; [reflexivity|]. split; [exact Hlen|].
  split; [rewrite Hlen; apply contributions_length|].
  intros HE. rewrite Htotal. apply fold_left_add_Permutation.
  apply Permutation_map. rewrite snapshot_athletes.
  symmetry. apply Array_sort_Permutation.
Qed.

End RunMore.

(** ** The global breakdown against the athletes' breakdowns *)

Section GlobalFacts.
Context {N : JSNumber}.

Lemma aggregateTypes_empty (g : gmap string TypeStat.t) :
  aggregateTypes ∅ g = g.
Proof.
  apply map_eq. intros t. by rewrite aggregateTypes_lookup, lookup_empty.
Qed.

Lemma aggregateTypes_insert (b g : gmap string TypeStat.t) (k : string)
    (e : TypeStat.t) :
  b !! k = None -> inherited k = false ->
  aggregateTypes (<[k:=e]> b) g
  = <[k := mergeEntry (g !! k) e]> (aggregateTypes b g).
Proof.
  intros Hk Hown. apply map_eq. intros t.
  rewrite aggregateTypes_lookup, !lookup_insert.
  destruct (decide (k = t)) as [<-|Hne].
  - unfold merged. rewrite Hown. by destruct (g !! k).
  - by rewrite aggregateTypes_lookup.
Qed.

Lemma ownKeys_insert (b : gmap string TypeStat.t) (k : string) (e : TypeStat.t) :
  b !! k = None -> ownKeys (<[k:=e]> b) -> inherited k = false /\ ownKeys b.
Proof.
  intros Hk Hown. split.
  - apply (Hown k e). by rewrite lookup_insert_eq.
  - intros t e' Ht. apply (Hown t e'). rewrite lookup_insert_ne; [exact Ht|].
    intros ->. congruence.
Qed.

Lemma ownKeys_aggregateTypes (b g : gmap string TypeStat.t) :
  ownKeys g -> ownKeys (aggregateTypes b g).
Proof.
  intros Hown t e. rewrite aggregateTypes_lookup.
  destruct (b !! t) as [e'|]; [|apply Hown].
  unfold merged. destruct (g !! t) as [e0|] eqn:E.
  - intros _. by apply (Hown t e0).
  - by destruct (inherited t).
Qed.

Lemma totalCount_aggregateTypes (b g : gmap string TypeStat.t) :
  ownKeys b ->
  totalCount (aggregateTypes b g) = totalCount g + totalCount b.
Proof.
  induction b as [|k e b Hk IH] using map_ind; intros Hown.
  - rewrite aggregateTypes_empty. unfold totalCount at 3, sumOver.
    rewrite map_fold_empty. lia.
  - apply ownKeys_insert in Hown as [Hkown Hown]; [|exact Hk].
    specialize (IH Hown).
    rewrite aggregateTypes_insert by done. unfold totalCount in *.
    rewrite (sumOver_insert_fresh Nat.add 0 TypeStat.count Nat.add_comm
               (fun x y z => eq_sym (Nat.add_assoc x y z)) b k e Hk).
    assert (Hg : aggregateTypes b g !! k = g !! k)
      by (by rewrite aggregateTypes_lookup, Hk).
    destruct (g !! k) as [e0|] eqn:E.
    + rewrite (sumOver_insert_over Nat.add 0 TypeStat.count Nat.add_comm
                 (fun x y z => eq_sym (Nat.add_assoc x y z))).
      rewrite (sumOver_delete Nat.add 0 TypeStat.count Nat.add_comm
                 (fun x y z => eq_sym (Nat.add_assoc x y z)) _ k e0 Hg) in IH.
      cbn in *. lia.
    + rewrite (sumOver_insert_fresh Nat.add 0 TypeStat.count Nat.add_comm
                 (fun x y z => eq_sym (Nat.add_assoc x y z)) _ k _ Hg).
      cbn. lia.
Qed.

Lemma typeCountOf_aggregateTypes (type : string)
    (b g : gmap string TypeStat.t) :
  ownKeys b ->
  typeCountOf type (aggregateTypes b g)
  = typeCountOf type g + typeCountOf type b.
Proof.
  intros Hown. unfold typeCountOf. rewrite aggregateTypes_lookup.
  destruct (b !! type) as [e|] eqn:E; [|cbn; lia].
  unfold merged. rewrite (Hown _ _ E).
  destruct (g !! type) as [e0|]; cbn; lia.
Qed.

Lemma combineAll_typeCount (type : string) (users : list PerUser)
    (acc : Locals.t) :
  Forall (fun u => ownKeys (Breakdown.byType (snd u))) users ->
  typeCountOf type (Locals.activityTypeBreakdown (combineAll users acc))
  = typeCountOf type (Locals.activityTypeBreakdown acc)
    + list_sum (map (fun u => typeCountOf type (AthleteStat.byType (statOf u)))
                    users).
Proof.
  intros Hown. revert acc.
  induction Hown as [|u users Hu _ IH]; intros acc; [cbn; lia|].
  change (combineAll (u :: users) acc)
    with (combineAll users (combine acc (fst (fst u)) (snd (fst u)) (snd u))).
  rewrite IH.
  cbn [combine Locals.activityTypeBreakdown map list_sum statOf
       AthleteStat.byType].
  rewrite typeCountOf_aggregateTypes by done. simpl list_sum. lia.
Qed.

Lemma combineAll_totalCount (users : list PerUser) (acc : Locals.t) :
  Forall (fun u => ownKeys (Breakdown.byType (snd u))) users ->
  totalCount (Locals.activityTypeBreakdown (combineAll users acc))
  = totalCount (Locals.activityTypeBreakdown acc)
    + list_sum (map (fun u => totalCount (AthleteStat.byType (statOf u))) users).
Proof.
  intros Hown. revert acc.
  induction Hown as [|u users Hu _ IH]; intros acc; [cbn; lia|].
  change (combineAll (u :: users) acc)
    with (combineAll users (combine acc (fst (fst u)) (snd (fst u)) (snd u))).
  rewrite IH.
  cbn [combine Locals.activityTypeBreakdown map list_sum statOf
       AthleteStat.byType].
  rewrite totalCount_aggregateTypes by done. simpl list_sum. lia.
Qed.

Lemma combineAll_ownKeys (users : list PerUser) (acc : Locals.t) :
  ownKeys (Locals.activityTypeBreakdown acc) ->
  ownKeys (Locals.activityTypeBreakdown (combineAll users acc)).
Proof.
  revert acc. induction users as [|u users IH]; intros acc Hown; [exact Hown|].
  change (combineAll (u :: users) acc)
    with (combineAll users (combine acc (fst (fst u)) (snd (fst u)) (snd u))).
  apply IH. cbn. by apply ownKeys_aggregateTypes.
Qed.

Lemma list_sum_Permutation (l l' : list nat) :
  Permutation l l' -> list_sum l = list_sum l'.
Proof. induction 1; simpl; lia. Qed.

Lemma contributions_breakdown (provider : Provider.t) (cfg : Config.t)
    (now : Z) (tokens : list (Z * AthleteData.t)) (u : PerUser) :
  In u (contributions provider cfg now tokens) ->
  exists activities,
    snd u = calculateDistanceBreakdown activities
    /\ snd (fst u) = length activities.
Proof.
  intros Hu. apply list_elem_of_In, list_elem_of_omap in Hu as (t & _ & Ht).
  unfold contribution in Ht.
  destruct (refreshed provider now (snd t)) as [a'|]; [|discriminate].
  injection Ht as <-. by eexists.
Qed.

Lemma contributions_ownKeys (provider : Provider.t) (cfg : Config.t)
    (now : Z) (tokens : list (Z * AthleteData.t)) :
  Forall (fun u => ownKeys (Breakdown.byType (snd u)))
         (contributions provider cfg now tokens).
Proof.
  apply List.Forall_forall. intros u Hu.
  destruct (contributions_breakdown _ _ _ _ _ Hu) as (activities & -> & _).
  apply ownKeys_calculateDistanceBreakdown.
Qed.

Lemma pushed_activityCount (provider : Provider.t) (cfg : Config.t) (now : Z)
    (tokens : list (Z * AthleteData.t)) (a : AthleteStat.t) :
  In a (pushed provider cfg now tokens) ->
  totalCount (AthleteStat.byType a) <= AthleteStat.activityCount a.
Proof.
  unfold pushed. intros (u & <- & Hu)%in_map_iff.
  destruct (contributions_breakdown _ _ _ _ _ Hu) as (activities & Hb & Hn).
  cbn [statOf AthleteStat.byType AthleteStat.activityCount].
  rewrite Hb, Hn, totalCount_calculateDistanceBreakdown.
  apply grouped_length.
Qed.

(** X9. In the snapshot a run persists, the global breakdown agrees with
    the athletes listed: for every type its count is the sum of the
    athletes' counts of that type, so the global counts add up to the sum
    of the counts of the athletes' breakdowns; it has no entry under a
    name objects inherit; and an athlete's [activityCount], the number of
    activities fetched, is at least the sum of the counts of that
    athlete's breakdown. *)
Theorem global_counts_agree_with_athletes (provider : Provider.t)
    (cfg : Config.t) (w : W) (tokens : list (Z * AthleteData.t)) :
  World.tokensFile w = Holds tokens -> tokens <> [] ->
  exists stats global,
    World.statsFile (snd (collectData provider cfg w)) = Holds stats
    /\ Stats.activityTypeBreakdown stats = Some global
    /\ (forall type,
          typeCountOf type global
          = list_sum (map (fun a => typeCountOf type (AthleteStat.byType a))
                          (Stats.athletes stats)))
    /\ totalCount global
       = list_sum (map (fun a => totalCount (AthleteStat.byType a))
                       (Stats.athletes stats))
    /\ ownKeys global
    /\ (forall a, In a (Stats.athletes stats) ->
          totalCount (AthleteStat.byType a) <= AthleteStat.activityCount a).
Proof.
  intros Hfile Hne.
  destruct (collectData_run provider cfg w tokens Hfile Hne) as (rs & cs & ->).
  eexists _, _. split; [reflexivity|]. split; [reflexivity|].
  assert (Hperm : Permutation
            (Stats.athletes (snapshot provider cfg (World.clock w) tokens))
            (pushed provider cfg (World.clock w) tokens)).
  { rewrite snapshot_athletes. apply Array_sort_Permutation. }
  split; [|split; [|split]].
  - intros type.
    rewrite (list_sum_Permutation _ _ (Permutation_map _ Hperm)).
    unfold pushed. rewrite map_map.
    cbn [snapshot Stats.activityTypeBreakdown].
    rewrite combineAll_typeCount by apply contributions_ownKeys.
    cbn. unfold typeCountOf at 1. by rewrite lookup_empty.
  - rewrite (list_sum_Permutation _ _ (Permutation_map _ Hperm)).
    unfold pushed. rewrite map_map.
    cbn [snapshot Stats.activityTypeBreakdown].
    rewrite combineAll_totalCount by apply contributions_ownKeys.
    cbn. unfold totalCount at 1, sumOver. by rewrite map_fold_empty.
  - cbn [snapshot Stats.activityTypeBreakdown].
    apply combineAll_ownKeys. cbn. apply ownKeys_empty.
  - intros a Ha. apply (pushed_activityCount provider cfg (World.clock w) tokens).
    by apply (Permutation_in _ Hperm).
Qed.

End GlobalFacts.

(** ** What a run does to the credential store *)

Section StoreFacts.
Context {N : JSNumber}.

Lemma tokensAfter_ids (provider : Provider.t) (now : Z)
    (tokens : list (Z * AthleteData.t)) :
  map fst (tokensAfter provider now tokens) = map fst tokens.
Proof. unfold tokensAfter. rewrite map_map. by apply map_ext. Qed.

Lemma recordAfter_valid (provider : Provider.t) (now : Z) (a : AthleteData.t) :
  validAt now a = true -> recordAfter provider now a = a.
Proof. intros H. unfold recordAfter, refreshed. by rewrite H. Qed.

Lemma recordAfter_rejected (provider : Provider.t) (now : Z)
    (a : AthleteData.t) (e : Error) :
  Provider.token provider (AthleteData.refreshToken a) = Rejected e ->
  recordAfter provider now a = a.
Proof.
  intros H. unfold recordAfter, refreshed. rewrite H.
  by destruct (validAt now a).
Qed.

(** X10. A run never adds, drops or reorders an athlete of the credential
    store: the file it saves holds the same ids in the same order, each
    with the same id, names and connection date as before, and the record
    of an athlete whose token is still valid, or whose refresh is
    rejected, is saved exactly as it was read. *)
Theorem run_keeps_every_athlete (provider : Provider.t) (cfg : Config.t)
    (w : W) (tokens : list (Z * AthleteData.t)) :
  World.tokensFile w = Holds tokens -> tokens <> [] ->
  exists saved,
    World.tokensFile (snd (collectData provider cfg w)) = Holds saved
    /\ map fst saved = map fst tokens
    /\ Forall2
         (fun before after =>
            sameIdentity (snd before) (snd after)
            /\ (validAt (World.clock w) (snd before) = true -> after = before)
            /\ (forall e,
                  Provider.token provider (AthleteData.refreshToken (snd before))
                  = Rejected e -> after = before))
         tokens saved.
Proof.
  intros Hfile Hne.
  destruct (collectData_run provider cfg w tokens Hfile Hne) as (rs & cs & ->).
  eexists. split; [reflexivity|]. split; [apply tokensAfter_ids|].
  clear Hfile Hne. unfold tokensAfter.
  induction tokens as [|[athleteId a] tokens IH]; constructor; [|exact IH].
  cbn. split; [apply sameIdentity_recordAfter|]. split.
  - intros Hv. by rewrite recordAfter_valid.
  - intros e He. by rewrite (recordAfter_rejected _ _ _ e).
Qed.

(** X11. When every athlete's token has expired and every refresh is
    rejected, the run still completes and still writes a snapshot: no
    athlete, [athleteCount] 0, total 0 and an empty breakdown; and the
    credential file is saved as it was read. *)
Theorem all_refreshes_rejected_writes_empty_snapshot (provider : Provider.t)
    (cfg : Config.t) (w : W) (tokens : list (Z * AthleteData.t)) :
  World.tokensFile w = Holds tokens -> tokens <> [] ->
  Forall (fun t =>
            validAt (World.clock w) (snd t) = false
            /\ exists e,
                 Provider.token provider (AthleteData.refreshToken (snd t))
                 = Rejected e)
         tokens ->
  exists requests stderr,
    collectData provider cfg w
    = (Return tt,
       World.mk (Holds tokens)
                (Holds (Stats.mk zero (Some (mul zero kmToMiles)) [] (Some 0)
                                 (Some ∅) (Some (World.clock w))
                                 (Some (Config.START_DATE cfg,
                                        Config.END_DATE cfg))))
                (World.clock w) requests stderr).
Proof.
  intros Hfile Hne Hall.
  destruct (collectData_run provider cfg w tokens Hfile Hne) as (rs & cs & ->).
  exists rs, cs.
  assert (Hnone : contributions provider cfg (World.clock w) tokens = []).
  { unfold contributions. clear Hfile Hne.
    induction Hall as [|t tokens (Hv & e & He) _ IH]; [reflexivity|].
    cbn. unfold contribution, refreshed. by rewrite Hv, He. }
  assert (Hsame : tokensAfter provider (World.clock w) tokens = tokens).
  { unfold tokensAfter. clear Hfile Hne Hnone.
    induction Hall as [|[athleteId a] tokens (Hv & e & He) _ IH]; [reflexivity|].
    cbn in *. by rewrite (recordAfter_rejected _ _ _ e He), IH. }
  rewrite Hsame. unfold snapshot. rewrite Hnone. reflexivity.
Qed.

End StoreFacts.

(** ** Server start-up *)

Section InitFacts.
Context {N : JSNumber}.

(** X12. [initializeFiles] creates what is missing and nothing else: a
    file that exists, well-formed or not, is left as it is; afterwards
    neither file is missing, so reading the credential store can no
    longer fail for a missing file; and running it again changes
    nothing. *)
Theorem initializeFiles_creates_only_missing_files (w : W) :
  exists w',
    initializeFiles w = (Return tt, w')
    /\ initializeFiles w' = (Return tt, w')
    /\ World.tokensFile w' <> Absent
    /\ World.statsFile w' <> Absent
    /\ (World.tokensFile w <> Absent -> World.tokensFile w' = World.tokensFile w)
    /\ (World.statsFile w <> Absent -> World.statsFile w' = World.statsFile w)
    /\ (World.tokensFile w = Absent -> World.tokensFile w' = Holds [])
    /\ World.clock w' = World.clock w
    /\ World.requests w' = World.requests w
    /\ World.stderr w' = World.stderr w
    /\ fst (readTokens w') <> Throw FileError.
Proof.
  eexists. split; [reflexivity|].
  destruct w as [tf sf c rs cs]. unfold initializeFiles, modify, readTokens; cbn.
  destruct tf, sf; cbn; repeat split; congruence.
Qed.

End InitFacts.

(** * Properties of the authentication server *)

(** ** The credential object *)

Section PropertyFacts.
Context {V : Type}.

Lemma getProperty_None (athleteId : Z) (tokens : list (Z * V)) :
  getProperty athleteId tokens = None <-> ~ In athleteId (map fst tokens).
Proof.
  induction tokens as [|[k v] rest IH]; cbn; [tauto|].
  destruct (Z.eqb_spec k athleteId) as [->|Hne].
  - split; [discriminate|]. intros H. exfalso. apply H. by left.
  - rewrite IH. tauto.
Qed.

Lemma getProperty_insertProperty (athleteId other : Z) (record : V)
    (tokens : list (Z * V)) :
  getProperty athleteId tokens = None ->
  getProperty other (insertProperty athleteId record tokens)
  = if (athleteId =? other)%Z then Some record else getProperty other tokens.
Proof.
  induction tokens as [|[k v] rest IH]; cbn; [reflexivity|].
  destruct (Z.eqb_spec k athleteId) as [->|Hne]; [discriminate|]. intros Hnone.
  destruct (athleteId <? k)%Z; cbn; [reflexivity|].
  rewrite (IH Hnone).
  destruct (Z.eqb_spec k other) as [->|]; [|reflexivity].
  by destruct (Z.eqb_spec athleteId other) as [->|].
Qed.

Lemma getProperty_replace (athleteId other : Z) (record : V)
    (tokens : list (Z * V)) :
  getProperty other
    (map (fun t => if (fst t =? athleteId)%Z then (athleteId, record) else t)
         tokens)
  = if (athleteId =? other)%Z
    then match getProperty athleteId tokens with
         | Some _ => Some record
         | None => None
         end
    else getProperty other tokens.
Proof.
  induction tokens as [|[k v] rest IH]; cbn.
  - by destruct (athleteId =? other)%Z.
  - destruct (Z.eqb_spec k athleteId) as [->|Hne]; cbn.
    + destruct (Z.eqb_spec athleteId other) as [->|]; [reflexivity|].
      rewrite IH. by destruct (Z.eqb_spec athleteId other).
    + rewrite IH.
      destruct (Z.eqb_spec k other) as [->|]; [|reflexivity].
      by destruct (Z.eqb_spec athleteId other) as [->|].
Qed.

Lemma getProperty_setProperty (athleteId other : Z) (record : V)
    (tokens : list (Z * V)) :
  getProperty other (setProperty athleteId record tokens)
  = if (athleteId =? other)%Z then Some record else getProperty other tokens.
Proof.
  unfold setProperty.
  destruct (getProperty athleteId tokens) as [v|] eqn:E.
  - rewrite getProperty_replace, E. reflexivity.
  - by apply getProperty_insertProperty.
Qed.

Lemma insertProperty_ids (athleteId : Z) (record : V)
    (tokens : list (Z * V)) :
  Permutation (map fst (insertProperty athleteId record tokens))
              (athleteId :: map fst tokens).
Proof.
  induction tokens as [|[k v] rest IH]; cbn; [reflexivity|].
  destruct (athleteId <? k)%Z; cbn; [reflexivity|].
  rewrite IH. apply perm_swap.
Qed.

Lemma replace_ids (athleteId : Z) (record : V)
    (tokens : list (Z * V)) :
  map fst (map (fun t => if (fst t =? athleteId)%Z then (athleteId, record) else t)
               tokens)
  = map fst tokens.
Proof.
  rewrite map_map. apply map_ext. intros [k v]. cbn.
  by destruct (Z.eqb_spec k athleteId) as [->|].
Qed.

Lemma setProperty_keeps_ids (athleteId other : Z) (record : V)
    (tokens : list (Z * V)) :
  In other (map fst tokens) ->
  In other (map fst (setProperty athleteId record tokens)).
Proof.
  intros Hin. unfold setProperty.
  destruct (getProperty athleteId tokens).
  - by rewrite replace_ids.
  - apply (Permutation_in _ (Permutation_sym (insertProperty_ids _ _ _))).
    by right.
Qed.

Lemma setProperty_NoDup (athleteId : Z) (record : V)
    (tokens : list (Z * V)) :
  NoDup (map fst tokens) ->
  NoDup (map fst (setProperty athleteId record tokens)).
Proof.
  intros Hnd. unfold setProperty.
  destruct (getProperty athleteId tokens) eqn:E.
  - by rewrite replace_ids.
  - rewrite insertProperty_ids. constructor; [|exact Hnd].
    rewrite list_elem_of_In. by apply getProperty_None.
Qed.

Lemma setProperty_length (athleteId : Z) (record : V)
    (tokens : list (Z * V)) :
  length (setProperty athleteId record tokens)
  = match getProperty athleteId tokens with
    | Some _ => length tokens
    | None => S (length tokens)
    end.
Proof.
  unfold setProperty. destruct (getProperty athleteId tokens).
  - by rewrite length_map.
  - rewrite <- (length_map fst), (Permutation_length (insertProperty_ids _ _ _)).
    cbn. by rewrite length_map.
Qed.

Lemma getProperty_deleteProperty (athleteId other : Z)
    (tokens : list (Z * V)) :
  getProperty other (deleteProperty athleteId tokens)
  = if (athleteId =? other)%Z then None else getProperty other tokens.
Proof.
  induction tokens as [|[k v] rest IH]; cbn.
  - by destruct (athleteId =? other)%Z.
  - destruct (Z.eqb_spec k athleteId) as [->|Hne]; cbn.
    + rewrite IH. by destruct (Z.eqb_spec athleteId other).
    + rewrite IH.
      destruct (Z.eqb_spec k other) as [->|]; [|reflexivity].
      by destruct (Z.eqb_spec athleteId other) as [->|].
Qed.

Lemma deleteProperty_absent (athleteId : Z) (tokens : list (Z * V)) :
  getProperty athleteId tokens = None -> deleteProperty athleteId tokens = tokens.
Proof.
  induction tokens as [|[k v] rest IH]; cbn; [reflexivity|].
  destruct (k =? athleteId)%Z; [discriminate|].
  intros H. by rewrite IH.
Qed.

Lemma deleteProperty_insertProperty (athleteId : Z) (record : V)
    (tokens : list (Z * V)) :
  deleteProperty athleteId (insertProperty athleteId record tokens)
  = deleteProperty athleteId tokens.
Proof.
  induction tokens as [|[k v] rest IH]; cbn.
  - by rewrite Z.eqb_refl.
  - destruct (athleteId <? k)%Z; cbn.
    + by rewrite Z.eqb_refl.
    + rewrite IH. reflexivity.
Qed.

Lemma deleteProperty_keeps_ids (athleteId other : Z)
    (tokens : list (Z * V)) :
  other <> athleteId ->
  In other (map fst tokens) ->
  In other (map fst (deleteProperty athleteId tokens)).
Proof.
  intros Hne. induction tokens as [|[k v] rest IH]; cbn; [tauto|].
  intros [->|Hin].
  - destruct (Z.eqb_spec other athleteId); [done|]. by left.
  - destruct (k =? athleteId)%Z; [by apply IH|]. right. by apply IH.
Qed.

Lemma deleteProperty_length (athleteId : Z) (tokens : list (Z * V))
    (a : V) :
  NoDup (map fst tokens) ->
  getProperty athleteId tokens = Some a ->
  S (length (deleteProperty athleteId tokens)) = length tokens.
Proof.
  induction tokens as [|[k v] rest IH]; cbn; [discriminate|].
  intros Hnd Hget. apply NoDup_cons in Hnd as [Hk Hnd].
  destruct (Z.eqb_spec k athleteId) as [->|Hne].
  - rewrite deleteProperty_absent; [reflexivity|].
    apply getProperty_None. by rewrite <- list_elem_of_In.
  - cbn. by rewrite IH.
Qed.

Lemma eachRecord_wellShaped {A : Type} (f : Z -> AthleteData.t -> A)
    (tokens : list (Z * AthleteData.t)) :
  eachRecord f (wellShaped tokens) = Some (map (fun t => f (fst t) (snd t)) tokens).
Proof.
  induction tokens as [|[k v] rest IH]; [reflexivity|].
  cbn. fold (wellShaped rest). by rewrite IH.
Qed.

Lemma eachRecord_withNull {A : Type} (f : Z -> AthleteData.t -> A)
    (p : Nulled.t) :
  eachRecord f (withNull p) = None.
Proof.
  destruct p as [before athleteId rest]. unfold withNull, wellShaped; cbn.
  induction before as [|[k v] others IH]; [reflexivity|].
  cbn. by rewrite IH.
Qed.

Lemma getProperty_wellShaped (athleteId : Z)
    (tokens : list (Z * AthleteData.t)) :
  getProperty athleteId (wellShaped tokens)
  = Some <$> getProperty athleteId tokens.
Proof.
  induction tokens as [|[k v] rest IH]; cbn; [reflexivity|].
  destruct (k =? athleteId)%Z; [reflexivity|exact IH].
Qed.

Lemma insertProperty_wellShaped (athleteId : Z) (record : AthleteData.t)
    (tokens : list (Z * AthleteData.t)) :
  insertProperty athleteId (Some record) (wellShaped tokens)
  = wellShaped (insertProperty athleteId record tokens).
Proof.
  induction tokens as [|[k v] rest IH]; cbn; [reflexivity|].
  destruct (athleteId <? k)%Z; cbn; [reflexivity|].
  fold (wellShaped rest). by rewrite IH.
Qed.

Lemma setProperty_wellShaped (athleteId : Z) (record : AthleteData.t)
    (tokens : list (Z * AthleteData.t)) :
  setProperty athleteId (Some record) (wellShaped tokens)
  = wellShaped (setProperty athleteId record tokens).
Proof.
  unfold setProperty. rewrite getProperty_wellShaped.
  destruct (getProperty athleteId tokens); cbn.
  - unfold wellShaped. rewrite !map_map. apply map_ext. intros [k v]; cbn.
    by destruct (k =? athleteId)%Z.
  - apply insertProperty_wellShaped.
Qed.

Lemma deleteProperty_wellShaped (athleteId : Z)
    (tokens : list (Z * AthleteData.t)) :
  deleteProperty athleteId (wellShaped tokens)
  = wellShaped (deleteProperty athleteId tokens).
Proof.
  induction tokens as [|[k v] rest IH]; cbn; [reflexivity|].
  fold (wellShaped rest). rewrite IH. by destruct (k =? athleteId)%Z.
Qed.

End PropertyFacts.

(** ** The OAuth callback *)

Section CallbackFacts.
Context {N : JSNumber}.

Lemma authCallback_granted (env : ServerEnv.t) (code error : option string)
    (s : Server.t) (r : AuthResponse.t) (tokens : list (Z * AthleteData.t)) :
  given error = false ->
  ServerEnv.exchange env code = Data r ->
  World.tokensFile (Server.world s) = Holds tokens ->
  authCallback env code error s
  = (Return (200, ConnectedPage (AuthResponse.athlete_firstname r)),
     Server.mk
       (World.mk
          (Holds (setProperty (AuthResponse.athlete_id r)
                    (connectedRecord env r (World.clock (Server.world s)))
                    tokens))
          (World.statsFile (Server.world s)) (World.clock (Server.world s))
          (World.requests (Server.world s)) (World.stderr (Server.world s)))
       (Server.admins s) (Server.exchanges s ++ [code])).
Proof.
  intros Hgiven Hex Hfile. unfold authCallback. rewrite Hgiven.
  unfold tryCatch, bind, axiosPostCode, bind, modify; cbn.
  rewrite Hex. unfold inWorld, readTokens; cbn. rewrite Hfile.
  unfold saveTokens, modify; cbn.
  by rewrite setProperty_wellShaped, stored_wellShaped.
Qed.

(** X13. A granted authorization stores the athlete: the callback answers
    with the welcome page and saves the credential file with the record
    built from the provider's response under the athlete's id; every
    other athlete's record is as before, no id is duplicated, and the
    store grows by one athlete exactly when the id was not there, a
    reconnecting athlete's record being replaced whole.  The stats file
    and the admin sessions are not touched. *)
Theorem callback_stores_the_athlete (env : ServerEnv.t)
    (code error : option string) (s : Server.t) (r : AuthResponse.t)
    (tokens : list (Z * AthleteData.t)) :
  given error = false ->
  ServerEnv.exchange env code = Data r ->
  World.tokensFile (Server.world s) = Holds tokens ->
  exists saved,
    authCallback env code error s
    = (Return (200, ConnectedPage (AuthResponse.athlete_firstname r)),
       Server.mk
         (World.mk (Holds saved)
            (World.statsFile (Server.world s)) (World.clock (Server.world s))
            (World.requests (Server.world s)) (World.stderr (Server.world s)))
         (Server.admins s) (Server.exchanges s ++ [code]))
    /\ getProperty (AuthResponse.athlete_id r) saved
       = Some (connectedRecord env r (World.clock (Server.world s)))
    /\ (forall other, other <> AuthResponse.athlete_id r ->
          getProperty other saved = getProperty other tokens)
    /\ (NoDup (map fst tokens) -> NoDup (map fst saved))
    /\ length saved
       = match getProperty (AuthResponse.athlete_id r) tokens with
         | Some _ => length tokens
         | None => S (length tokens)
         end.
Proof.
  intros Hgiven Hex Hfile. eexists. split.
  - by apply authCallback_granted.
  - split; [|split; [|split]].
    + by rewrite getProperty_setProperty, Z.eqb_refl.
    + intros other Hne. rewrite getProperty_setProperty.
      destruct (Z.eqb_spec (AuthResponse.athlete_id r) other);
        [congruence|reflexivity].
    + apply setProperty_NoDup.
    + apply setProperty_length.
Qed.

(** X14. A callback that does not end in a grant writes nothing.  With
    an [error] parameter it answers the failure page without contacting
    the provider.  When the exchange is rejected, or when the credential
    file is missing or is not valid JSON, it answers status 500 and both
    files are as before, although the authorization code has been sent. *)
Theorem callback_without_grant_writes_nothing (env : ServerEnv.t)
    (code error : option string) (s : Server.t) :
  (given error = true ->
   authCallback env code error s = (Return (200, AuthorizationFailedPage), s))
  /\ (given error = false ->
      (exists e, ServerEnv.exchange env code = Rejected e)
      \/ World.tokensFile (Server.world s) = Absent
      \/ World.tokensFile (Server.world s) = Garbled ->
      authCallback env code error s
      = (Return (500, ConnectErrorPage),
         Server.mk (Server.world s) (Server.admins s)
                   (Server.exchanges s ++ [code]))).
Proof.
  split.
  - intros Hgiven. unfold authCallback. by rewrite Hgiven.
  - intros Hgiven Hcase. unfold authCallback. rewrite Hgiven.
    unfold tryCatch, bind, axiosPostCode, bind, modify; cbn.
    destruct (ServerEnv.exchange env code) as [r|e] eqn:Hex.
    + destruct Hcase as [[e He]|Hfile]; [discriminate|].
      unfold inWorld, readTokens; cbn.
      destruct s as [w admins exchanges]; cbn in *.
      destruct w as [tf sf c rs cs]; cbn in *.
      by destruct Hfile as [->| ->].
    + reflexivity.
Qed.

End CallbackFacts.

(** ** The admin routes *)

Section AdminFacts.
Context {N : JSNumber}.

Lemma deleteAthlete_removed (sid : string) (athleteId : Z) (s : Server.t)
    (tokens : list (Z * AthleteData.t)) (a : AthleteData.t) :
  sid ∈ Server.admins s ->
  World.tokensFile (Server.world s) = Holds tokens ->
  getProperty athleteId tokens = Some a ->
  deleteAthlete sid athleteId s
  = (Return (200, RemovedJson ("Removed athlete: " ++ displayName a)%string
                              athleteId),
     Server.mk
       (World.mk (Holds (deleteProperty athleteId tokens))
          (World.statsFile (Server.world s)) (World.clock (Server.world s))
          (World.requests (Server.world s)) (World.stderr (Server.world s)))
       (Server.admins s) (Server.exchanges s)).
Proof.
  intros Hadmin Hfile Hget. unfold deleteAthlete, requireAdminSession.
  rewrite decide_True by done.
  unfold tryCatch, bind, inWorld, readTokens; cbn.
  rewrite Hfile, getProperty_wellShaped, Hget. cbn.
  unfold saveTokens, modify; cbn.
  by rewrite deleteProperty_wellShaped, stored_wellShaped.
Qed.

Lemma deleteAthlete_refused (sid : string) (athleteId : Z) (s : Server.t) :
  sid ∉ Server.admins s ->
  deleteAthlete sid athleteId s
  = (Return (401, ErrorJson "Not authenticated"), s).
Proof.
  intros Hadmin. unfold deleteAthlete, requireAdminSession.
  by rewrite decide_False.
Qed.

(** X15. Removing an athlete.  Without an admin session the route answers
    401 and reads and writes nothing.  With one, an id the store does not
    hold gives 404 and an unreadable store 500, the files staying as they
    are; an id it holds is removed: the saved file has no record under
    that id, every other athlete's record and the order of the rest are
    as before, and exactly one record is gone. *)
Theorem delete_removes_exactly_one_athlete (sid : string) (athleteId : Z)
    (s : Server.t) :
  (sid ∉ Server.admins s ->
   deleteAthlete sid athleteId s
   = (Return (401, ErrorJson "Not authenticated"), s))
  /\ (sid ∈ Server.admins s ->
      World.tokensFile (Server.world s) = Absent
      \/ World.tokensFile (Server.world s) = Garbled ->
      deleteAthlete sid athleteId s
      = (Return (500, ErrorJson "Failed to remove athlete"), s))
  /\ (forall tokens,
        sid ∈ Server.admins s ->
        World.tokensFile (Server.world s) = Holds tokens ->
        getProperty athleteId tokens = None ->
        deleteAthlete sid athleteId s
        = (Return (404, ErrorJson "Athlete not found"), s))
  /\ (forall tokens a,
        sid ∈ Server.admins s ->
        World.tokensFile (Server.world s) = Holds tokens ->
        getProperty athleteId tokens = Some a ->
        exists saved,
          deleteAthlete sid athleteId s
          = (Return (200, RemovedJson
                            ("Removed athlete: " ++ displayName a)%string
                            athleteId),
             Server.mk
               (World.mk (Holds saved)
                  (World.statsFile (Server.world s))
                  (World.clock (Server.world s))
                  (World.requests (Server.world s))
                  (World.stderr (Server.world s)))
               (Server.admins s) (Server.exchanges s))
          /\ getProperty athleteId saved = None
          /\ (forall other, other <> athleteId ->
                getProperty other saved = getProperty other tokens)
          /\ saved = List.filter (fun t => negb (fst t =? athleteId)%Z) tokens
          /\ (NoDup (map fst tokens) -> S (length saved) = length tokens)).
Proof.
  split; [apply deleteAthlete_refused|]. split; [|split].
  - intros Hadmin Hfile. unfold deleteAthlete, requireAdminSession.
    rewrite decide_True by done.
    unfold tryCatch, bind, inWorld, readTokens; cbn.
    destruct s as [w admins exchanges]; cbn in *.
    destruct w as [tf sf c rs cs]; cbn in *.
    by destruct Hfile as [->| ->].
  - intros tokens Hadmin Hfile Hget. unfold deleteAthlete, requireAdminSession.
    rewrite decide_True by done.
    unfold tryCatch, bind, inWorld, readTokens; cbn.
    rewrite Hfile, getProperty_wellShaped, Hget.
    destruct s as [w admins exchanges]; cbn in *. reflexivity.
  - intros tokens a Hadmin Hfile Hget. eexists. split.
    + by apply deleteAthlete_removed.
    + split; [|split; [|split]].
      * by rewrite getProperty_deleteProperty, Z.eqb_refl.
      * intros other Hne. rewrite getProperty_deleteProperty.
        destruct (Z.eqb_spec athleteId other); [congruence|reflexivity].
      * clear. induction tokens as [|[k v] rest IH]; cbn; [reflexivity|].
        destruct (k =? athleteId)%Z; cbn; by rewrite IH.
      * intros Hnd. by apply (deleteProperty_length athleteId tokens a).
Qed.

(** X16. Connecting an athlete the store did not hold and then removing
    that athlete as admin leaves the credential file exactly as it was. *)
Theorem connect_then_remove_restores_the_store (env : ServerEnv.t)
    (code error : option string) (sid : string) (s : Server.t)
    (r : AuthResponse.t) (tokens : list (Z * AthleteData.t)) :
  given error = false ->
  ServerEnv.exchange env code = Data r ->
  World.tokensFile (Server.world s) = Holds tokens ->
  getProperty (AuthResponse.athlete_id r) tokens = None ->
  sid ∈ Server.admins s ->
  World.tokensFile
    (Server.world
       (snd ((authCallback env code error ;;;
              deleteAthlete sid (AuthResponse.athlete_id r)) s)))
  = Holds tokens.
Proof.
  intros Hgiven Hex Hfile Hnew Hadmin. unfold bind at 1.
  rewrite (authCallback_granted env code error s r tokens) by done.
  erewrite deleteAthlete_removed; cbn; [| done | reflexivity |].
  - unfold setProperty. rewrite Hnew, deleteProperty_insertProperty.
    by rewrite deleteProperty_absent.
  - by rewrite getProperty_setProperty, Z.eqb_refl.
Qed.

End AdminFacts.

(** ** Sequences of requests *)

Section TraceFacts.
Context {N : JSNumber}.

Lemma collectData_files (provider : Provider.t) (cfg : Config.t) (w : W) :
  match World.tokensFile w with
  | Holds (t :: tokens) =>
      World.tokensFile (snd (collectData provider cfg w))
      = Holds (tokensAfter provider (World.clock w) (t :: tokens))
      /\ World.statsFile (snd (collectData provider cfg w))
         = Holds (snapshot provider cfg (World.clock w) (t :: tokens))
  | _ =>
      World.tokensFile (snd (collectData provider cfg w)) = World.tokensFile w
      /\ World.statsFile (snd (collectData provider cfg w)) = World.statsFile w
  end.
Proof.
  destruct (World.tokensFile w) as [| |[|t tokens]|p] eqn:Hfile.
  - unfold collectData, tryCatch, bind, readTokens. rewrite Hfile. by split.
  - unfold collectData, tryCatch, bind, readTokens. rewrite Hfile. by split.
  - unfold collectData, tryCatch, bind, readTokens. rewrite Hfile. by split.
  - destruct (collectData_run provider cfg w (t :: tokens) Hfile ltac:(done))
      as (rs & cs & ->). by split.
  - destruct (collectData_null provider cfg w p Hfile) as (cs & ->).
    by rewrite Hfile.
Qed.

Lemma collectData_storedIds (provider : Provider.t) (cfg : Config.t) (w : W) :
  storedIds (snd (collectData provider cfg w)) = storedIds w.
Proof.
  pose proof (collectData_files provider cfg w) as H. unfold storedIds.
  destruct (World.tokensFile w) as [| |[|t tokens]|p];
    destruct H as [-> _]; try reflexivity.
  apply tokensAfter_ids.
Qed.

Lemma recordIds_In (tokens : Entries) (athleteId : Z) :
  In athleteId (recordIds tokens)
  <-> exists a, In (athleteId, Some a) tokens.
Proof.
  unfold recordIds. rewrite <- list_elem_of_In, list_elem_of_omap. split.
  - intros ([k [a|]] & Hin & Hk); [|discriminate]. injection Hk as ->.
    exists a. by apply list_elem_of_In.
  - intros (a & Hin). exists (athleteId, Some a).
    split; [by apply list_elem_of_In|reflexivity].
Qed.

Lemma recordIds_wellShaped (tokens : list (Z * AthleteData.t)) :
  recordIds (wellShaped tokens) = map fst tokens.
Proof.
  unfold recordIds, wellShaped.
  induction tokens as [|[k a] others IH]; [reflexivity|].
  simpl. f_equal. exact IH.
Qed.

(** The ids of a store are those of the object read from it. *)
Lemma readTokens_storedIds (w : W) :
  (exists e, readTokens w = (Throw e, w) /\ storedIds w = [])
  \/ (exists tokens,
        readTokens w = (Return tokens, w) /\ storedIds w = recordIds tokens).
Proof.
  unfold readTokens, storedIds.
  destruct (World.tokensFile w) as [| |tokens|p].
  - left. by eexists.
  - left. by eexists.
  - right. eexists. split; [reflexivity|]. by rewrite recordIds_wellShaped.
  - right. by eexists.
Qed.

Lemma saveTokens_storedIds (tokens : Entries) (w : W) :
  storedIds (snd (saveTokens tokens w)) = recordIds tokens.
Proof.
  unfold saveTokens, modify, storedIds, stored; cbn.
  pose proof (shape_inv tokens) as H.
  destruct (shape tokens) as [records|p]; rewrite H; [|reflexivity].
  by rewrite recordIds_wellShaped.
Qed.

Lemma insertProperty_Permutation {V : Type} (athleteId : Z) (record : V)
    (tokens : list (Z * V)) :
  Permutation (insertProperty athleteId record tokens)
              ((athleteId, record) :: tokens).
Proof.
  induction tokens as [|[k v] rest IH]; cbn; [reflexivity|].
  destruct (athleteId <? k)%Z; [reflexivity|].
  rewrite IH. apply perm_swap.
Qed.

Lemma setProperty_keeps_records (athleteId other : Z) (record : AthleteData.t)
    (tokens : Entries) :
  In other (recordIds tokens) ->
  In other (recordIds (setProperty athleteId (Some record) tokens)).
Proof.
  rewrite !recordIds_In. intros (a & Hin). unfold setProperty.
  destruct (getProperty athleteId tokens).
  - destruct (Z.eqb_spec other athleteId) as [->|Hne].
    + exists record. apply in_map_iff. exists (athleteId, Some a).
      cbn. by rewrite Z.eqb_refl.
    + exists a. apply in_map_iff. exists (other, Some a). cbn.
      by destruct (Z.eqb_spec other athleteId).
  - exists a.
    apply (Permutation_in _ (Permutation_sym (insertProperty_Permutation _ _ _))).
    by right.
Qed.

Lemma deleteProperty_keeps_records (athleteId other : Z) (tokens : Entries) :
  other <> athleteId ->
  In other (recordIds tokens) ->
  In other (recordIds (deleteProperty athleteId tokens)).
Proof.
  intros Hne. rewrite !recordIds_In. intros (a & Hin). exists a.
  induction tokens as [|[k v] rest IH]; [done|]. cbn.
  destruct Hin as [[= -> ->]|Hin].
  - destruct (Z.eqb_spec other athleteId); [done|]. by left.
  - destruct (k =? athleteId)%Z; [by apply IH|]. right. by apply IH.
Qed.

(** What one request does to the admin sessions. *)
Lemma handle_admins (env : ServerEnv.t) (provider : Provider.t)
    (cfg : Config.t) (request : HttpRequest) (s : Server.t) :
  Server.admins (snd (handle env provider cfg request s))
  = match request with
    | PostAdminLogin sid password =>
        if decide (password = Some (ServerEnv.ADMIN_PASSWORD env))
        then {[sid]} ∪ Server.admins s
        else Server.admins s
    | PostAdminLogout sid => Server.admins s ∖ {[sid]}
    | _ => Server.admins s
    end.
Proof.
  destruct s as [w admins exchanges].
  destruct request as [code error| | | |sid password|sid|sid|sid|sid athleteId];
    cbn [handle].
  - unfold authCallback. destruct (given error); [reflexivity|].
    unfold tryCatch, bind, axiosPostCode, bind, modify, inWorld; cbn.
    destruct (ServerEnv.exchange env code); cbn; [|reflexivity].
    by destruct (readTokens w) as [[tokens|e] w'].
  - unfold apiStats, tryCatch, bind, inWorld; cbn.
    by destruct (readStats w) as [[stats|e] w'].
  - unfold apiAthletes, tryCatch, bind, inWorld, reading; cbn.
    destruct (readTokens w) as [[tokens|e] w']; [|reflexivity].
    by destruct (eachRecord _ tokens).
  - unfold apiTriggerCollect, bind, inWorld, ret; cbn.
    by destruct (collectData provider cfg w) as [[[]|e] w'].
  - unfold adminLogin. by destruct (decide _).
  - reflexivity.
  - reflexivity.
  - unfold athletesList, requireAdminSession; cbn.
    destruct (decide _) as [Hadmin|Hadmin]; [|reflexivity].
    unfold tryCatch, bind, inWorld, reading; cbn.
    destruct (readTokens w) as [[tokens|e] w']; [|reflexivity].
    by destruct (eachRecord _ tokens).
  - unfold deleteAthlete, requireAdminSession; cbn.
    destruct (decide _) as [Hadmin|Hadmin]; [|reflexivity].
    unfold tryCatch, bind, inWorld; cbn.
    destruct (readTokens w) as [[tokens|e] w']; [|reflexivity].
    by destruct (getProperty athleteId tokens) as [[a|]|].
Qed.

(** One request keeps every stored athlete, a removal by an admin apart. *)
Lemma handle_keeps_ids (env : ServerEnv.t) (provider : Provider.t)
    (cfg : Config.t) (request : HttpRequest) (s : Server.t) (athleteId : Z) :
  In athleteId (storedIds (Server.world s)) ->
  (forall sid, request = DeleteAthlete sid athleteId -> sid ∉ Server.admins s) ->
  In athleteId
     (storedIds (Server.world (snd (handle env provider cfg request s)))).
Proof.
  destruct s as [w admins exchanges]. cbn [Server.world Server.admins].
  intros Hin Hdel.
  destruct request as [code error| | | |sid password|sid|sid|sid|sid other];
    cbn [handle].
  - unfold authCallback. destruct (given error); [exact Hin|].
    unfold tryCatch, bind, axiosPostCode, bind, modify, inWorld; cbn.
    destruct (ServerEnv.exchange env code); cbn; [|exact Hin].
    destruct (readTokens_storedIds w) as [(e & -> & _)|(tokens & -> & Hids)];
      [exact Hin|].
    cbn. rewrite Hids in Hin.
    match goal with
    | |- context [stored ?x] =>
        change (In athleteId (storedIds (snd (saveTokens x w))))
    end.
    rewrite saveTokens_storedIds. by apply setProperty_keeps_records.
  - unfold apiStats, tryCatch, bind, inWorld; cbn.
    unfold readStats. by destruct (World.statsFile w) as [| |stats|[]].
  - unfold apiAthletes, tryCatch, bind, inWorld, reading; cbn.
    destruct (readTokens_storedIds w) as [(e & -> & _)|(tokens & -> & _)];
      [exact Hin|].
    by destruct (eachRecord _ tokens).
  - unfold apiTriggerCollect, bind, inWorld, ret; cbn.
    pose proof (collectData_storedIds provider cfg w) as Hids.
    destruct (collectData provider cfg w) as [[[]|e] w']; cbn in *;
      by rewrite Hids.
  - unfold adminLogin. by destruct (decide _).
  - exact Hin.
  - exact Hin.
  - unfold athletesList, requireAdminSession; cbn.
    destruct (decide _) as [Hadmin|Hadmin]; [|exact Hin].
    unfold tryCatch, bind, inWorld, reading; cbn.
    destruct (readTokens_storedIds w) as [(e & -> & _)|(tokens & -> & _)];
      [exact Hin|].
    by destruct (eachRecord _ tokens).
  - unfold deleteAthlete, requireAdminSession; cbn.
    destruct (decide (sid ∈ admins)) as [Hadmin|]; [|exact Hin].
    unfold tryCatch, bind, inWorld; cbn.
    destruct (readTokens_storedIds w) as [(e & -> & _)|(tokens & -> & Hids)];
      [exact Hin|].
    destruct (getProperty other tokens) as [[a|]|]; try exact Hin.
    cbn. rewrite Hids in Hin.
    match goal with
    | |- context [stored ?x] =>
        change (In athleteId (storedIds (snd (saveTokens x w))))
    end.
    rewrite saveTokens_storedIds.
    apply deleteProperty_keeps_records; [|exact Hin].
    intros ->. by apply (Hdel sid).
Qed.

(** X17. Over any sequence of requests, an admin session at the end was
    one at the start or logged in with the admin password in between; and
    an athlete stored at the start is still stored at the end unless the
    sequence holds a removal of that athlete by such a session.  Connecting
    athletes, runs of the collection script, failed logins and the
    read-only routes never drop an athlete. *)
Theorem athletes_are_removed_only_by_admins (env : ServerEnv.t)
    (provider : Provider.t) (cfg : Config.t) (requests : list HttpRequest)
    (s : Server.t) :
  (forall sid,
      sid ∈ Server.admins (serve env provider cfg requests s) ->
      sid ∈ Server.admins s
      \/ In (PostAdminLogin sid (Some (ServerEnv.ADMIN_PASSWORD env))) requests)
  /\ (forall athleteId,
        In athleteId (storedIds (Server.world s)) ->
        (forall sid,
            In (DeleteAthlete sid athleteId) requests ->
            (sid ∉ Server.admins s)
            /\ ~ In (PostAdminLogin sid (Some (ServerEnv.ADMIN_PASSWORD env)))
                    requests) ->
        In athleteId
           (storedIds (Server.world (serve env provider cfg requests s)))).
Proof.
  assert (Hsessions : forall requests s sid,
    sid ∈ Server.admins (serve env provider cfg requests s) ->
    sid ∈ Server.admins s
    \/ In (PostAdminLogin sid (Some (ServerEnv.ADMIN_PASSWORD env))) requests).
  { clear. induction requests as [|request requests IH]; intros s sid Hsid.
    - by left.
    - cbn [serve fold_left] in Hsid.
      destruct (IH _ _ Hsid) as [Hstep|Hlater]; [|right; by right].
      rewrite handle_admins in Hstep.
      destruct request as [| | | |sid' password|sid'| | |];
        try (left; exact Hstep).
      + destruct (decide (password = Some (ServerEnv.ADMIN_PASSWORD env)))
          as [->|]; [|by left].
        apply elem_of_union in Hstep as [Heq|]; [|by left].
        apply elem_of_singleton in Heq as ->. right. by left.
      + left. by apply elem_of_difference in Hstep as [Hstill _]. }
  split; [apply Hsessions|].
  revert s. induction requests as [|request requests IH];
    intros s athleteId Hin Hdel; [exact Hin|].
  cbn [serve fold_left]. apply IH.
  - apply handle_keeps_ids; [exact Hin|].
    intros sid ->. apply (Hdel sid). by left.
  - intros sid Hlater. destruct (Hdel sid) as [Hout Hlogin]; [by right|].
    split; [|intros H; apply Hlogin; by right].
    intros Hadmin.
    destruct (Hsessions [request] s sid Hadmin) as [|[->|[]]]; [done|].
    apply Hlogin. by left.
Qed.

(** X18. A run of the collection script does not change what the public
    athlete list shows: triggering a collection and then asking for
    [/api/athletes] gives the same answer as asking at once, the same
    count, names and connection dates, or the same error. *)
Theorem run_leaves_public_athlete_list (provider : Provider.t)
    (cfg : Config.t) (s : Server.t) :
  fst (apiAthletes (snd (apiTriggerCollect provider cfg s)))
  = fst (apiAthletes s).
Proof.
  destruct s as [w admins exchanges].
  unfold apiTriggerCollect, bind, inWorld; cbn.
  pose proof (collectData_files provider cfg w) as Hfiles.
  pose proof (collectData_never_throws provider cfg w) as Hreturn.
  destruct (collectData provider cfg w) as [o w']; cbn in *. subst o. cbn.
  unfold apiAthletes, tryCatch, bind, inWorld, readTokens; cbn.
  destruct (World.tokensFile w) as [| |tokens0|p];
    try (destruct Hfiles as [-> _]; reflexivity);
    [|destruct Hfiles as [-> _]; by rewrite !eachRecord_withNull].
  assert (Hsaved : World.tokensFile w'
                   = Holds (tokensAfter provider (World.clock w) tokens0)).
  { destruct tokens0; apply Hfiles. }
  rewrite Hsaved.
  rewrite !eachRecord_wellShaped. cbn.
  assert (Hshown :
    map (fun t => (displayName (snd t), AthleteData.connectedAt (snd t)))
        (tokensAfter provider (World.clock w) tokens0)
    = map (fun t => (displayName (snd t), AthleteData.connectedAt (snd t)))
          tokens0).
  { unfold tokensAfter. rewrite map_map. apply map_ext. intros [k a]; cbn.
    destruct (sameIdentity_recordAfter provider (World.clock w) a)
      as (_ & Hf & Hl & Hc).
    unfold displayName. by rewrite Hf, Hl, Hc. }
  by rewrite Hshown.
Qed.

(** X19. The stats endpoint serves what the last run persisted: after a
    triggered collection over a store of records, at least one, it answers
    with the snapshot of that run and the configured mile target; after
    one over an empty or missing store, one that does not parse or one
    with a [null] among its records, it answers as it did before. *)
Theorem stats_endpoint_serves_last_run (env : ServerEnv.t)
    (provider : Provider.t) (cfg : Config.t) (s : Server.t) :
  fst (apiStats env (snd (apiTriggerCollect provider cfg s)))
  = match World.tokensFile (Server.world s) with
    | Holds (t :: tokens) =>
        Return (200,
                StatsJson (snapshot provider cfg (World.clock (Server.world s))
                                    (t :: tokens))
                          (mileTarget env))
    | _ => fst (apiStats env s)
    end.
Proof.
  destruct s as [w admins exchanges].
  unfold apiTriggerCollect, bind, inWorld; cbn.
  pose proof (collectData_files provider cfg w) as Hfiles.
  pose proof (collectData_never_throws provider cfg w) as Hreturn.
  destruct (collectData provider cfg w) as [o w']; cbn in *. subst o. cbn.
  unfold apiStats, tryCatch, bind, inWorld, readStats; cbn.
  destruct (World.tokensFile w) as [| |[|t tokens]|p];
    destruct Hfiles as [_ ->]; try reflexivity;
    by destruct (World.statsFile w) as [| |stats|[]].
Qed.

End TraceFacts.

(** ** From connecting to the next run *)

Section NextRun.
Context {N : JSNumber}.

Lemma getProperty_In (athleteId : Z) (tokens : list (Z * AthleteData.t))
    (a : AthleteData.t) :
  getProperty athleteId tokens = Some a -> In (athleteId, a) tokens.
Proof.
  induction tokens as [|[k v] rest IH]; cbn; [discriminate|].
  destruct (Z.eqb_spec k athleteId) as [->|Hne].
  - intros [= ->]. by left.
  - intros H. right. by apply IH.
Qed.

Lemma getProperty_tokensAfter (provider : Provider.t) (now athleteId : Z)
    (tokens : list (Z * AthleteData.t)) :
  getProperty athleteId (tokensAfter provider now tokens)
  = recordAfter provider now <$> getProperty athleteId tokens.
Proof.
  unfold tokensAfter. induction tokens as [|[k v] rest IH]; cbn; [reflexivity|].
  destruct (k =? athleteId)%Z; [reflexivity|exact IH].
Qed.

Lemma contributions_In (provider : Provider.t) (cfg : Config.t) (now : Z)
    (tokens : list (Z * AthleteData.t)) (t : Z * AthleteData.t) (u : PerUser) :
  In t tokens ->
  contribution provider cfg now (snd t) = Some u ->
  In u (contributions provider cfg now tokens).
Proof.
  intros Ht Hu. unfold contributions.
  apply list_elem_of_In, list_elem_of_omap. exists t.
  split; [by apply list_elem_of_In|exact Hu].
Qed.

(** X21. A newly connected athlete is picked up by the next run: when the
    collection script runs on the credential file the callback saved, at
    any time before the granted token expires, the snapshot lists the
    athlete under first and last name with the activities fetched with
    the granted access token, no refresh being needed, and the run saves
    the athlete's record as the callback wrote it. *)
Theorem connected_athlete_is_in_next_snapshot (env : ServerEnv.t)
    (provider : Provider.t) (cfg : Config.t) (code error : option string)
    (s : Server.t) (r : AuthResponse.t) (tokens : list (Z * AthleteData.t))
    (now : Z) :
  given error = false ->
  ServerEnv.exchange env code = Data r ->
  World.tokensFile (Server.world s) = Holds tokens ->
  (now < AuthResponse.expires_at r)%Z ->
  exists stats saved,
    World.statsFile
      (snd (collectData provider cfg
              (atTime now (Server.world (snd (authCallback env code error s))))))
    = Holds stats
    /\ In (AthleteStat.mk
             (AuthResponse.athlete_firstname r ++ " "
              ++ AuthResponse.athlete_lastname r)%string
             (Breakdown.total
                (calculateDistanceBreakdown
                   (fetched provider cfg (AuthResponse.access_token r))))
             (length (fetched provider cfg (AuthResponse.access_token r)))
             (Breakdown.byType
                (calculateDistanceBreakdown
                   (fetched provider cfg (AuthResponse.access_token r)))))
          (Stats.athletes stats)
    /\ World.tokensFile
         (snd (collectData provider cfg
                 (atTime now
                    (Server.world (snd (authCallback env code error s))))))
       = Holds saved
    /\ getProperty (AuthResponse.athlete_id r) saved
       = Some (connectedRecord env r (World.clock (Server.world s))).
Proof.
  intros Hgiven Hex Hfile Hnow.
  rewrite (authCallback_granted env code error s r tokens) by done.
  cbn [snd Server.world].
  set (record := connectedRecord env r (World.clock (Server.world s))).
  set (stored := setProperty (AuthResponse.athlete_id r) record tokens).
  assert (Hget : getProperty (AuthResponse.athlete_id r) stored = Some record).
  { unfold stored. by rewrite getProperty_setProperty, Z.eqb_refl. }
  assert (Hne : stored <> []).
  { intros Hnil. rewrite Hnil in Hget. discriminate. }
  assert (Hvalid : validAt now record = true).
  { unfold validAt, record; cbn. by apply Z.gtb_lt. }
  match goal with
  | |- context [collectData provider cfg ?w0] =>
      destruct (collectData_run provider cfg w0 stored eq_refl Hne)
        as (rs & cs & ->)
  end.
  cbn [snd World.statsFile World.tokensFile World.clock atTime].
  eexists _, _. split; [reflexivity|]. split; [|split; [reflexivity|]].
  - rewrite snapshot_athletes.
    apply (Permutation_in _ (Permutation_sym (Array_sort_Permutation _))).
    unfold pushed. apply in_map_iff.
    exists (displayName record,
            length (fetched provider cfg (AuthResponse.access_token r)),
            calculateDistanceBreakdown
              (fetched provider cfg (AuthResponse.access_token r))).
    split; [reflexivity|].
    apply (contributions_In provider cfg now stored
             (AuthResponse.athlete_id r, record)).
    + by apply getProperty_In.
    + unfold contribution, refreshed. cbn [snd]. by rewrite Hvalid.
  - rewrite getProperty_tokensAfter, Hget. cbn.
    by rewrite recordAfter_valid.
Qed.

End NextRun.

(** ** The admin session *)

Section SessionFacts.
Context {N : JSNumber}.

(** X22. The life of an admin session.  A login with another password
    answers 401 and changes nothing; after a login with the admin password
    the session is reported as authenticated; after a logout it is not,
    the list and the removal of athletes answer 401 for it without
    touching the state, the files are as before and every other session is
    what it was. *)
Theorem logout_ends_admin_access (env : ServerEnv.t) (sid : string)
    (password : option string) (athleteId : Z) (s : Server.t) :
  (password <> Some (ServerEnv.ADMIN_PASSWORD env) ->
   adminLogin env sid password s
   = (Return (401, ErrorJson "Invalid password"), s))
  /\ fst (adminCheck sid
            (snd (adminLogin env sid (Some (ServerEnv.ADMIN_PASSWORD env)) s)))
     = Return (200, AuthenticatedJson true)
  /\ fst (adminCheck sid (snd (adminLogout sid s)))
     = Return (200, AuthenticatedJson false)
  /\ deleteAthlete sid athleteId (snd (adminLogout sid s))
     = (Return (401, ErrorJson "Not authenticated"), snd (adminLogout sid s))
  /\ athletesList sid (snd (adminLogout sid s))
     = (Return (401, ErrorJson "Not authenticated"), snd (adminLogout sid s))
  /\ Server.world (snd (adminLogout sid s)) = Server.world s
  /\ (forall other, other <> sid ->
        other ∈ Server.admins (snd (adminLogout sid s))
        <-> other ∈ Server.admins s).
Proof.
  assert (Hout : sid ∉ Server.admins (snd (adminLogout sid s))).
  { cbn. intros [_ Hnot]%elem_of_difference. apply Hnot.
    by apply elem_of_singleton. }
  split; [|split; [|split; [|split; [|split; [|split]]]]].
  - intros Hwrong. unfold adminLogin. by rewrite decide_False.
  - unfold adminLogin. rewrite decide_True by reflexivity.
    unfold adminCheck; cbn. rewrite bool_decide_eq_true_2; [reflexivity|].
    apply elem_of_union_l. by apply elem_of_singleton.
  - unfold adminCheck; cbn [fst]. by rewrite bool_decide_eq_false_2.
  - by apply deleteAthlete_refused.
  - unfold athletesList, requireAdminSession. by rewrite decide_False.
  - reflexivity.
  - intros other Hne. cbn. rewrite elem_of_difference, elem_of_singleton.
    tauto.
Qed.

End SessionFacts.

(** * Concrete runs of the further properties *)

Lemma fetch_request_bound_witness :
  firstFailure (Provider.activities (N:=binary64) demoProvider "tokD"
                  "2026-01-01" "2026-12-31" perPage)
  = None
  /\ exists result w',
       fetchActivities (N:=binary64) demoProvider "tokD"
         "2026-01-01" "2026-12-31" demoWorld
       = (Return result, w')
       /\ length (World.requests w')
          <= length (World.requests (N:=binary64) demoWorld)
             + length result / perPage + 1.
Proof.
  assert (H : firstFailure
                (Provider.activities (N:=binary64) demoProvider "tokD"
                   "2026-01-01" "2026-12-31" perPage)
              = None) by (vm_compute; reflexivity).
  split; [exact H|].
  exact (fetch_request_bound (N:=binary64) demoProvider "tokD"
           "2026-01-01" "2026-12-31" demoWorld H).
Defined.

(** 450 records are fetched with three requests. *)
Lemma paged_history_fetched_completely_witness :
  Provider.activities (N:=binary64) (pagingProvider (repeat run1km 450)) "tok"
    "2026-01-01" "2026-12-31" perPage
  = servedInPages (repeat run1km 450)
  /\ fetchActivities (N:=binary64) (pagingProvider (repeat run1km 450)) "tok"
       "2026-01-01" "2026-12-31" demoWorld
     = (Return (repeat run1km 450),
        sent demoWorld
             (pageRequests "tok" "2026-01-01" "2026-12-31" 1
                (length (repeat (run1km (N:=binary64)) 450) / perPage + 1))).
Proof.
  assert (H : Provider.activities (N:=binary64)
                (pagingProvider (repeat run1km 450)) "tok"
                "2026-01-01" "2026-12-31" perPage
              = servedInPages (repeat run1km 450)) by reflexivity.
  split; [exact H|].
  exact (paged_history_fetched_completely (N:=binary64)
           (pagingProvider (repeat run1km 450)) "tok"
           "2026-01-01" "2026-12-31" (repeat run1km 450) demoWorld H).
Defined.

Lemma expired_token_is_rotated_witness :
  (AthleteData.expiresAt bob <= World.clock (N:=binary64) demoWorld)%Z
  /\ Provider.token (N:=binary64) demoProvider (AthleteData.refreshToken bob)
     = Data (TokenResponse.mk "tokB2" "refB2" 1000)
  /\ exists a',
       refreshAccessToken (N:=binary64) demoProvider demoConfig (bob, demoWorld)
       = (Return "tokB2",
          (a', sent demoWorld [PostToken "CLIENT_ID" "CLIENT_SECRET" "refB"]))
       /\ AthleteData.accessToken a' = "tokB2"
       /\ AthleteData.refreshToken a' = "refB2"
       /\ AthleteData.expiresAt a' = 1000%Z
       /\ sameIdentity bob a'.
Proof.
  assert (H1 : (AthleteData.expiresAt bob
                <= World.clock (N:=binary64) demoWorld)%Z)
    by (vm_compute; discriminate).
  assert (H2 : Provider.token (N:=binary64) demoProvider
                 (AthleteData.refreshToken bob)
               = Data (TokenResponse.mk "tokB2" "refB2" 1000))
    by reflexivity.
  split; [exact H1|split; [exact H2|]].
  exact (expired_token_is_rotated (N:=binary64) demoProvider demoConfig bob
           demoWorld (TokenResponse.mk "tokB2" "refB2" 1000) H1 H2).
Defined.

Lemma snapshot_total_is_sum_of_athletes_witness :
  World.tokensFile (N:=exact) demoWorld = Holds demoTokens
  /\ demoTokens <> []
  /\ exists stats,
       World.statsFile (snd (collectData (N:=exact) demoProvider demoConfig
                                         demoWorld))
       = Holds stats
       /\ Stats.athleteCount stats = Some (length (Stats.athletes stats))
       /\ length (Stats.athletes stats) <= length demoTokens
       /\ Stats.totalDistance stats
          = fold_left add (map AthleteStat.distance (Stats.athletes stats)) zero.
Proof.
  assert (H1 : World.tokensFile (N:=exact) demoWorld = Holds demoTokens)
    by reflexivity.
  assert (H2 : demoTokens <> []) by discriminate.
  split; [exact H1|split; [exact H2|]].
  destruct (snapshot_total_is_sum_of_athletes (N:=exact) demoProvider
              demoConfig demoWorld demoTokens H1 H2)
    as (stats & Hfile & _ & Hcount & _ & Hle & Hsum).
  exists stats.
  split; [exact Hfile|split; [exact Hcount|split; [exact Hle|]]].
  exact (Hsum exact_ExactSum).
Defined.

Lemma global_counts_agree_with_athletes_witness :
  World.tokensFile (N:=binary64) demoWorld = Holds demoTokens
  /\ demoTokens <> []
  /\ exists stats global,
       World.statsFile (snd (collectData (N:=binary64) demoProvider demoConfig
                                         demoWorld))
       = Holds stats
       /\ Stats.activityTypeBreakdown stats = Some global
       /\ (forall type,
             typeCountOf type global
             = list_sum (map (fun a => typeCountOf type (AthleteStat.byType a))
                             (Stats.athletes stats)))
       /\ totalCount global
          = list_sum (map (fun a => totalCount (AthleteStat.byType a))
                          (Stats.athletes stats))
       /\ ownKeys global
       /\ (forall a, In a (Stats.athletes stats) ->
             totalCount (AthleteStat.byType a) <= AthleteStat.activityCount a).
Proof.
  assert (H1 : World.tokensFile (N:=binary64) demoWorld = Holds demoTokens)
    by reflexivity.
  assert (H2 : demoTokens <> []) by discriminate.
  split; [exact H1|split; [exact H2|]].
  exact (global_counts_agree_with_athletes (N:=binary64) demoProvider
           demoConfig demoWorld demoTokens H1 H2).
Defined.

Lemma run_keeps_every_athlete_witness :
  World.tokensFile (N:=binary64) demoWorld = Holds demoTokens
  /\ demoTokens <> []
  /\ exists saved,
       World.tokensFile (snd (collectData (N:=binary64) demoProvider demoConfig
                                          demoWorld))
       = Holds saved
       /\ map fst saved = [1%Z; 2%Z; 3%Z; 4%Z].
Proof.
  assert (H1 : World.tokensFile (N:=binary64) demoWorld = Holds demoTokens)
    by reflexivity.
  assert (H2 : demoTokens <> []) by discriminate.
  split; [exact H1|split; [exact H2|]].
  destruct (run_keeps_every_athlete (N:=binary64) demoProvider demoConfig
              demoWorld demoTokens H1 H2) as (saved & Hfile & Hids & _).
  exists saved. split; [exact Hfile|exact Hids].
Defined.

Lemma all_refreshes_rejected_writes_empty_snapshot_witness :
  World.tokensFile (N:=binary64) lapsedStore = Holds [(3%Z, carol)]
  /\ Forall (fun t =>
               validAt (World.clock (N:=binary64) lapsedStore) (snd t) = false
               /\ exists e,
                    Provider.token (N:=binary64) demoProvider
                      (AthleteData.refreshToken (snd t))
                    = Rejected e)
            [(3%Z, carol)]
  /\ exists requests stderr,
       collectData (N:=binary64) demoProvider demoConfig lapsedStore
       = (Return tt,
          World.mk (Holds [(3%Z, carol)])
                   (Holds (Stats.mk zero (Some (mul zero kmToMiles)) []
                                    (Some 0) (Some ∅) (Some 50%Z)
                                    (Some ("2026-01-01", "2026-12-31"))))
                   50%Z requests stderr).
Proof.
  assert (H1 : World.tokensFile (N:=binary64) lapsedStore
               = Holds [(3%Z, carol)]) by reflexivity.
  assert (H2 : [(3%Z, carol)] <> []) by discriminate.
  assert (H3 : Forall (fun t =>
                 validAt (World.clock (N:=binary64) lapsedStore) (snd t) = false
                 /\ exists e,
                      Provider.token (N:=binary64) demoProvider
                        (AthleteData.refreshToken (snd t))
                      = Rejected e)
                 [(3%Z, carol)]).
  { constructor; [|constructor].
    split; [reflexivity|exists NetworkError; reflexivity]. }
  split; [exact H1|split; [exact H3|]].
  exact (all_refreshes_rejected_writes_empty_snapshot (N:=binary64)
           demoProvider demoConfig lapsedStore [(3%Z, carol)] H1 H2 H3).
Defined.

(** Erin connects: the store holds five athletes afterwards. *)
Lemma callback_stores_the_athlete_witness :
  given None = false
  /\ ServerEnv.exchange (N:=binary64) demoEnv (Some "code5") = Data erinGrant
  /\ World.tokensFile (Server.world (N:=binary64) demoServer) = Holds demoTokens
  /\ exists saved,
       authCallback (N:=binary64) demoEnv (Some "code5") None demoServer
       = (Return (200, ConnectedPage "Erin"),
          Server.mk (World.mk (Holds saved) Absent 50 [] [])
                    {["sid1"]} [Some "code5"])
       /\ getProperty 5 saved
          = Some (AthleteData.mk 5 "Erin" "E" "tokE" "refE" 2000
                                 "2026-02-01T00:00:00.000Z")
       /\ getProperty 2 saved = Some bob
       /\ length saved = 5.
Proof.
  assert (H1 : given None = false) by reflexivity.
  assert (H2 : ServerEnv.exchange (N:=binary64) demoEnv (Some "code5")
               = Data erinGrant) by reflexivity.
  assert (H3 : World.tokensFile (Server.world (N:=binary64) demoServer)
               = Holds demoTokens) by reflexivity.
  split; [exact H1|split; [exact H2|split; [exact H3|]]].
  destruct (callback_stores_the_athlete (N:=binary64) demoEnv (Some "code5")
              None demoServer erinGrant demoTokens H1 H2 H3)
    as (saved & Hrun & Hnew & Hold & _ & Hlen).
  exists saved.
  split; [exact Hrun|split; [exact Hnew|split; [|exact Hlen]]].
  rewrite (Hold 2%Z); [reflexivity|discriminate].
Defined.

(** A denied authorization, and a code the provider rejects. *)
Lemma callback_without_grant_writes_nothing_witness :
  given (Some "access_denied") = true
  /\ authCallback (N:=binary64) demoEnv None (Some "access_denied") demoServer
     = (Return (200, AuthorizationFailedPage), demoServer)
  /\ given None = false
  /\ ServerEnv.exchange (N:=binary64) demoEnv (Some "stale")
     = Rejected (HttpError 400)
  /\ authCallback (N:=binary64) demoEnv (Some "stale") None demoServer
     = (Return (500, ConnectErrorPage),
        Server.mk demoWorld {["sid1"]} [Some "stale"]).
Proof.
  assert (H1 : given (Some "access_denied") = true) by reflexivity.
  assert (H2 : given None = false) by reflexivity.
  assert (H3 : ServerEnv.exchange (N:=binary64) demoEnv (Some "stale")
               = Rejected (HttpError 400)) by reflexivity.
  split; [exact H1|split].
  { exact (proj1 (callback_without_grant_writes_nothing (N:=binary64) demoEnv
                    None (Some "access_denied") demoServer) H1). }
  split; [exact H2|split; [exact H3|]].
  exact (proj2 (callback_without_grant_writes_nothing (N:=binary64) demoEnv
                  (Some "stale") None demoServer) H2
               (or_introl (ex_intro _ (HttpError 400) H3))).
Defined.

(** Removing Bob: refused without an admin session, done with one; an
    unknown id and an unreadable store change nothing. *)
Lemma delete_removes_exactly_one_athlete_witness :
  ("sid2" ∉ Server.admins (N:=binary64) demoServer)
  /\ deleteAthlete (N:=binary64) "sid2" 2 demoServer
     = (Return (401, ErrorJson "Not authenticated"), demoServer)
  /\ ("sid1" ∈ Server.admins (N:=binary64) demoServer)
  /\ deleteAthlete (N:=binary64) "sid1" 2 garbledServer
     = (Return (500, ErrorJson "Failed to remove athlete"), garbledServer)
  /\ deleteAthlete (N:=binary64) "sid1" 9 demoServer
     = (Return (404, ErrorJson "Athlete not found"), demoServer)
  /\ exists saved,
       deleteAthlete (N:=binary64) "sid1" 2 demoServer
       = (Return (200, RemovedJson "Removed athlete: Bob B" 2),
          Server.mk (World.mk (Holds saved) Absent 50 [] []) {["sid1"]} [])
       /\ saved = [(1%Z, alice); (3%Z, carol); (4%Z, dave)].
Proof.
  assert (Hout : "sid2" ∉ Server.admins (N:=binary64) demoServer).
  { apply not_elem_of_singleton. discriminate. }
  assert (Hin : "sid1" ∈ Server.admins (N:=binary64) demoServer).
  { apply elem_of_singleton. reflexivity. }
  assert (Hfile : World.tokensFile (Server.world (N:=binary64) demoServer)
                  = Holds demoTokens) by reflexivity.
  split; [exact Hout|split].
  { exact (proj1 (delete_removes_exactly_one_athlete (N:=binary64) "sid2" 2
                    demoServer) Hout). }
  split; [exact Hin|split].
  { exact (proj1 (proj2 (delete_removes_exactly_one_athlete (N:=binary64)
                           "sid1" 2 garbledServer))
                 Hin (or_intror eq_refl)). }
  split.
  { exact (proj1 (proj2 (proj2 (delete_removes_exactly_one_athlete
                                  (N:=binary64) "sid1" 9 demoServer)))
                 demoTokens Hin Hfile eq_refl). }
  destruct (proj2 (proj2 (proj2 (delete_removes_exactly_one_athlete
                                   (N:=binary64) "sid1" 2 demoServer)))
                  demoTokens bob Hin Hfile eq_refl)
    as (saved & Hrun & _ & _ & Hsaved & _).
  exists saved. split; [exact Hrun|exact Hsaved].
Defined.

Lemma connect_then_remove_restores_the_store_witness :
  given None = false
  /\ ServerEnv.exchange (N:=binary64) demoEnv (Some "code5") = Data erinGrant
  /\ getProperty 5 demoTokens = None
  /\ "sid1" ∈ Server.admins (N:=binary64) demoServer
  /\ World.tokensFile
       (Server.world
          (snd ((authCallback (N:=binary64) demoEnv (Some "code5") None ;;;
                 deleteAthlete "sid1" 5) demoServer)))
     = Holds demoTokens.
Proof.
  assert (H1 : given None = false) by reflexivity.
  assert (H2 : ServerEnv.exchange (N:=binary64) demoEnv (Some "code5")
               = Data erinGrant) by reflexivity.
  assert (H3 : World.tokensFile (Server.world (N:=binary64) demoServer)
               = Holds demoTokens) by reflexivity.
  assert (H4 : getProperty 5 demoTokens = None) by reflexivity.
  assert (H5 : "sid1" ∈ Server.admins (N:=binary64) demoServer).
  { apply elem_of_singleton. reflexivity. }
  split; [exact H1|split; [exact H2|split; [exact H4|split; [exact H5|]]]].
  exact (connect_then_remove_restores_the_store (N:=binary64) demoEnv
           (Some "code5") None "sid1" demoServer erinGrant demoTokens
           H1 H2 H3 H4 H5).
Defined.

(** After the morning's requests the second admin's session traces back
    to the login, and Bob, whose removal was asked for by a session that
    never logged in, is still stored. *)
Lemma athletes_are_removed_only_by_admins_witness :
  "sid2" ∈ Server.admins
             (serve (N:=binary64) demoEnv demoProvider demoConfig demoRequests
                    demoServer)
  /\ ("sid2" ∈ Server.admins (N:=binary64) demoServer
      \/ In (PostAdminLogin "sid2" (Some "s3cret")) demoRequests)
  /\ In 2%Z (storedIds (Server.world (N:=binary64) demoServer))
  /\ In 2%Z
        (storedIds
           (Server.world
              (serve (N:=binary64) demoEnv demoProvider demoConfig demoRequests
                     demoServer))).
Proof.
  assert (H1 : "sid2" ∈ Server.admins
                 (serve (N:=binary64) demoEnv demoProvider demoConfig
                        demoRequests demoServer)).
  { apply (bool_decide_unpack _). vm_compute. exact I. }
  assert (H2 : In 2%Z (storedIds (Server.world (N:=binary64) demoServer))).
  { right. left. reflexivity. }
  assert (H3 : forall sid,
             In (DeleteAthlete sid 2) demoRequests ->
             (sid ∉ Server.admins (N:=binary64) demoServer)
             /\ ~ In (PostAdminLogin sid
                        (Some (ServerEnv.ADMIN_PASSWORD (N:=binary64) demoEnv)))
                     demoRequests).
  { intros sid [H|[H|[H|[H|[]]]]]; try discriminate H.
    injection H as <-. split.
    - apply not_elem_of_singleton. discriminate.
    - intros [H|[H|[H|[H|[]]]]]; discriminate H. }
  split; [exact H1|split].
  { exact (proj1 (athletes_are_removed_only_by_admins (N:=binary64) demoEnv
                    demoProvider demoConfig demoRequests demoServer)
                 "sid2" H1). }
  split; [exact H2|].
  exact (proj2 (athletes_are_removed_only_by_admins (N:=binary64) demoEnv
                  demoProvider demoConfig demoRequests demoServer)
               2%Z H2 H3).
Defined.

(** Erin connects at clock reading 50 with a token good until 2000; a run
    at 1500 lists her. *)
Lemma connected_athlete_is_in_next_snapshot_witness :
  given None = false
  /\ ServerEnv.exchange (N:=binary64) demoEnv (Some "code5") = Data erinGrant
  /\ World.tokensFile (Server.world (N:=binary64) demoServer) = Holds demoTokens
  /\ (1500 < AuthResponse.expires_at erinGrant)%Z
  /\ exists stats,
       World.statsFile
         (snd (collectData (N:=binary64) demoProvider demoConfig
                 (atTime 1500
                    (Server.world
                       (snd (authCallback demoEnv (Some "code5") None
                                          demoServer))))))
       = Holds stats
       /\ In "Erin E" (map AthleteStat.name (Stats.athletes stats)).
Proof.
  assert (H1 : given None = false) by reflexivity.
  assert (H2 : ServerEnv.exchange (N:=binary64) demoEnv (Some "code5")
               = Data erinGrant) by reflexivity.
  assert (H3 : World.tokensFile (Server.world (N:=binary64) demoServer)
               = Holds demoTokens) by reflexivity.
  assert (H4 : (1500 < AuthResponse.expires_at erinGrant)%Z) by reflexivity.
  split; [exact H1|split; [exact H2|split; [exact H3|split; [exact H4|]]]].
  destruct (connected_athlete_is_in_next_snapshot (N:=binary64) demoEnv
              demoProvider demoConfig (Some "code5") None demoServer erinGrant
              demoTokens 1500%Z H1 H2 H3 H4)
    as (stats & saved & Hstats & Hin & _).
  exists stats. split; [exact Hstats|].
  apply in_map_iff. eexists. split; [|exact Hin]. reflexivity.
Defined.

(** A guessed password opens no session. *)
Lemma logout_ends_admin_access_witness :
  Some "guess" <> Some (ServerEnv.ADMIN_PASSWORD (N:=binary64) demoEnv)
  /\ adminLogin (N:=binary64) demoEnv "sid3" (Some "guess") demoServer
     = (Return (401, ErrorJson "Invalid password"), demoServer)
  /\ deleteAthlete (N:=binary64) "sid1" 2 (snd (adminLogout "sid1" demoServer))
     = (Return (401, ErrorJson "Not authenticated"),
        snd (adminLogout "sid1" demoServer)).
Proof.
  assert (H : Some "guess"
              <> Some (ServerEnv.ADMIN_PASSWORD (N:=binary64) demoEnv))
    by discriminate.
  split; [exact H|split].
  - exact (proj1 (logout_ends_admin_access (N:=binary64) demoEnv "sid3"
                    (Some "guess") 2 demoServer) H).
  - exact (proj1 (proj2 (proj2 (proj2
             (logout_ends_admin_access (N:=binary64) demoEnv "sid1"
                (Some "guess") 2 demoServer))))).
Defined.
